(** * VPC provisioning service: orchestration, rollback and metadata store

    A shallow embedding of the Python sources

      - [app/lambda_functions/common/vpc_manager.py]  (class [VPCManager])
      - [app/lambda_functions/common/dynamodb.py]     (class [VPCMetadataStore])
      - [app/lambda_functions/common/validation.py]   ([validate_vpc_id])
      - [app/lambda_functions/common/responses.py]
      - [app/lambda_functions/delete_vpc.py]          ([handler])

    Python [str] values are modelled as [string] (sequences of 8-bit
    characters), Python [int] as [Z], dictionaries with a fixed key set as
    records, the DynamoDB table as a [gmap] from the partition key to items.
    The EC2 service and the wall clock are the environment: every request the
    code sends is answered by an oracle that sees the history so far, and
    every request is recorded with its outcome in a trace.  Calls to [logger]
    do not influence control flow or results and are left out. *)

From Stdlib Require Import ZArith Ascii DecimalString.
From stdpp Require Import base strings gmap list.

Set Warnings "-register-all".
Local Open Scope Z_scope.

(** ** Exceptions and results *)

(** The exception classes the code distinguishes in its [except] clauses.
    All of them derive from [Exception]; [ClientError] carries
    [e.response['Error']['Code']] and [e.response['Error']['Message']]. *)
Inductive exn : Type :=
| ClientError (code message : string)
| ValueError (msg : string)
| IndexError (msg : string)
| OtherException (cls msg : string).

Definition exn_class_name (e : exn) : string :=
  match e with
  | ClientError _ _ => "ClientError"
  | ValueError _ => "ValueError"
  | IndexError _ => "IndexError"
  | OtherException cls _ => cls
  end.

Definition is_ClientError (e : exn) : bool :=
  match e with ClientError _ _ => true | _ => false end.

Inductive result (A : Type) : Type :=
| Ok (a : A)
| Raise (e : exn).
Arguments Ok {A} a.
Arguments Raise {A} e.

Definition is_Ok {A} (r : result A) : bool :=
  match r with Ok _ => true | Raise _ => false end.

(** ** Python string primitives *)

Module PyStr.

(** [c in s] for a one-character [c]. *)
Fixpoint contains (c : ascii) (s : string) : bool :=
  match s with
  | EmptyString => false
  | String a s' => Ascii.eqb a c || contains c s'
  end.

(** [s.split(sep)] for a one-character separator: the result is never
    empty, and [''.split(sep) == ['']]. *)
Fixpoint split (sep : ascii) (s : string) : list string :=
  match s with
  | EmptyString => [EmptyString]
  | String a s' =>
      if Ascii.eqb a sep then EmptyString :: split sep s'
      else match split sep s' with
           | h :: t => String a h :: t
           | [] => [String a EmptyString]
           end
  end.

(** [sep.join(l)]. *)
Fixpoint join (sep : string) (l : list string) : string :=
  match l with
  | [] => EmptyString
  | [x] => x
  | x :: tl => x +:+ sep +:+ join sep tl
  end.

(** Characters [int()] and [str.strip()] treat as white space, among the
    code points below 256: TAB, LF, VT, FF, CR, FS, GS, RS, US, SPACE, NEL
    and NBSP. *)
Definition is_space (c : ascii) : bool :=
  let n := nat_of_ascii c in
  ((9 <=? n)%nat && (n <=? 13)%nat) || ((28 <=? n)%nat && (n <=? 32)%nat)
  || Nat.eqb n 133 || Nat.eqb n 160.

Fixpoint lstrip (s : string) : string :=
  match s with
  | EmptyString => EmptyString
  | String a s' => if is_space a then lstrip s' else s
  end.

Fixpoint rstrip (s : string) : string :=
  match s with
  | EmptyString => EmptyString
  | String a s' =>
      match rstrip s' with
      | EmptyString => if is_space a then EmptyString else String a EmptyString
      | r => String a r
      end
  end.

Definition strip (s : string) : string := rstrip (lstrip s).

Definition digit_val (c : ascii) : option Z :=
  let n := nat_of_ascii c in
  if (48 <=? n)%nat && (n <=? 57)%nat then Some (Z.of_nat n - 48) else None.

(** Digits of a decimal literal; a single underscore is allowed between
    two digits.  [prev] tells whether the previous character was a digit. *)
Fixpoint digits (s : string) (acc : Z) (prev : bool) : option Z :=
  match s with
  | EmptyString => if prev then Some acc else None
  | String a s' =>
      match digit_val a with
      | Some d => digits s' (10 * acc + d) true
      | None =>
          if Ascii.eqb a "_" && prev then digits s' acc false else None
      end
  end.

(** [int(s)]: surrounding white space, an optional sign, decimal digits. *)
Definition int (s : string) : result Z :=
  let body := strip s in
  let parsed :=
    match body with
    | String "-" r => Z.opp <$> digits r 0 false
    | String "+" r => digits r 0 false
    | _ => digits body 0 false
    end in
  match parsed with
  | Some z => Ok z
  | None =>
      Raise (ValueError ("invalid literal for int() with base 10: " +:+ s))
  end.

(** [str(z)] for an [int]. *)
Definition of_int (z : Z) : string := NilZero.string_of_int (Z.to_int z).

End PyStr.

(** ** Wall clock: [datetime.utcnow().isoformat()] *)

Record datetime : Type := Datetime {
  year : nat; month : nat; day : nat;
  hour : nat; minute : nat; second : nat; microsecond : nat
}.

Module PyDatetime.

Fixpoint zeros (n : nat) : string :=
  match n with O => EmptyString | S n' => String "0" (zeros n') end.

(** [%0<width>d] *)
Definition pad (width n : nat) : string :=
  let s := NilZero.string_of_uint (Nat.to_uint n) in
  zeros (width - String.length s) +:+ s.

(** [datetime.isoformat()] of a naive datetime:
    [YYYY-MM-DDTHH:MM:SS], followed by [.ffffff] when the microsecond
    field is not zero. *)
Definition isoformat (d : datetime) : string :=
  pad 4 (year d) +:+ "-" +:+ pad 2 (month d) +:+ "-" +:+ pad 2 (day d)
  +:+ "T" +:+ pad 2 (hour d) +:+ ":" +:+ pad 2 (minute d) +:+ ":"
  +:+ pad 2 (second d)
  +:+ (if Nat.eqb (microsecond d) 0 then EmptyString else "." +:+ pad 6 (microsecond d)).

End PyDatetime.

(** ** Data model *)

Record tag : Type := Tag { Key : string; Value : string }.

(** The dictionary built by [_create_subnet]. *)
Record SubnetRecord : Type := {
  subnet_id : string;
  subnet_cidr_block : string;
  availability_zone : option string;   (* [None] when no zone was found *)
  subnet_type : string
}.

(** [vpc_details], the dictionary returned by [VPCManager.create_vpc]. *)
Record NetworkRecord : Type := {
  vpc_id : string;
  name : string;
  cidr_block : string;
  region : string;
  subnets : list SubnetRecord;
  internet_gateway_id : string;
  route_tables : gmap string string;
  status : string;
  created_at : string;
  created_by : string
}.

(** The dictionary returned by [VPCManager.delete_vpc] (with [deleted_at])
    or built by the delete handler (with [note]). *)
Record DeletionRecord : Type := {
  del_vpc_id : string;
  del_status : string;
  deleted_at : option string;
  note : option string
}.

(** ** The EC2 interface *)

Inductive vpc_attribute : Type :=
| EnableDnsHostnames (v : bool)
| EnableDnsSupport (v : bool).

Record availability_zone_info : Type := {
  ZoneName : string;
  State : string
}.

(** The attributes of a boto3 [RouteTableAssociation] the code reads. *)
Record route_table_association : Type := {
  assoc_id : string;
  main : bool
}.

Record route_table : Type := {
  rt_id : string;
  associations : list route_table_association
}.

(** Requests sent to EC2, through the client ([create_vpc] and its helpers)
    or through the resource API ([delete_vpc]: a collection's [all()] is one
    describe request, [delete()] and [detach_internet_gateway] one request
    each). *)
Inductive ec2_call : Type :=
| CreateVpc (CidrBlock : string) (Tags : list tag)
| ModifyVpcAttribute (VpcId : string) (attr : vpc_attribute)
| DescribeAvailabilityZones (state_filter : list string)
| CreateSubnet (VpcId CidrBlock : string) (AvailabilityZone : option string)
               (Tags : list tag)
| ModifySubnetAttribute (SubnetId : string) (MapPublicIpOnLaunch : bool)
| CreateInternetGateway (Tags : list tag)
| AttachInternetGateway (InternetGatewayId VpcId : string)
| CreateRouteTable (VpcId : string) (Tags : list tag)
| CreateRoute (RouteTableId DestinationCidrBlock GatewayId : string)
| AssociateRouteTable (RouteTableId SubnetId : string)
| DescribeSubnets (VpcId : string)
| DeleteSubnet (SubnetId : string)
| DescribeRouteTables (VpcId : string)
| DeleteRouteTable (RouteTableId : string)
| DescribeInternetGateways (VpcId : string)
| DetachInternetGateway (VpcId InternetGatewayId : string)
| DeleteInternetGateway (InternetGatewayId : string)
| DeleteVpc (VpcId : string).

(** What the code reads from the answer to each request: the identifier of
    a created resource, or the listed resources. *)
Definition ec2_resp (c : ec2_call) : Type :=
  match c with
  | CreateVpc _ _ => string
  | DescribeAvailabilityZones _ => list availability_zone_info
  | CreateSubnet _ _ _ _ => string
  | CreateInternetGateway _ => string
  | CreateRouteTable _ _ => string
  | DescribeSubnets _ => list string
  | DescribeRouteTables _ => list route_table
  | DescribeInternetGateways _ => list string
  | _ => unit
  end.

(** ** The DynamoDB interface *)

Inductive attr_value : Type :=
| AttrS (s : string)
| AttrL (l : list attr_value)
| AttrM (m : list (string * attr_value)).

(** An item is a finite map from attribute names to values; the table maps
    the partition key [vpc_id] to the item stored under it. *)
Abbreviation item := (gmap string attr_value).

Inductive ddb_call : Type :=
| GetItem (key : string)
| DeleteItem (key : string)
| UpdateItem (key : string) (attr : string) (value : attr_value).

(** ** Traces, worlds and the environment *)

Inductive event : Type :=
| Ec2 (c : ec2_call) (r : result (ec2_resp c))
| Ddb (c : ddb_call) (fault : option exn).

Record world : Type := World {
  trace : list event;            (* requests sent so far, oldest first *)
  table : gmap string item;      (* contents of the metadata table *)
  clock_reads : nat              (* number of [utcnow()] calls so far *)
}.

(** The environment answers every EC2 request, decides whether a DynamoDB
    request fails with a service error, and gives the time of each clock
    read.  Answers may depend on everything that happened before. *)
Record environment : Type := {
  ec2 : list event -> forall c : ec2_call, result (ec2_resp c);
  ddb_fault : list event -> ddb_call -> option exn;
  clock : nat -> datetime
}.

(** ** A state-and-exception monad for the code *)

Definition M (A : Type) : Type := world -> result A * world.

Definition ret {A} (a : A) : M A := fun w => (Ok a, w).

Definition raise {A} (e : exn) : M A := fun w => (Raise e, w).

Definition bind {A B} (m : M A) (k : A -> M B) : M B :=
  fun w =>
    match m w with
    | (Ok a, w') => k a w'
    | (Raise e, w') => (Raise e, w')
    end.

(** A pure computation that may raise. *)
Definition lift {A} (r : result A) : M A := fun w => (r, w).

(** [try: body except Exception as e: handler(e)] *)
Definition try_except {A} (body : M A) (handler : exn -> M A) : M A :=
  fun w =>
    match body w with
    | (Raise e, w') => handler e w'
    | r => r
    end.

Notation "'let*' x ':=' m 'in' k" := (bind m (fun x => k))
  (at level 10, x name, m at level 100, k at level 200).
Notation "m '>>' k" := (bind m (fun _ => k))
  (at level 90, right associativity).

(** [for x in l: body(x)] *)
Fixpoint for_each {A} (l : list A) (body : A -> M unit) : M unit :=
  match l with
  | [] => ret tt
  | x :: l' => body x >> for_each l' body
  end.

(** Python truthiness of an optional string: [None] and [''] are falsy. *)
Definition truthy (s : option string) : bool :=
  match s with
  | Some (String _ _) => true
  | _ => false
  end.

Definition push (ev : event) (w : world) : world :=
  World (trace w ++ [ev]) (table w) (clock_reads w).

(** ** [VPCManager] *)

(** [_validate_cidr]: the range check raises [ValueError] inside the [try]
    whose [except ValueError] clause replaces it by the "Invalid CIDR
    prefix" error.  The octets of the address are counted and not looked
    at otherwise. *)
Definition _validate_cidr (cidr_block : string) : result unit :=
  if negb (PyStr.contains "/" cidr_block)
  then Raise (ValueError ("Invalid CIDR block: " +:+ cidr_block))
  else
    match PyStr.split "/" cidr_block with
    | [ip; prefix] =>
        let octets := PyStr.split "." ip in
        if negb (Nat.eqb (length octets) 4)
        then Raise (ValueError ("Invalid IP address in CIDR: " +:+ ip))
        else
          let checked :=
            match PyStr.int prefix with
            | Ok prefix_int =>
                if (prefix_int <? 16) || (prefix_int >? 28)
                then Raise (ValueError
                       ("VPC CIDR prefix must be between /16 and /28, got /"
                        +:+ PyStr.of_int prefix_int))
                else Ok tt
            | Raise e => Raise e
            end in
          match checked with
          | Raise (ValueError _) =>
              Raise (ValueError ("Invalid CIDR prefix: " +:+ prefix))
          | r => r
          end
    | [_] => Raise (ValueError "not enough values to unpack (expected 2, got 1)")
    | _ => Raise (ValueError "too many values to unpack (expected 2)")
    end.

(** [_calculate_subnet_cidr]: [octets[2] = str(subnet_index)] raises
    [IndexError] when the base address has fewer than three parts. *)
Definition _calculate_subnet_cidr (vpc_cidr : string) (subnet_index : Z)
  : result string :=
  let base_ip := hd EmptyString (PyStr.split "/" vpc_cidr) in
  let octets := PyStr.split "." base_ip in
  if decide (2 < length octets)%nat
  then Ok (PyStr.join "." (<[2%nat := PyStr.of_int subnet_index]> octets)
           +:+ "/24")
  else Raise (IndexError "list assignment index out of range").

(** [_is_main_route_table] *)
Definition _is_main_route_table (rt : route_table) : bool :=
  existsb main (associations rt).

Section Program.

Context (E : environment).

(** A request to EC2: the oracle answers, the trace records it. *)
Definition ec2_request (c : ec2_call) : M (ec2_resp c) :=
  fun w => let r := ec2 E (trace w) c in (r, push (Ec2 c r) w).

(** [datetime.utcnow()] *)
Definition utcnow : M datetime :=
  fun w => (Ok (clock E (clock_reads w)),
            World (trace w) (table w) (S (clock_reads w))).

Definition _get_tags (name resource_type : string)
    (request_id : option string) : M (list tag) :=
  let* now := utcnow in
  let tags := [ Tag "Name" name;
                Tag "ManagedBy" "vpc-api";
                Tag "ResourceType" resource_type;
                Tag "CreatedAt" (PyDatetime.isoformat now) ] in
  ret (if truthy request_id
       then tags ++ [Tag "RequestId" (default EmptyString request_id)]
       else tags).

Definition _get_availability_zones : M (list string) :=
  let* zones := ec2_request (DescribeAvailabilityZones ["available"]) in
  ret (map ZoneName zones).

Definition _create_subnet (vpc_id cidr_block : string)
    (availability_zone : option string) (name subnet_type : string)
    (request_id : option string) : M SubnetRecord :=
  let* tags := _get_tags name subnet_type request_id in
  let* subnet_id :=
    ec2_request (CreateSubnet vpc_id cidr_block availability_zone tags) in
  (if String.eqb subnet_type "public"
   then ec2_request (ModifySubnetAttribute subnet_id true)
   else ret tt) >>
  ret {| subnet_id := subnet_id;
         subnet_cidr_block := cidr_block;
         availability_zone := availability_zone;
         subnet_type := subnet_type |}.

Definition _create_internet_gateway (vpc_id name : string)
    (request_id : option string) : M string :=
  let* tags := _get_tags (name +:+ "-igw") "internet-gateway" request_id in
  let* igw_id := ec2_request (CreateInternetGateway tags) in
  ec2_request (AttachInternetGateway igw_id vpc_id) >>
  ret igw_id.

Definition _configure_public_routing (vpc_id igw_id subnet_id name : string)
    (request_id : option string) : M string :=
  let* tags := _get_tags (name +:+ "-public-rt") "route-table" request_id in
  let* route_table_id := ec2_request (CreateRouteTable vpc_id tags) in
  ec2_request (CreateRoute route_table_id "0.0.0.0/0" igw_id) >>
  ec2_request (AssociateRouteTable route_table_id subnet_id) >>
  ret route_table_id.

(** [delete_vpc]: the [except ClientError] clause logs and re-raises, any
    other exception passes through; either way the exception raised by
    the body is the one that leaves the method. *)
Definition delete_vpc (vpc_id : string) : M DeletionRecord :=
  try_except
    (let* vpc_subnets := ec2_request (DescribeSubnets vpc_id) in
     for_each vpc_subnets (fun subnet => ec2_request (DeleteSubnet subnet)) >>
     let* vpc_route_tables := ec2_request (DescribeRouteTables vpc_id) in
     for_each vpc_route_tables (fun rt =>
       if negb (_is_main_route_table rt)
       then ec2_request (DeleteRouteTable (rt_id rt))
       else ret tt) >>
     let* igws := ec2_request (DescribeInternetGateways vpc_id) in
     for_each igws (fun igw =>
       ec2_request (DetachInternetGateway vpc_id igw) >>
       ec2_request (DeleteInternetGateway igw)) >>
     ec2_request (DeleteVpc vpc_id) >>
     let* now := utcnow in
     ret {| del_vpc_id := vpc_id;
            del_status := "deleted";
            deleted_at := Some (PyDatetime.isoformat now +:+ "Z");
            note := None |})
    (fun e => raise e).

(** [_cleanup_failed_vpc]: [except Exception] logs and returns. *)
Definition _cleanup_failed_vpc (vpc_id : string) : M unit :=
  try_except (delete_vpc vpc_id >> ret tt) (fun _ => ret tt).

(** The [try] block of [create_vpc] up to the assignment of [vpc_id]. *)
Definition create_vpc_network (name cidr_block : string)
    (request_id : option string) : M string :=
  lift (_validate_cidr cidr_block) >>
  let* tags := _get_tags name "vpc" request_id in
  ec2_request (CreateVpc cidr_block tags).

(** The rest of the [try] block, with the local [vpc_id] bound. *)
Definition create_vpc_resources (self_region name cidr_block : string)
    (request_id : option string) (vpc_id : string) : M NetworkRecord :=
  ec2_request (ModifyVpcAttribute vpc_id (EnableDnsHostnames true)) >>
  ec2_request (ModifyVpcAttribute vpc_id (EnableDnsSupport true)) >>
  let* azs := _get_availability_zones in
  let primary_az := head azs in
  let* public_cidr := lift (_calculate_subnet_cidr cidr_block 1) in
  let* public_subnet :=
    _create_subnet vpc_id public_cidr primary_az
      (name +:+ "-public-subnet") "public" request_id in
  let* private_cidr := lift (_calculate_subnet_cidr cidr_block 2) in
  let* private_subnet :=
    _create_subnet vpc_id private_cidr primary_az
      (name +:+ "-private-subnet") "private" request_id in
  let* igw_id := _create_internet_gateway vpc_id name request_id in
  let* public_route_table_id :=
    _configure_public_routing vpc_id igw_id (subnet_id public_subnet)
      name request_id in
  let* now := utcnow in
  ret {| vpc_id := vpc_id;
         name := name;
         cidr_block := cidr_block;
         region := self_region;
         subnets := [public_subnet; private_subnet];
         internet_gateway_id := igw_id;
         route_tables := {[ "public" := public_route_table_id ]};
         status := "available";
         created_at := PyDatetime.isoformat now +:+ "Z";
         created_by := "vpc-api" |}.

(** The two [except] clauses of [create_vpc].  [local_vpc_id] is the
    local variable [vpc_id] if it was assigned ([`vpc_id' in locals()]). *)
Definition create_vpc_except {A} (local_vpc_id : option string) (e : exn)
  : M A :=
  match e with
  | ClientError _ _ =>
      match local_vpc_id with
      | Some vpc_id => _cleanup_failed_vpc vpc_id
      | None => ret tt
      end >>
      raise e
  | _ => raise e
  end.

(** The [try] block of [create_vpc]: its outcome, and the local [vpc_id]
    when the block got as far as assigning it. *)
Definition create_vpc_try (self_region name cidr_block : string)
    (request_id : option string)
  : world -> (result NetworkRecord * world) * option string :=
  fun w =>
    match create_vpc_network name cidr_block request_id w with
    | (Raise e, w1) => ((Raise e, w1), None)
    | (Ok vpc_id, w1) =>
        (create_vpc_resources self_region name cidr_block request_id
           vpc_id w1, Some vpc_id)
    end.

Definition create_vpc (self_region name cidr_block : string)
    (request_id : option string) : M NetworkRecord :=
  fun w =>
    match create_vpc_try self_region name cidr_block request_id w with
    | ((Raise e, w1), local_vpc_id) => create_vpc_except local_vpc_id e w1
    | ((Ok details, w1), _) => (Ok details, w1)
    end.

End Program.

(** ** [VPCMetadataStore] over the DynamoDB table *)

Section MetadataStore.

Context (E : environment).

(** A request to DynamoDB either fails with the service error the
    environment injects, leaving the table as it is, or takes effect. *)
Definition ddb_request {A} (c : ddb_call) (effect : gmap string item ->
    A * gmap string item) : M A :=
  fun w =>
    let fault := ddb_fault E (trace w) c in
    let tr := trace w ++ [Ddb c fault] in
    match fault with
    | Some e => (Raise e, World tr (table w) (clock_reads w))
    | None =>
        let '(a, t') := effect (table w) in
        (Ok a, World tr t' (clock_reads w))
    end.

(** [table.get_item(Key={'vpc_id': key})]: the answer holds ['Item'] when
    an item is stored under the key. *)
Definition table_get_item (key : string) : M (option item) :=
  ddb_request (GetItem key) (fun t => (t !! key, t)).

(** [table.delete_item(Key={'vpc_id': key})] *)
Definition table_delete_item (key : string) : M unit :=
  ddb_request (DeleteItem key) (fun t => (tt, delete key t)).

(** [table.update_item(Key={'vpc_id': key}, UpdateExpression='SET #a = :v')]
    with no [ConditionExpression]: the attribute is set on the stored
    item; when no item is stored under the key, UpdateItem creates one
    that holds the key and the attribute. *)
Definition table_update_item (key attr : string) (value : attr_value)
  : M unit :=
  ddb_request (UpdateItem key attr value)
    (fun t =>
       let old := default {[ "vpc_id" := AttrS key ]} (t !! key) in
       (tt, <[ key := <[ attr := value ]> old ]> t)).

(** [get_vpc]: [except ClientError] logs and re-raises. *)
Definition get_vpc (vpc_id : string) : M (option item) :=
  try_except (table_get_item vpc_id) (fun e => raise e).

(** Python truthiness of [Optional[Dict]]: [None] and [{}] are falsy. *)
Definition item_truthy (it : option item) : bool :=
  match it with
  | Some i => negb (bool_decide (i = ∅))
  | None => false
  end.

(** [VPCMetadataStore.delete_vpc] *)
Definition store_delete_vpc (vpc_id : string) : M bool :=
  try_except
    (let* existing := get_vpc vpc_id in
     if negb (item_truthy existing) then ret false
     else table_delete_item vpc_id >> ret true)
    (fun e => raise e).

(** [update_vpc_status]: [False] only from the [except ClientError] clause
    on the error code [ConditionalCheckFailedException]. *)
Definition update_vpc_status (vpc_id status : string) : M bool :=
  try_except
    (table_update_item vpc_id "status" (AttrS status) >> ret true)
    (fun e =>
       match e with
       | ClientError code _ =>
           if String.eqb code "ConditionalCheckFailedException"
           then ret false
           else raise e
       | _ => raise e
       end).

End MetadataStore.

(** ** Request validation and HTTP responses *)

Definition is_lower_hex (c : ascii) : bool :=
  let n := nat_of_ascii c in
  ((48 <=? n)%nat && (n <=? 57)%nat) || ((97 <=? n)%nat && (n <=? 102)%nat).

(** The longest prefix of characters satisfying [p], and what follows it. *)
Fixpoint span (p : ascii -> bool) (s : string) : string * string :=
  match s with
  | EmptyString => (EmptyString, EmptyString)
  | String a s' =>
      if p a then let '(h, t) := span p s' in (String a h, t)
      else (EmptyString, s)
  end.

(** [re.match(r'^vpc-[a-f0-9]{8,17}$', s)]: [$] matches at the end of the
    string and also just before a line feed that ends the string. *)
Definition vpc_id_matches (s : string) : bool :=
  match s with
  | String "v" (String "p" (String "c" (String "-" rest))) =>
      let '(hex, tail) := span is_lower_hex rest in
      (8 <=? String.length hex)%nat && (String.length hex <=? 17)%nat
      && (String.eqb tail EmptyString
          || String.eqb tail (String "010" EmptyString))
  | _ => false
  end.

(** [validate_vpc_id] *)
Definition validate_vpc_id (vpc_id : string) : bool * option string :=
  if String.eqb vpc_id EmptyString then (false, Some "VPC ID is required")
  else if negb (vpc_id_matches vpc_id)
       then (false, Some "Invalid VPC ID format (expected: vpc-xxxxxxxx)")
       else (true, None).

(** The body of a response before [json.dumps]. *)
Inductive response_body : Type :=
| SuccessBody (data : DeletionRecord) (message : option string)
| ErrorBody (message : string) (code : option string)
            (details : option (list (string * string))).

Record http_response : Type := {
  statusCode : Z;
  headers : list (string * string);
  body : response_body
}.

Definition cors_headers : list (string * string) :=
  [ ("Content-Type", "application/json");
    ("Access-Control-Allow-Origin", "*");
    ("Access-Control-Allow-Headers", "Content-Type,X-Api-Key");
    ("Access-Control-Allow-Methods", "GET,POST,DELETE,OPTIONS") ].

Definition success_response (data : DeletionRecord) (status_code : Z)
    (message : option string) : http_response :=
  {| statusCode := status_code;
     headers := cors_headers;
     body := SuccessBody data (if truthy message then message else None) |}.

Definition error_response (message : string) (status_code : Z)
    (error_code : option string) (details : option (list (string * string)))
  : http_response :=
  {| statusCode := status_code;
     headers := cors_headers;
     body := ErrorBody message
               (if truthy error_code then error_code else None)
               (match details with
                | Some (_ :: _) => details
                | _ => None
                end) |}.

Definition validation_error_response (message : string)
    (details : option (list (string * string))) : http_response :=
  error_response message 400 (Some "VALIDATION_ERROR") details.

Definition not_found_response (resource resource_id : string) : http_response :=
  error_response (resource +:+ " not found: " +:+ resource_id) 404
    (Some "NOT_FOUND") None.

Definition internal_error_response (e : exn) : http_response :=
  error_response "An internal server error occurred" 500
    (Some "INTERNAL_ERROR") (Some [("type", exn_class_name e)]).

(** ** The delete handler ([delete_vpc.py]) *)

(** The part of the Lambda event the handler reads. *)
Record lambda_event : Type := {
  pathParameters : option (gmap string string)
}.

Definition not_found_note : string :=
  "VPC was not found in AWS (may have been manually deleted)".

Definition dependency_message : string :=
  "Cannot delete VPC due to existing dependencies. "
  +:+ "Please ensure all resources (EC2 instances, RDS, etc.) are deleted first.".

Section DeleteHandler.

Context (E : environment).

(** The inner [try] around [vpc_manager.delete_vpc]: the error code
    [InvalidVpcID.NotFound] is turned into a deletion record with a note,
    every other exception is raised again. *)
Definition delete_from_aws (vpc_id : string) : M DeletionRecord :=
  try_except (delete_vpc E vpc_id)
    (fun e =>
       match e with
       | ClientError code _ =>
           if String.eqb code "InvalidVpcID.NotFound"
           then ret {| del_vpc_id := vpc_id;
                       del_status := "deleted";
                       deleted_at := None;
                       note := Some not_found_note |}
           else raise e
       | _ => raise e
       end).

(** The body of the outer [try]. *)
Definition handler_body (event : lambda_event) : M http_response :=
  let path_parameters := default ∅ (pathParameters event) in
  let vpc_id_param := path_parameters !! "vpc_id" in
  if negb (truthy vpc_id_param)
  then ret (validation_error_response "VPC ID is required" None)
  else
    let vpc_id := default EmptyString vpc_id_param in
    let '(is_valid, error_message) := validate_vpc_id vpc_id in
    if negb is_valid
    then ret (validation_error_response
                (default EmptyString error_message) None)
    else
      let* vpc_data := get_vpc E vpc_id in
      if negb (item_truthy vpc_data)
      then ret (not_found_response "VPC" vpc_id)
      else
        update_vpc_status E vpc_id "deleting" >>
        let* deletion_result := delete_from_aws vpc_id in
        store_delete_vpc E vpc_id >>
        ret (success_response deletion_result 200
               (Some ("VPC '" +:+ vpc_id
                      +:+ "' and all associated resources deleted successfully"))).

(** [handler]: the outer [except] clauses turn every exception into a
    response. *)
Definition handler (event : lambda_event) : M http_response :=
  try_except (handler_body event)
    (fun e =>
       match e with
       | ClientError error_code _ =>
           if String.eqb error_code "DependencyViolation"
           then ret (validation_error_response dependency_message
                       (Some [("aws_error", error_code)]))
           else ret (internal_error_response e)
       | _ => ret (internal_error_response e)
       end).

End DeleteHandler.

(** ** Observations on traces *)

(** The events a run added to the trace it started from. *)
Definition new_events (w w' : world) : list event :=
  drop (length (trace w)) (trace w').

Definition ec2_calls (tr : list event) : list ec2_call :=
  flat_map (fun ev => match ev with Ec2 c _ => [c] | Ddb _ _ => [] end) tr.

Definition event_ok (ev : event) : bool :=
  match ev with
  | Ec2 _ r => is_Ok r
  | Ddb _ fault => match fault with None => true | Some _ => false end
  end.

(** The route tables enumerated by the [DescribeRouteTables] requests. *)
Definition enumerated_route_tables (tr : list event) : list route_table :=
  flat_map (fun ev =>
    match ev with
    | Ec2 (DescribeRouteTables _) (Ok rts) => rts
    | _ => []
    end) tr.

(** The route tables whose deletion was requested and succeeded. *)
Definition deleted_route_tables (tr : list event) : list string :=
  flat_map (fun ev =>
    match ev with
    | Ec2 (DeleteRouteTable rt) (Ok _) => [rt]
    | _ => []
    end) tr.

(** The route tables whose deletion was requested. *)
Definition delete_route_table_requests (tr : list event) : list string :=
  flat_map (fun ev =>
    match ev with
    | Ec2 (DeleteRouteTable rt) _ => [rt]
    | _ => []
    end) tr.

Definition is_delete_call (c : ec2_call) : bool :=
  match c with
  | DescribeSubnets _ | DeleteSubnet _ | DescribeRouteTables _
  | DeleteRouteTable _ | DescribeInternetGateways _
  | DetachInternetGateway _ _ | DeleteInternetGateway _ | DeleteVpc _ => true
  | _ => false
  end.

Definition is_delete_event (ev : event) : bool :=
  match ev with
  | Ec2 c _ => is_delete_call c
  | Ddb _ _ => false
  end.

(** The zone lists reported by successful zone discovery. *)
Definition reported_zones (tr : list event)
  : list (list availability_zone_info) :=
  flat_map (fun ev =>
    match ev with
    | Ec2 (DescribeAvailabilityZones _) (Ok zones) => [zones]
    | _ => []
    end) tr.

(** The range and the zone of every subnet request. *)
Definition subnet_requests (tr : list event) : list (string * option string) :=
  flat_map (fun ev =>
    match ev with
    | Ec2 (CreateSubnet _ cidr az _) _ => [(cidr, az)]
    | _ => []
    end) tr.

(** The networks whose creation was requested and succeeded. *)
Definition created_networks (tr : list event) : list string :=
  flat_map (fun ev =>
    match ev with
    | Ec2 (CreateVpc _ _) (Ok vpc) => [vpc]
    | _ => []
    end) tr.

(** Events that are neither zone discovery nor a subnet request. *)
Definition quiet_event (ev : event) : bool :=
  match ev with
  | Ec2 (DescribeAvailabilityZones _) _ => false
  | Ec2 (CreateSubnet _ _ _ _) _ => false
  | _ => true
  end.

(** Events other than zone discovery and subnet requests for a zone
    different from [az]. *)
Definition zone_event (az : option string) (ev : event) : bool :=
  match ev with
  | Ec2 (DescribeAvailabilityZones _) _ => false
  | Ec2 (CreateSubnet _ _ az' _) _ => bool_decide (az' = az)
  | _ => true
  end.

(** A run from [w] to [w'] added only events satisfying [P] to the trace
    and left the metadata table alone. *)
Definition extends_by (P : event -> bool) (w w' : world) : Prop :=
  exists new,
    trace w' = trace w ++ new /\ forallb P new = true /\ table w' = table w.

(** A computation all of whose runs add only [P]-events. *)
Definition all_runs {A} (P : event -> bool) (m : M A) : Prop :=
  forall w r w', m w = (r, w') -> extends_by P w w'.

(** The world after the delete handler has found the item [it] under
    [vpc_id] and set its status to ["deleting"], both requests having gone
    through. *)
Definition after_marking (vpc_id : string) (it : item) (w : world) : world :=
  World (trace w ++ [ Ddb (GetItem vpc_id) None;
                      Ddb (UpdateItem vpc_id "status" (AttrS "deleting")) None ])
        (<[ vpc_id := <[ "status" := AttrS "deleting" ]> it ]> (table w))
        (clock_reads w).

(** ** Concrete environments *)

Module Scenario.

Definition clock0 (n : nat) : datetime := Datetime 2024 1 15 10 30 n 0.

Definition zone (z : string) : availability_zone_info :=
  {| ZoneName := z; State := "available" |}.

(** An account in which every request succeeds.  The network holds two
    subnets, the main route table, the public route table and a route
    table without associations, and one gateway. *)
Definition ec2_happy (zones : list availability_zone_info)
    (h : list event) (c : ec2_call) : result (ec2_resp c) :=
  match c return result (ec2_resp c) with
  | CreateVpc _ _ => Ok "vpc-0a1b2c3d"
  | DescribeAvailabilityZones _ => Ok zones
  | CreateSubnet _ cidr _ _ => Ok ("subnet-" +:+ cidr)
  | CreateInternetGateway _ => Ok "igw-01"
  | CreateRouteTable _ _ => Ok "rtb-public"
  | DescribeSubnets _ => Ok ["subnet-10.0.1.0/24"; "subnet-10.0.2.0/24"]
  | DescribeRouteTables _ =>
      Ok [ {| rt_id := "rtb-main";
              associations := [ {| assoc_id := "rtbassoc-0"; main := true |} ] |};
           {| rt_id := "rtb-public";
              associations := [ {| assoc_id := "rtbassoc-1"; main := false |} ] |};
           {| rt_id := "rtb-bare"; associations := [] |} ]
  | DescribeInternetGateways _ => Ok ["igw-01"]
  | ModifyVpcAttribute _ _ | ModifySubnetAttribute _ _
  | AttachInternetGateway _ _ | CreateRoute _ _ _ | AssociateRouteTable _ _
  | DeleteSubnet _ | DeleteRouteTable _ | DetachInternetGateway _ _
  | DeleteInternetGateway _ | DeleteVpc _ => Ok tt
  end.

Definition two_zones : list availability_zone_info :=
  [zone "us-east-2a"; zone "us-east-2b"].

Definition happy : environment :=
  {| ec2 := ec2_happy two_zones;
     ddb_fault := fun _ _ => None;
     clock := clock0 |}.

(** No zone is available, and the client library refuses a subnet request
    without a zone before sending it (botocore's [ParamValidationError],
    which is not a [ClientError]). *)
Definition ec2_no_zone (h : list event) (c : ec2_call)
  : result (ec2_resp c) :=
  match c return result (ec2_resp c) with
  | CreateSubnet _ _ None _ =>
      Raise (OtherException "ParamValidationError"
               "Invalid type for parameter AvailabilityZone")
  | c0 => ec2_happy [] h c0
  end.

Definition no_zone : environment :=
  {| ec2 := ec2_no_zone; ddb_fault := fun _ _ => None; clock := clock0 |}.

(** No zone is available and the service accepts subnets without one. *)
Definition no_zone_lenient : environment :=
  {| ec2 := ec2_happy []; ddb_fault := fun _ _ => None; clock := clock0 |}.

(** Creating the route table fails with a provider error, and so does the
    deletion of the network during the rollback. *)
Definition ec2_route_table_fails (h : list event) (c : ec2_call)
  : result (ec2_resp c) :=
  match c return result (ec2_resp c) with
  | CreateRouteTable _ _ =>
      Raise (ClientError "RouteTableLimitExceeded" "limit reached")
  | DeleteVpc _ =>
      Raise (ClientError "DependencyViolation" "network has dependencies")
  | c0 => ec2_happy two_zones h c0
  end.

Definition route_table_fails : environment :=
  {| ec2 := ec2_route_table_fails;
     ddb_fault := fun _ _ => None;
     clock := clock0 |}.

(** The network is gone: deleting it is answered with "not found". *)
Definition ec2_vpc_gone (h : list event) (c : ec2_call)
  : result (ec2_resp c) :=
  match c return result (ec2_resp c) with
  | DescribeSubnets _ => Ok []
  | DescribeRouteTables _ => Ok []
  | DescribeInternetGateways _ => Ok []
  | DeleteVpc _ =>
      Raise (ClientError "InvalidVpcID.NotFound" "The vpc ID does not exist")
  | c0 => ec2_happy two_zones h c0
  end.

Definition vpc_gone : environment :=
  {| ec2 := ec2_vpc_gone; ddb_fault := fun _ _ => None; clock := clock0 |}.

(** Deleting the network is refused because of live dependents. *)
Definition ec2_dependency (h : list event) (c : ec2_call)
  : result (ec2_resp c) :=
  match c return result (ec2_resp c) with
  | DeleteVpc _ =>
      Raise (ClientError "DependencyViolation" "network has dependencies")
  | c0 => ec2_happy two_zones h c0
  end.

Definition dependency : environment :=
  {| ec2 := ec2_dependency; ddb_fault := fun _ _ => None; clock := clock0 |}.

Definition stored_item : item :=
  {[ "vpc_id" := AttrS "vpc-0a1b2c3d";
     "name" := AttrS "demo";
     "status" := AttrS "available" ]}.

Definition w_empty : world := World [] ∅ 0.

Definition w_stored : world :=
  World [] {[ "vpc-0a1b2c3d" := stored_item ]} 0.

Definition create_demo (E : environment) : result NetworkRecord * world :=
  create_vpc E "us-east-2" "demo" "10.0.0.0/16" None w_empty.

Definition delete_event : lambda_event :=
  {| pathParameters := Some {[ "vpc_id" := "vpc-0a1b2c3d" ]} |}.

End Scenario.

(** ** Address ranges

    The reading of a range string as four octets and a prefix length, used
    to state what the derived subnet ranges denote.  It follows the
    wording "four dot-separated integers each in [0,255] followed by
    [/<int>]", with [int()] deciding what an integer is. *)

Record ipv4_range : Type := {
  octet1 : Z; octet2 : Z; octet3 : Z; octet4 : Z;
  prefix_length : Z
}.

Definition parse_octet (s : string) : option Z :=
  match PyStr.int s with
  | Ok z => if (0 <=? z) && (z <=? 255) then Some z else None
  | Raise _ => None
  end.

Definition parse_prefix (s : string) : option Z :=
  match PyStr.int s with
  | Ok z => if (0 <=? z) && (z <=? 32) then Some z else None
  | Raise _ => None
  end.

Definition parse_range (s : string) : option ipv4_range :=
  match PyStr.split "/" s with
  | [ip; p] =>
      match PyStr.split "." ip with
      | [a; b; c; d] =>
          match parse_octet a, parse_octet b, parse_octet c, parse_octet d,
                parse_prefix p with
          | Some a', Some b', Some c', Some d', Some n =>
              Some {| octet1 := a'; octet2 := b'; octet3 := c'; octet4 := d';
                      prefix_length := n |}
          | _, _, _, _, _ => None
          end
      | _ => None
      end
  | _ => None
  end.

(** A well-formed top-level range: it parses, and its prefix is in [16,28]. *)
Definition well_formed_top_level (s : string) : bool :=
  match parse_range s with
  | Some r => (16 <=? prefix_length r) && (prefix_length r <=? 28)
  | None => false
  end.

Definition base_address (r : ipv4_range) : Z :=
  ((octet1 r * 256 + octet2 r) * 256 + octet3 r) * 256 + octet4 r.

(** The 32-bit address [addr] lies in [r]: it agrees with the base address
    on the first [prefix_length r] bits. *)
Definition in_range (addr : Z) (r : ipv4_range) : Prop :=
  0 <= addr < 2 ^ 32 /\
  Z.shiftr addr (32 - prefix_length r)
  = Z.shiftr (base_address r) (32 - prefix_length r).

Definition ranges_overlap (r1 r2 : ipv4_range) : Prop :=
  exists addr, in_range addr r1 /\ in_range addr r2.

(** ** Request validation ([validation.py]) *)

(** [all(p(c) for c in s)] *)
Fixpoint string_forall (p : ascii -> bool) (s : string) : bool :=
  match s with
  | EmptyString => true
  | String a s' => p a && string_forall p s'
  end.

Module PyChar.

Definition between (lo hi : nat) (c : ascii) : bool :=
  let n := nat_of_ascii c in (lo <=? n)%nat && (n <=? hi)%nat.

(** The class [[a-zA-Z0-9]] of the regular expressions. *)
Definition is_ascii_alnum (c : ascii) : bool :=
  between 48 57 c || between 65 90 c || between 97 122 c.

(** [c.isalnum()] for a code point below 256: the ASCII letters and
    digits, the Latin-1 letters, the superscript digits and the vulgar
    fractions. *)
Definition isalnum (c : ascii) : bool :=
  is_ascii_alnum c
  || between 170 170 c || between 178 179 c || between 181 181 c
  || between 185 186 c || between 188 190 c
  || between 192 214 c || between 216 246 c || between 248 255 c.

(** The class [[a-zA-Z0-9_-]]. *)
Definition name_char (c : ascii) : bool :=
  is_ascii_alnum c || Ascii.eqb c "_" || Ascii.eqb c "-".

(** [c.isprintable()] for a code point below 256. *)
Definition isprintable (c : ascii) : bool :=
  between 32 126 c || between 161 172 c || between 174 255 c.

Definition hex_digit (n : nat) : ascii :=
  match String.get n "0123456789abcdef" with
  | Some c => c
  | None => "0"%char
  end.

(** [repr(s)] of a string: single quotes unless the string holds a single
    quote and no double quote; the quote and the backslash are escaped,
    as are TAB, LF, CR and every character that is not printable. *)
Definition repr_char (quote c : ascii) : string :=
  if Ascii.eqb c quote || Ascii.eqb c "092"
  then String "092" (String c EmptyString)
  else if Ascii.eqb c "009" then String "092" "t"
  else if Ascii.eqb c "010" then String "092" "n"
  else if Ascii.eqb c "013" then String "092" "r"
  else if isprintable c then String c EmptyString
  else String "092"
         (String "x"
            (String (hex_digit (nat_of_ascii c / 16))
               (String (hex_digit (nat_of_ascii c mod 16)) EmptyString))).

Fixpoint repr_body (quote : ascii) (s : string) : string :=
  match s with
  | EmptyString => EmptyString
  | String a s' => repr_char quote a +:+ repr_body quote s'
  end.

Definition repr (s : string) : string :=
  let quote : ascii :=
    if PyStr.contains "039" s && negb (PyStr.contains "034" s)
    then "034"%char else "039"%char in
  String quote (repr_body quote s +:+ String quote EmptyString).

End PyChar.

(** [int(s)] with the message of the [ValueError] it raises. *)
Definition int_checked (s : string) : result Z :=
  match PyStr.int s with
  | Ok z => Ok z
  | Raise _ =>
      Raise (ValueError ("invalid literal for int() with base 10: "
                         +:+ PyChar.repr s))
  end.

(** [re.match(r'^[a-zA-Z0-9][a-zA-Z0-9_-]*$', s)]: as in [vpc_id_matches],
    [$] also matches just before a line feed that ends the string. *)
Definition vpc_name_matches (s : string) : bool :=
  match s with
  | String c rest =>
      PyChar.is_ascii_alnum c
      && let '(body, tail) := span PyChar.name_char rest in
         String.eqb tail EmptyString
         || String.eqb tail (String "010" EmptyString)
  | EmptyString => false
  end.

(** [validate_vpc_name]; the argument is [None] when the request has no
    name.  The test [len(name) < 1] cannot succeed after [not name]. *)
Definition validate_vpc_name (name : option string) : bool * option string :=
  match name with
  | None | Some EmptyString => (false, Some "VPC name is required")
  | Some (String c0 _ as n) =>
      if (255 <? String.length n)%nat
      then (false, Some "VPC name must be 255 characters or less")
      else if (String.length n <? 1)%nat
      then (false, Some "VPC name must be at least 1 character")
      else if negb (PyChar.isalnum c0)
      then (false, Some "VPC name must start with an alphanumeric character")
      else if negb (vpc_name_matches n)
      then (false,
            Some "VPC name can only contain alphanumeric characters, hyphens, and underscores")
      else (true, None)
  end.

(** The loop over the octets in [validate_cidr_block]: [Some msg] is the
    early return for an octet out of range, and [int()] may raise. *)
Fixpoint check_octets (octets : list string) : result (option string) :=
  match octets with
  | [] => Ok None
  | octet :: rest =>
      match int_checked octet with
      | Raise e => Raise e
      | Ok octet_int =>
          if (octet_int <? 0) || (octet_int >? 255)
          then Ok (Some ("Invalid IP octet: " +:+ octet +:+ " (must be 0-255)"))
          else check_octets rest
      end
  end.

(** [validate_cidr_block]: the [except ValueError] clause turns the
    failures of the unpacking and of [int()] into a result. *)
Definition validate_cidr_block (cidr : string) : result (bool * option string) :=
  if String.eqb cidr EmptyString
  then Ok (false, Some "CIDR block is required")
  else if negb (PyStr.contains "/" cidr)
  then Ok (false, Some "CIDR block must include a prefix (e.g., 10.0.0.0/16)")
  else
    let attempt : result (bool * option string) :=
      match PyStr.split "/" cidr with
      | [ip_part; prefix_part] =>
          let octets := PyStr.split "." ip_part in
          if negb (Nat.eqb (length octets) 4)
          then Ok (false, Some "CIDR block must have valid IPv4 address format")
          else
            match check_octets octets with
            | Raise e => Raise e
            | Ok (Some msg) => Ok (false, Some msg)
            | Ok None =>
                match int_checked prefix_part with
                | Raise e => Raise e
                | Ok prefix =>
                    if (prefix <? 16) || (prefix >? 28)
                    then Ok (false,
                             Some "VPC CIDR prefix must be between /16 and /28")
                    else Ok (true, None)
                end
            end
      | [_] =>
          Raise (ValueError "not enough values to unpack (expected 2, got 1)")
      | _ => Raise (ValueError "too many values to unpack (expected 2)")
      end in
    match attempt with
    | Raise (ValueError msg) =>
        Ok (false, Some ("Invalid CIDR block format: " +:+ msg))
    | r => r
    end.

(** [validated_data] *)
Record validated_request : Type := {
  validated_name : string;
  validated_cidr_block : string
}.

(** [validate_create_vpc_request]; the body is [None] or a dictionary
    whose values are strings. *)
Definition validate_create_vpc_request (body : option (gmap string string))
  : result (bool * option string * option validated_request) :=
  match body with
  | None => Ok (false, Some "Request body is required", None)
  | Some b =>
      let name := b !! "name" in
      let '(is_valid, error) := validate_vpc_name name in
      if negb is_valid then Ok (false, error, None)
      else
        let cidr_block := default "10.0.0.0/16" (b !! "cidr_block") in
        match validate_cidr_block cidr_block with
        | Raise e => Raise e
        | Ok (is_valid, error) =>
            if negb is_valid then Ok (false, error, None)
            else Ok (true, None,
                     Some {| validated_name :=
                               PyStr.strip (default EmptyString name);
                             validated_cidr_block := PyStr.strip cidr_block |})
        end
  end.

(** ** Further observations on runs *)

Definition is_ec2_event (ev : event) : bool :=
  match ev with
  | Ec2 _ _ => true
  | Ddb _ _ => false
  end.

(** Events other than a request to delete a network. *)
Definition not_delete_vpc (ev : event) : bool :=
  match ev with
  | Ec2 (DeleteVpc _) _ => false
  | _ => true
  end.

(** The requests sent to DynamoDB. *)
Definition ddb_requests (tr : list event) : list ddb_call :=
  flat_map (fun ev => match ev with Ddb c _ => [c] | Ec2 _ _ => [] end) tr.

(** A computation that stops at the first request that fails: a run adds
    [P]-events only and leaves the table alone; when it returns, every
    request it sent succeeded; when it raises [e], the last request it
    sent is the one that raised [e] and every earlier one succeeded. *)
Definition fail_stop {A} (P : event -> bool) (m : M A) : Prop :=
  forall w r w',
    m w = (r, w') ->
    exists new,
      trace w' = trace w ++ new /\ table w' = table w
      /\ forallb P new = true
      /\ match r with
         | Ok _ => forallb event_ok new = true
         | Raise e =>
             exists pre c,
               new = pre ++ [Ec2 c (Raise e)] /\ forallb event_ok pre = true
         end.

(** Requests that create or configure a resource: every request to EC2
    that is not one of the teardown. *)
Definition is_create_event (ev : event) : bool :=
  match ev with
  | Ec2 c _ => negb (is_delete_call c)
  | Ddb _ _ => false
  end.

(** ** Environments with service faults *)

Module Faults.

Definition throttled : exn :=
  ClientError "ProvisionedThroughputExceededException" "rate exceeded".

(** DynamoDB refuses every request. *)
Definition ddb_down : environment :=
  {| ec2 := Scenario.ec2_happy Scenario.two_zones;
     ddb_fault := fun _ _ => Some throttled;
     clock := Scenario.clock0 |}.

(** Deleting the second subnet fails. *)
Definition ec2_subnet_in_use (h : list event) (c : ec2_call)
  : result (ec2_resp c) :=
  match c return result (ec2_resp c) with
  | DeleteSubnet "subnet-10.0.2.0/24" =>
      Raise (ClientError "DependencyViolation" "subnet has dependencies")
  | c0 => Scenario.ec2_happy Scenario.two_zones h c0
  end.

Definition subnet_in_use : environment :=
  {| ec2 := ec2_subnet_in_use;
     ddb_fault := fun _ _ => None;
     clock := Scenario.clock0 |}.

(** DynamoDB answers lookups and updates and refuses deletions. *)
Definition ddb_delete_refused : environment :=
  {| ec2 := Scenario.ec2_happy Scenario.two_zones;
     ddb_fault := fun _ c =>
       match c with
       | DeleteItem _ => Some throttled
       | _ => None
       end;
     clock := Scenario.clock0 |}.

Definition w_other : world :=
  World [] {[ "vpc-11111111" := Scenario.stored_item ]} 0.

End Faults.

(** * Properties *)

(** ** Sanity checks of the primitives *)

Example split_cidr : PyStr.split "/" "10.0.0.0/16" = ["10.0.0.0"; "16"].
Proof. reflexivity. Qed.

Example split_empty : PyStr.split "/" EmptyString = [EmptyString].
Proof. reflexivity. Qed.

Example split_trailing : PyStr.split "." "10.0." = ["10"; "0"; EmptyString].
Proof. reflexivity. Qed.

Example int_examples :
  PyStr.int "16" = Ok 16 /\ PyStr.int " +2_8 " = Ok 28 /\ PyStr.int "-0" = Ok 0
  /\ is_Ok (PyStr.int "1__6") = false /\ is_Ok (PyStr.int EmptyString) = false
  /\ is_Ok (PyStr.int "x") = false.
Proof. repeat split; reflexivity. Qed.

Example of_int_examples :
  PyStr.of_int 1 = "1" /\ PyStr.of_int 0 = "0" /\ PyStr.of_int (-12) = "-12"
  /\ PyStr.of_int 255 = "255".
Proof. repeat split; reflexivity. Qed.

Example isoformat_example :
  PyDatetime.isoformat (Datetime 2024 3 7 9 5 0 0) = "2024-03-07T09:05:00"
  /\ PyDatetime.isoformat (Datetime 2024 3 7 9 5 0 1200)
     = "2024-03-07T09:05:00.001200".
Proof. split; reflexivity. Qed.

(** ** Strings: splitting and joining *)

Section SplitJoin.

Context (sep : ascii).


Lemma contains_app c s t :
  PyStr.contains c (s +:+ t) = PyStr.contains c s || PyStr.contains c t.
Proof.
  induction s as [|a s IH]; simpl; [reflexivity|].
  rewrite IH. apply orb_assoc.
Qed.

(** No piece of a split holds the separator. *)
Lemma split_pieces_no_sep s x :
  In x (PyStr.split sep s) -> PyStr.contains sep x = false.
Proof.
  revert x. induction s as [|a s IH]; simpl; intros x Hx.
  - destruct Hx as [<-|[]]. reflexivity.
  - destruct (Ascii.eqb a sep) eqn:Ha.
    + destruct Hx as [<-|Hx]; [reflexivity|]. apply IH, Hx.
    + destruct (PyStr.split sep s) as [|h t] eqn:Hs.
      * destruct Hx as [<-|[]]. simpl. rewrite Ha. reflexivity.
      * destruct Hx as [<-|Hx].
        -- simpl. rewrite Ha. simpl. apply IH. left. reflexivity.
        -- apply IH. right. exact Hx.
Qed.

(** A character that occurs in a piece occurs in the string. *)
Lemma split_pieces_chars c s x :
  In x (PyStr.split sep s) -> PyStr.contains c x = true ->
  PyStr.contains c s = true.
Proof.
  revert x. induction s as [|a s IH]; simpl; intros x Hx Hc.
  - destruct Hx as [<-|[]]. discriminate.
  - destruct (Ascii.eqb a sep) eqn:Ha.
    + destruct Hx as [<-|Hx]; [discriminate|].
      rewrite (IH _ Hx Hc). apply orb_true_r.
    + destruct (PyStr.split sep s) as [|h t] eqn:Hs.
      * destruct Hx as [<-|[]]. simpl in Hc.
        rewrite orb_false_r in Hc. rewrite Hc. reflexivity.
      * destruct Hx as [<-|Hx].
        -- simpl in Hc. apply orb_true_iff in Hc as [Hc|Hc].
           ++ rewrite Hc. reflexivity.
           ++ rewrite (IH h (or_introl eq_refl) Hc). apply orb_true_r.
        -- rewrite (IH x (or_intror Hx) Hc). apply orb_true_r.
Qed.

Lemma split_no_sep s :
  PyStr.contains sep s = false -> PyStr.split sep s = [s].
Proof.
  induction s as [|a s IH]; simpl; intros H; [reflexivity|].
  apply orb_false_iff in H as [Ha Hs].
  rewrite Ha, (IH Hs). reflexivity.
Qed.

(** Splitting [x sep y] when [x] holds no separator. *)
Lemma split_app_sep x y :
  PyStr.contains sep x = false ->
  PyStr.split sep (x +:+ String sep y) = x :: PyStr.split sep y.
Proof.
  induction x as [|a x IH]; simpl; intros H.
  - rewrite Ascii.eqb_refl. reflexivity.
  - apply orb_false_iff in H as [Ha Hx].
    rewrite Ha, (IH Hx). reflexivity.
Qed.

End SplitJoin.

(** ** Subnet range derivation *)

Lemma parse_octet_bounds s z : parse_octet s = Some z -> 0 <= z <= 255.
Proof.
  unfold parse_octet. destruct (PyStr.int s) as [v|e]; [|discriminate].
  destruct ((0 <=? v) && (v <=? 255)) eqn:Hb; [|discriminate].
  intros [= <-]. apply andb_true_iff in Hb as [H1 H2]. lia.
Qed.

(** What [parse_range] found when it succeeds. *)
Lemma parse_range_inv s r :
  parse_range s = Some r ->
  exists ip p a b c d,
    PyStr.split "/" s = [ip; p] /\ PyStr.split "." ip = [a; b; c; d] /\
    parse_octet a = Some (octet1 r) /\ parse_octet b = Some (octet2 r) /\
    parse_octet c = Some (octet3 r) /\ parse_octet d = Some (octet4 r) /\
    parse_prefix p = Some (prefix_length r).
Proof.
  unfold parse_range. intros H.
  destruct (PyStr.split "/" s) as [|ip [|p [|? ?]]] eqn:Hs; try discriminate.
  destruct (PyStr.split "." ip) as [|a [|b [|c [|d [|? ?]]]]] eqn:Hip;
    try discriminate.
  destruct (parse_octet a) as [a'|] eqn:Ha; [|discriminate].
  destruct (parse_octet b) as [b'|] eqn:Hb; [|discriminate].
  destruct (parse_octet c) as [c'|] eqn:Hc; [|discriminate].
  destruct (parse_octet d) as [d'|] eqn:Hd; [|discriminate].
  destruct (parse_prefix p) as [n|] eqn:Hn; [|discriminate].
  injection H as <-. exists ip, p, a, b, c, d. simpl.
  repeat split; assumption.
Qed.

(** The derived range string reads back as the octets it was built from. *)
Lemma parse_derived ip a b c d x a' b' x' d' :
  PyStr.contains "/" ip = false ->
  PyStr.split "." ip = [a; b; c; d] ->
  PyStr.contains "." x = false -> PyStr.contains "/" x = false ->
  parse_octet a = Some a' -> parse_octet b = Some b' ->
  parse_octet x = Some x' -> parse_octet d = Some d' ->
  parse_range (PyStr.join "." [a; b; x; d] +:+ "/24")
  = Some {| octet1 := a'; octet2 := b'; octet3 := x'; octet4 := d';
            prefix_length := 24 |}.
Proof.
  intros Hip Hsplit Hxdot Hxslash Ha Hb Hx Hd.
  assert (Hin : forall y, In y [a; b; c; d] ->
            PyStr.contains "." y = false /\ PyStr.contains "/" y = false).
  { intros y Hy. rewrite <- Hsplit in Hy. split.
    - eapply split_pieces_no_sep, Hy.
    - destruct (PyStr.contains "/" y) eqn:Hc; [|reflexivity].
      rewrite (split_pieces_chars "." "/" ip y Hy Hc) in Hip. discriminate. }
  destruct (Hin a) as [Ha1 Ha2]; [simpl; auto|].
  destruct (Hin b) as [Hb1 Hb2]; [simpl; auto|].
  destruct (Hin d) as [Hd1 Hd2]; [simpl; auto 10|].
  unfold parse_range.
  change (PyStr.join "." [a; b; x; d] +:+ "/24")
    with (PyStr.join "." [a; b; x; d] +:+ String "/" "24").
  rewrite split_app_sep.
  2:{ simpl. rewrite !contains_app. simpl.
      rewrite Ha2, Hb2, Hxslash, Hd2. reflexivity. }
  rewrite (split_no_sep "/" "24") by reflexivity.
  change (PyStr.join "." [a; b; x; d])
    with (a +:+ String "." (b +:+ String "." (x +:+ String "." d))).
  rewrite !split_app_sep by assumption.
  rewrite (split_no_sep "." d) by assumption.
  rewrite Ha, Hb, Hx, Hd. reflexivity.
Qed.

(** Two /24 ranges that differ in the third octet share no address. *)
Lemma slash24_disjoint a b d1 d2 x y :
  0 <= d1 <= 255 -> 0 <= d2 <= 255 -> x <> y ->
  ~ ranges_overlap
      {| octet1 := a; octet2 := b; octet3 := x; octet4 := d1;
         prefix_length := 24 |}
      {| octet1 := a; octet2 := b; octet3 := y; octet4 := d2;
         prefix_length := 24 |}.
Proof.
  intros Hd1 Hd2 Hxy (addr & [_ H1] & [_ H2]).
  unfold base_address in H1, H2. simpl in H1, H2.
  rewrite !Z.shiftr_div_pow2 in H1, H2 by lia.
  change (2 ^ (32 - 24)) with 256 in H1, H2.
  rewrite <- (Z.div_unique (((a * 256 + b) * 256 + x) * 256 + d1) 256
             ((a * 256 + b) * 256 + x) d1) in H1 by lia.
  rewrite <- (Z.div_unique (((a * 256 + b) * 256 + y) * 256 + d2) 256
             ((a * 256 + b) * 256 + y) d2) in H2 by lia.
  lia.
Qed.

(** C3. For every parent range whose base address splits into four dotted
    parts, [_calculate_subnet_cidr] returns those parts with the third one
    replaced by the index, followed by [/24].  Hence, for a well-formed
    top-level range with prefix in [16,28], indices 1 and 2 give two
    distinct /24 ranges that share no address and keep the parent's first
    two octets. *)
Theorem subnet_cidr_derivation (parent : string) (index : Z)
    (a b c d : string) :
  PyStr.split "." (hd EmptyString (PyStr.split "/" parent)) = [a; b; c; d] ->
  _calculate_subnet_cidr parent index
  = Ok (PyStr.join "." [a; b; PyStr.of_int index; d] +:+ "/24")
  /\ (well_formed_top_level parent = true ->
      exists p s1 s2 r1 r2,
        parse_range parent = Some p /\
        _calculate_subnet_cidr parent 1 = Ok s1 /\
        _calculate_subnet_cidr parent 2 = Ok s2 /\
        parse_range s1 = Some r1 /\ parse_range s2 = Some r2 /\
        prefix_length r1 = 24 /\ prefix_length r2 = 24 /\
        octet1 r1 = octet1 p /\ octet2 r1 = octet2 p /\ octet3 r1 = 1 /\
        octet1 r2 = octet1 p /\ octet2 r2 = octet2 p /\ octet3 r2 = 2 /\
        s1 <> s2 /\ r1 <> r2 /\ ~ ranges_overlap r1 r2).
Proof.
  intros Hsplit.
  assert (Hcalc : forall i, _calculate_subnet_cidr parent i
            = Ok (PyStr.join "." [a; b; PyStr.of_int i; d] +:+ "/24")).
  { intros i. unfold _calculate_subnet_cidr. rewrite Hsplit. reflexivity. }
  split; [apply Hcalc|].
  unfold well_formed_top_level.
  destruct (parse_range parent) as [p|] eqn:Hp; [|discriminate].
  intros _.
  destruct (parse_range_inv _ _ Hp)
    as (ip & pfx & a0 & b0 & c0 & d0 & Hs & Hd & Ha & Hb & Hc & Hdd & _).
  rewrite Hs in Hsplit. simpl in Hsplit. rewrite Hd in Hsplit.
  injection Hsplit as -> -> -> ->.
  assert (Hip : PyStr.contains "/" ip = false).
  { apply (split_pieces_no_sep "/" parent). rewrite Hs. left. reflexivity. }
  pose proof (parse_derived ip a b c d (PyStr.of_int 1) _ _ 1 _
                Hip Hd eq_refl eq_refl Ha Hb eq_refl Hdd) as P1.
  pose proof (parse_derived ip a b c d (PyStr.of_int 2) _ _ 2 _
                Hip Hd eq_refl eq_refl Ha Hb eq_refl Hdd) as P2.
  pose proof (parse_octet_bounds _ _ Hdd) as Hd4.
  eexists p, _, _, _, _.
  split; [reflexivity|]. split; [apply Hcalc|]. split; [apply Hcalc|].
  split; [exact P1|]. split; [exact P2|].
  repeat (split; [reflexivity|]).
  split.
  { intros Heq. apply (f_equal parse_range) in Heq.
    rewrite P1, P2 in Heq. discriminate. }
  split; [discriminate|].
  apply slash24_disjoint; lia.
Qed.

Lemma subnet_cidr_derivation_witness :
  _calculate_subnet_cidr "10.0.0.0/16" 1 = Ok "10.0.1.0/24"
  /\ exists p s1 s2 r1 r2,
       parse_range "10.0.0.0/16" = Some p /\
       _calculate_subnet_cidr "10.0.0.0/16" 1 = Ok s1 /\
       _calculate_subnet_cidr "10.0.0.0/16" 2 = Ok s2 /\
       parse_range s1 = Some r1 /\ parse_range s2 = Some r2 /\
       prefix_length r1 = 24 /\ prefix_length r2 = 24 /\
       octet1 r1 = octet1 p /\ octet2 r1 = octet2 p /\ octet3 r1 = 1 /\
       octet1 r2 = octet1 p /\ octet2 r2 = octet2 p /\ octet3 r2 = 2 /\
       s1 <> s2 /\ r1 <> r2 /\ ~ ranges_overlap r1 r2.
Proof.
  destruct (subnet_cidr_derivation "10.0.0.0/16" 1 "10" "0" "0" "0" eq_refl)
    as [H1 H2].
  split; [exact H1 | exact (H2 eq_refl)].
Defined.

(** ** Running monadic code *)

Lemma bind_Ok_inv {A B} (m : M A) (k : A -> M B) w b w' :
  bind m k w = (Ok b, w') ->
  exists a w1, m w = (Ok a, w1) /\ k a w1 = (Ok b, w').
Proof.
  unfold bind. destruct (m w) as [[a|e] w1]; [eauto|discriminate].
Qed.

Lemma bind_Raise_inv {A B} (m : M A) (k : A -> M B) w e w' :
  bind m k w = (Raise e, w') ->
  m w = (Raise e, w') \/
  exists a w1, m w = (Ok a, w1) /\ k a w1 = (Raise e, w').
Proof.
  unfold bind. destruct (m w) as [[a|e0] w1]; [eauto|].
  intros [= -> ->]. left. reflexivity.
Qed.

Lemma ret_inv {A} (a : A) w r w' : ret a w = (r, w') -> r = Ok a /\ w' = w.
Proof. intros [= <- <-]. auto. Qed.

Lemma new_events_app w w' new :
  trace w' = trace w ++ new -> new_events w w' = new.
Proof. unfold new_events. intros ->. apply drop_app_length. Qed.

Lemma ec2_calls_app tr1 tr2 :
  ec2_calls (tr1 ++ tr2) = ec2_calls tr1 ++ ec2_calls tr2.
Proof. unfold ec2_calls. apply flat_map_app. Qed.

(** Inversion of a successful run, one bind after the other. *)
Tactic Notation "inv_bind" hyp(H) "as" ident(a) ident(w1) ident(H1) :=
  apply bind_Ok_inv in H as (a & w1 & H1 & H).

Section Runs.

Context (E : environment).

Lemma ec2_request_inv c w r w' :
  ec2_request E c w = (r, w') ->
  trace w' = trace w ++ [Ec2 c r] /\ table w' = table w
  /\ clock_reads w' = clock_reads w.
Proof. intros [= <- <-]. auto. Qed.

Lemma utcnow_inv w r w' :
  utcnow E w = (r, w') ->
  r = Ok (clock E (clock_reads w)) /\ trace w' = trace w
  /\ table w' = table w /\ clock_reads w' = S (clock_reads w).
Proof. intros [= <- <-]. auto. Qed.

(** [_get_tags] reads the clock once and cannot fail. *)
Lemma _get_tags_inv name ty rid w r w' :
  _get_tags E name ty rid w = (r, w') ->
  (exists tags, r = Ok tags) /\ trace w' = trace w /\ table w' = table w
  /\ clock_reads w' = S (clock_reads w).
Proof. intros [= <- <-]. eauto. Qed.

Lemma lift_inv {A} (r : result A) w r' w' :
  lift r w = (r', w') -> r' = r /\ w' = w.
Proof. intros [= <- <-]. auto. Qed.

Lemma _create_subnet_Ok_inv vpc cidr az name ty rid w s w' :
  _create_subnet E vpc cidr az name ty rid w = (Ok s, w') ->
  s = {| subnet_id := subnet_id s; subnet_cidr_block := cidr;
         availability_zone := az; subnet_type := ty |}
  /\ table w' = table w /\ clock_reads w' = S (clock_reads w)
  /\ exists tags,
       trace w' = trace w
         ++ Ec2 (CreateSubnet vpc cidr az tags) (Ok (subnet_id s))
         :: (if String.eqb ty "public"
             then [Ec2 (ModifySubnetAttribute (subnet_id s) true) (Ok tt)]
             else []).
Proof.
  unfold _create_subnet. intros H.
  inv_bind H as tags w1 H1. apply _get_tags_inv in H1 as (_ & Ht & Hb & Hc).
  inv_bind H as sid w2 H2.
  apply (ec2_request_inv (CreateSubnet vpc cidr az tags)) in H2
    as (Ht2 & Hb2 & Hc2).
  inv_bind H as u w3 H3. apply ret_inv in H as [[= ->] ->]. simpl.
  split; [reflexivity|].
  destruct (String.eqb ty "public").
  - apply (ec2_request_inv (ModifySubnetAttribute sid true)) in H3
      as (Ht3 & Hb3 & Hc3).
    destruct u.
    repeat split; [congruence|congruence|].
    exists tags. rewrite Ht3, Ht2, Ht, <- app_assoc. reflexivity.
  - apply ret_inv in H3 as [_ ->].
    repeat split; [congruence|congruence|].
    exists tags. rewrite Ht2, Ht. reflexivity.
Qed.

Lemma _create_internet_gateway_Ok_inv vpc name rid w igw w' :
  _create_internet_gateway E vpc name rid w = (Ok igw, w') ->
  table w' = table w /\ clock_reads w' = S (clock_reads w)
  /\ exists tags,
       trace w' = trace w
         ++ [ Ec2 (CreateInternetGateway tags) (Ok igw);
              Ec2 (AttachInternetGateway igw vpc) (Ok tt) ].
Proof.
  unfold _create_internet_gateway. intros H.
  inv_bind H as tags w1 H1. apply _get_tags_inv in H1 as (_ & Ht & Hb & Hc).
  inv_bind H as g w2 H2.
  apply (ec2_request_inv (CreateInternetGateway tags)) in H2
    as (Ht2 & Hb2 & Hc2).
  inv_bind H as u w3 H3.
  apply (ec2_request_inv (AttachInternetGateway g vpc)) in H3
    as (Ht3 & Hb3 & Hc3).
  apply ret_inv in H as [[= <-] ->]. destruct u.
  repeat split; [congruence|congruence|].
  exists tags. rewrite Ht3, Ht2, Ht, <- app_assoc. reflexivity.
Qed.

Lemma _configure_public_routing_Ok_inv vpc igw subnet name rid w rt w' :
  _configure_public_routing E vpc igw subnet name rid w = (Ok rt, w') ->
  table w' = table w /\ clock_reads w' = S (clock_reads w)
  /\ exists tags,
       trace w' = trace w
         ++ [ Ec2 (CreateRouteTable vpc tags) (Ok rt);
              Ec2 (CreateRoute rt "0.0.0.0/0" igw) (Ok tt);
              Ec2 (AssociateRouteTable rt subnet) (Ok tt) ].
Proof.
  unfold _configure_public_routing. intros H.
  inv_bind H as tags w1 H1. apply _get_tags_inv in H1 as (_ & Ht & Hb & Hc).
  inv_bind H as r w2 H2.
  apply (ec2_request_inv (CreateRouteTable vpc tags)) in H2
    as (Ht2 & Hb2 & Hc2).
  inv_bind H as u w3 H3.
  apply (ec2_request_inv (CreateRoute r "0.0.0.0/0" igw)) in H3
    as (Ht3 & Hb3 & Hc3).
  inv_bind H as u' w4 H4.
  apply (ec2_request_inv (AssociateRouteTable r subnet)) in H4
    as (Ht4 & Hb4 & Hc4).
  apply ret_inv in H as [[= <-] ->]. destruct u, u'.
  repeat split; [congruence|congruence|].
  exists tags. rewrite Ht4, Ht3, Ht2, Ht, <- !app_assoc. reflexivity.
Qed.

(** A successful run of the [try] block after the network was created. *)
Lemma create_vpc_resources_Ok_inv self_region name cidr rid vpc w details w' :
  create_vpc_resources E self_region name cidr rid vpc w = (Ok details, w') ->
  exists public private igw rt zones public_cidr private_cidr t2 t3 t4 t5,
    _calculate_subnet_cidr cidr 1 = Ok public_cidr /\
    _calculate_subnet_cidr cidr 2 = Ok private_cidr /\
    trace w' = trace w ++
      [ Ec2 (ModifyVpcAttribute vpc (EnableDnsHostnames true)) (Ok tt);
        Ec2 (ModifyVpcAttribute vpc (EnableDnsSupport true)) (Ok tt);
        Ec2 (DescribeAvailabilityZones ["available"]) (Ok zones);
        Ec2 (CreateSubnet vpc public_cidr (head (map ZoneName zones)) t2)
            (Ok public);
        Ec2 (ModifySubnetAttribute public true) (Ok tt);
        Ec2 (CreateSubnet vpc private_cidr (head (map ZoneName zones)) t3)
            (Ok private);
        Ec2 (CreateInternetGateway t4) (Ok igw);
        Ec2 (AttachInternetGateway igw vpc) (Ok tt);
        Ec2 (CreateRouteTable vpc t5) (Ok rt);
        Ec2 (CreateRoute rt "0.0.0.0/0" igw) (Ok tt);
        Ec2 (AssociateRouteTable rt public) (Ok tt) ] /\
    details =
      {| vpc_id := vpc;
         name := name;
         cidr_block := cidr;
         region := self_region;
         subnets :=
           [ {| subnet_id := public;
                subnet_cidr_block := public_cidr;
                availability_zone := head (map ZoneName zones);
                subnet_type := "public" |};
             {| subnet_id := private;
                subnet_cidr_block := private_cidr;
                availability_zone := head (map ZoneName zones);
                subnet_type := "private" |} ];
         internet_gateway_id := igw;
         route_tables := {[ "public" := rt ]};
         status := "available";
         created_at :=
           PyDatetime.isoformat (clock E (4 + clock_reads w)) +:+ "Z";
         created_by := "vpc-api" |}.
Proof.
  unfold create_vpc_resources. intros H.
  inv_bind H as u1 w1 H1.
  apply (ec2_request_inv (ModifyVpcAttribute vpc (EnableDnsHostnames true)))
    in H1 as (Ht1 & _ & Hc1).
  inv_bind H as u2 w2 H2.
  apply (ec2_request_inv (ModifyVpcAttribute vpc (EnableDnsSupport true)))
    in H2 as (Ht2 & _ & Hc2).
  inv_bind H as azs w3 H3. unfold _get_availability_zones in H3.
  inv_bind H3 as zones w3' H3'.
  apply (ec2_request_inv (DescribeAvailabilityZones ["available"]))
    in H3' as (Ht3 & _ & Hc3).
  apply ret_inv in H3 as [[= ->] ->].
  inv_bind H as public_cidr w4 H4. apply lift_inv in H4 as [Hpub ->].
  inv_bind H as pub w5 H5.
  apply _create_subnet_Ok_inv in H5 as (Hs1 & _ & Hc5 & t2 & Ht5).
  inv_bind H as private_cidr w6 H6. apply lift_inv in H6 as [Hpriv ->].
  inv_bind H as priv w7 H7.
  apply _create_subnet_Ok_inv in H7 as (Hs2 & _ & Hc7 & t3 & Ht7).
  inv_bind H as igw w8 H8.
  apply _create_internet_gateway_Ok_inv in H8 as (_ & Hc8 & t4 & Ht8).
  inv_bind H as rt w9 H9.
  apply _configure_public_routing_Ok_inv in H9 as (_ & Hc9 & t5 & Ht9).
  inv_bind H as now w10 H10.
  apply utcnow_inv in H10 as ([= ->] & Ht10 & _ & Hc10).
  apply ret_inv in H as [[= ->] ->].
  destruct u1, u2. simpl in Ht5, Ht7.
  exists (subnet_id pub), (subnet_id priv), igw, rt, zones,
    public_cidr, private_cidr, t2, t3, t4, t5.
  split; [symmetry; exact Hpub|]. split; [symmetry; exact Hpriv|]. split.
  { rewrite Ht10, Ht9, Ht8, Ht7, Ht5, Ht3, Ht2, Ht1.
    rewrite <- !app_assoc. reflexivity. }
  rewrite Hs1, Hs2. simpl.
  replace (clock_reads w9) with (4 + clock_reads w)%nat by lia.
  reflexivity.
Qed.

End Runs.

(** ** Successful creation *)

(** C2. When [create_vpc] returns, the requests it sent are, in order: the
    network, its two DNS attributes, zone discovery, the public subnet at
    derived index 1 with public-address assignment switched on, the private
    subnet at index 2 (no such switch), the gateway and its attachment to
    the network, one route table with the single route [0.0.0.0/0] to that
    gateway, associated with the public subnet only.  The record returned
    has status ["available"], the clock reading in ISO format followed by
    ["Z"], the creator ["vpc-api"], and the two subnets.  For the range
    ["10.0.0.0/16"] the subnets are ["10.0.1.0/24"] and ["10.0.2.0/24"]. *)
Theorem create_vpc_success (E : environment) (self_region name cidr : string)
    (rid : option string) (w w' : world) (details : NetworkRecord) :
  create_vpc E self_region name cidr rid w = (Ok details, w') ->
  exists vpc public private igw rt zones public_cidr private_cidr
         t1 t2 t3 t4 t5,
    _calculate_subnet_cidr cidr 1 = Ok public_cidr /\
    _calculate_subnet_cidr cidr 2 = Ok private_cidr /\
    new_events w w' =
      [ Ec2 (CreateVpc cidr t1) (Ok vpc);
        Ec2 (ModifyVpcAttribute vpc (EnableDnsHostnames true)) (Ok tt);
        Ec2 (ModifyVpcAttribute vpc (EnableDnsSupport true)) (Ok tt);
        Ec2 (DescribeAvailabilityZones ["available"]) (Ok zones);
        Ec2 (CreateSubnet vpc public_cidr (head (map ZoneName zones)) t2)
            (Ok public);
        Ec2 (ModifySubnetAttribute public true) (Ok tt);
        Ec2 (CreateSubnet vpc private_cidr (head (map ZoneName zones)) t3)
            (Ok private);
        Ec2 (CreateInternetGateway t4) (Ok igw);
        Ec2 (AttachInternetGateway igw vpc) (Ok tt);
        Ec2 (CreateRouteTable vpc t5) (Ok rt);
        Ec2 (CreateRoute rt "0.0.0.0/0" igw) (Ok tt);
        Ec2 (AssociateRouteTable rt public) (Ok tt) ] /\
    details =
      {| vpc_id := vpc;
         name := name;
         cidr_block := cidr;
         region := self_region;
         subnets :=
           [ {| subnet_id := public;
                subnet_cidr_block := public_cidr;
                availability_zone := head (map ZoneName zones);
                subnet_type := "public" |};
             {| subnet_id := private;
                subnet_cidr_block := private_cidr;
                availability_zone := head (map ZoneName zones);
                subnet_type := "private" |} ];
         internet_gateway_id := igw;
         route_tables := {[ "public" := rt ]};
         status := "available";
         created_at :=
           PyDatetime.isoformat (clock E (5 + clock_reads w)) +:+ "Z";
         created_by := "vpc-api" |} /\
    (cidr = "10.0.0.0/16" ->
     public_cidr = "10.0.1.0/24" /\ private_cidr = "10.0.2.0/24").
Proof.
  unfold create_vpc, create_vpc_try. intros H.
  destruct (create_vpc_network E name cidr rid w) as [[vpc|e] w1] eqn:Hnet.
  2:{ destruct e; simpl in H; discriminate. }
  destruct (create_vpc_resources E self_region name cidr rid vpc w1)
    as [[d|e] w2] eqn:Hres.
  2:{ unfold create_vpc_except in H. destruct e; try discriminate.
      unfold bind in H.
      destruct (_cleanup_failed_vpc E vpc w2) as [[?|?] ?]; discriminate. }
  injection H as -> ->.
  unfold create_vpc_network in Hnet.
  inv_bind Hnet as u0 w0 H0. apply lift_inv in H0 as [_ ->].
  inv_bind Hnet as t1 w0' H0'.
  apply _get_tags_inv in H0' as (_ & Ht0 & _ & Hc0).
  apply (ec2_request_inv E (CreateVpc cidr t1)) in Hnet as (Ht1 & _ & Hc1).
  apply create_vpc_resources_Ok_inv in Hres
    as (public & private & igw & rt & zones & public_cidr & private_cidr
        & t2 & t3 & t4 & t5 & Hpub & Hpriv & Htr & Hd).
  exists vpc, public, private, igw, rt, zones, public_cidr, private_cidr,
    t1, t2, t3, t4, t5.
  split; [exact Hpub|]. split; [exact Hpriv|]. split.
  { apply new_events_app. rewrite Htr, Ht1, Ht0, <- app_assoc. reflexivity. }
  split.
  { rewrite Hd.
    replace (4 + clock_reads w1)%nat with (5 + clock_reads w)%nat by lia.
    reflexivity. }
  intros ->. vm_compute in Hpub, Hpriv. split; congruence.
Qed.

Lemma create_vpc_success_witness :
  exists details w',
    create_vpc Scenario.happy "us-east-2" "demo" "10.0.0.0/16" None
      Scenario.w_empty = (Ok details, w')
    /\ status details = "available"
    /\ created_by details = "vpc-api"
    /\ created_at details = "2024-01-15T10:30:05Z"
    /\ map subnet_cidr_block (subnets details)
       = ["10.0.1.0/24"; "10.0.2.0/24"]
    /\ map subnet_type (subnets details) = ["public"; "private"]
    /\ length (new_events Scenario.w_empty w') = 12%nat.
Proof.
  eexists _, _. split; [vm_compute; reflexivity|].
  edestruct (create_vpc_success Scenario.happy "us-east-2" "demo"
               "10.0.0.0/16" None Scenario.w_empty)
    as (vpc & public & private & igw & rt & zones & c1 & c2
        & t1 & t2 & t3 & t4 & t5 & _ & _ & Hev & Hd & Hc);
    [vm_compute; reflexivity|].
  destruct (Hc eq_refl) as [-> ->].
  rewrite Hev, Hd. repeat split; reflexivity.
Defined.

(** ** Runs with any outcome *)

Lemma bind_inv {A B} (m : M A) (k : A -> M B) w r w' :
  bind m k w = (r, w') ->
  (exists e, m w = (Raise e, w') /\ r = Raise e) \/
  (exists a w1, m w = (Ok a, w1) /\ k a w1 = (r, w')).
Proof.
  unfold bind. destruct (m w) as [[a|e] w1]; [eauto|].
  intros [= <- <-]. left. eauto.
Qed.

Lemma extends_by_refl P w : extends_by P w w.
Proof. exists []. rewrite app_nil_r. auto. Qed.

Lemma extends_by_trans P w1 w2 w3 :
  extends_by P w1 w2 -> extends_by P w2 w3 -> extends_by P w1 w3.
Proof.
  intros (n1 & Ht1 & Hp1 & Hb1) (n2 & Ht2 & Hp2 & Hb2).
  exists (n1 ++ n2). rewrite Ht2, Ht1, <- app_assoc, forallb_app, Hp1, Hp2.
  repeat split; congruence.
Qed.

Lemma extends_by_impl (P Q : event -> bool) w w' :
  (forall ev, P ev = true -> Q ev = true) ->
  extends_by P w w' -> extends_by Q w w'.
Proof.
  intros HPQ (new & Ht & Hp & Hb). exists new. repeat split; try assumption.
  rewrite forallb_forall in *. auto.
Qed.

Lemma all_runs_ret {A} P (a : A) : all_runs P (ret a).
Proof. intros w r w' [= <- <-]. apply extends_by_refl. Qed.

Lemma all_runs_raise {A} P e : all_runs P (@raise A e).
Proof. intros w r w' [= <- <-]. apply extends_by_refl. Qed.

Lemma all_runs_lift {A} P (x : result A) : all_runs P (lift x).
Proof. intros w r w' [= <- <-]. apply extends_by_refl. Qed.

Lemma all_runs_bind {A B} P (m : M A) (k : A -> M B) :
  all_runs P m -> (forall a, all_runs P (k a)) -> all_runs P (bind m k).
Proof.
  intros Hm Hk w r w' H.
  apply bind_inv in H as [(e & H & _)|(a & w1 & H1 & H2)].
  - eapply Hm, H.
  - eapply extends_by_trans; [eapply Hm, H1 | eapply Hk, H2].
Qed.

Lemma all_runs_try_except {A} P (m : M A) (h : exn -> M A) :
  all_runs P m -> (forall e, all_runs P (h e)) -> all_runs P (try_except m h).
Proof.
  intros Hm Hh w r w'. unfold try_except.
  destruct (m w) as [[a|e] w1] eqn:H1.
  - intros [= <- <-]. eapply Hm, H1.
  - intros H2. eapply extends_by_trans; [eapply Hm, H1 | eapply Hh, H2].
Qed.

Lemma all_runs_for_each {A} P (l : list A) (body : A -> M unit) :
  (forall x, all_runs P (body x)) -> all_runs P (for_each l body).
Proof.
  intros Hb. induction l as [|x l IH]; simpl.
  - apply all_runs_ret.
  - apply all_runs_bind; [apply Hb | intros _; exact IH].
Qed.

Section RunsAnyOutcome.

Context (E : environment).

Lemma all_runs_ec2_request (P : event -> bool) c :
  (forall r, P (Ec2 c r) = true) -> all_runs P (ec2_request E c).
Proof.
  intros HP w r w' [= <- <-]. exists [Ec2 c (ec2 E (trace w) c)].
  simpl. rewrite HP. auto.
Qed.

Lemma all_runs_utcnow P : all_runs P (utcnow E).
Proof.
  intros w r w' [= <- <-]. exists []. simpl. rewrite app_nil_r. auto.
Qed.

Lemma all_runs__get_tags P name ty rid : all_runs P (_get_tags E name ty rid).
Proof.
  apply all_runs_bind; [apply all_runs_utcnow | intros; apply all_runs_ret].
Qed.

(** Runs of straight-line code, loops and branches over requests that
    all satisfy the event predicate. *)
Ltac solve_all_runs :=
  repeat first
    [ apply all_runs_bind; [|intros ?]
    | apply all_runs_for_each; intros ?
    | match goal with
      | |- all_runs ?P (ec2_request _ ?c) =>
          exact (all_runs_ec2_request P c (fun _ => eq_refl))
      | |- all_runs _ (if ?b then _ else _) => destruct b
      end
    | apply all_runs__get_tags
    | apply all_runs_utcnow
    | apply all_runs_lift
    | apply all_runs_ret ].

(** Whatever happens, [delete_vpc] sends deletion requests only. *)
Lemma all_runs_delete_vpc vpc :
  all_runs is_delete_event (delete_vpc E vpc).
Proof.
  unfold delete_vpc.
  apply all_runs_try_except; [|intros; apply all_runs_raise].
  solve_all_runs.
Qed.

(** [_cleanup_failed_vpc] returns normally whatever the deletion did. *)
Lemma _cleanup_failed_vpc_run vpc w :
  _cleanup_failed_vpc E vpc w = (Ok tt, snd (delete_vpc E vpc w)).
Proof.
  unfold _cleanup_failed_vpc, try_except, bind, ret.
  destruct (delete_vpc E vpc w) as [[d|e] w1]; reflexivity.
Qed.

(** The first thing [delete_vpc] does is to list the subnets. *)
Lemma delete_vpc_first_request vpc w :
  exists outcome rest,
    trace (snd (delete_vpc E vpc w))
    = trace w ++ Ec2 (DescribeSubnets vpc) outcome :: rest.
Proof.
  destruct (delete_vpc E vpc w) as [r w'] eqn:H. simpl.
  unfold delete_vpc, try_except in H.
  match type of H with
  | context [bind ?m ?k w] => destruct (bind m k w) as [r0 w0] eqn:Hb
  end.
  assert (w0 = w') as ->.
  { destruct r0; [congruence|]. unfold raise in H. congruence. }
  clear H.
  apply bind_inv in Hb as [(e & H1 & _)|(a & w1 & H1 & H2)].
  - apply (ec2_request_inv E (DescribeSubnets vpc)) in H1 as (Ht & _).
    eexists _, []. exact Ht.
  - apply (ec2_request_inv E (DescribeSubnets vpc)) in H1 as (Ht & _).
    assert (Hrest : extends_by (fun _ => true) w1 w').
    { revert H2. generalize w1 r0 w'.
      change (all_runs (fun _ => true)
        (for_each a (fun subnet => ec2_request E (DeleteSubnet subnet)) >>
         let* vpc_route_tables := ec2_request E (DescribeRouteTables vpc) in
         for_each vpc_route_tables (fun rt =>
           if negb (_is_main_route_table rt)
           then ec2_request E (DeleteRouteTable (rt_id rt))
           else ret tt) >>
         let* igws := ec2_request E (DescribeInternetGateways vpc) in
         for_each igws (fun igw =>
           ec2_request E (DetachInternetGateway vpc igw) >>
           ec2_request E (DeleteInternetGateway igw)) >>
         ec2_request E (DeleteVpc vpc) >>
         let* now := utcnow E in
         ret {| del_vpc_id := vpc;
                del_status := "deleted";
                deleted_at := Some (PyDatetime.isoformat now +:+ "Z");
                note := None |})).
      solve_all_runs. }
    destruct Hrest as (rest & Hr & _).
    eexists _, rest. rewrite Hr, Ht, <- app_assoc. reflexivity.
Qed.

End RunsAnyOutcome.

(** ** Rollback after a failed creation *)

Section Rollback.

Context (E : environment).

Lemma all_runs_create_vpc_resources P self_region name cidr rid vpc :
  (forall c r, P (Ec2 c r) = true) ->
  all_runs P (create_vpc_resources E self_region name cidr rid vpc).
Proof.
  intros HP.
  unfold create_vpc_resources, _get_availability_zones, _create_subnet,
    _create_internet_gateway, _configure_public_routing.
  repeat first
    [ apply all_runs_bind; [|intros ?]
    | match goal with
      | |- all_runs ?P (ec2_request _ ?c) =>
          exact (all_runs_ec2_request E P c (HP c))
      | |- all_runs _ (if ?b then _ else _) => destruct b
      end
    | apply all_runs__get_tags
    | apply all_runs_utcnow
    | apply all_runs_lift
    | apply all_runs_ret ].
Qed.

(** The local [vpc_id] is bound exactly when the network was created. *)
Lemma create_vpc_try_local self_region name cidr rid w r w_f local :
  create_vpc_try E self_region name cidr rid w = ((r, w_f), local) ->
  local = head (created_networks (new_events w w_f)).
Proof.
  unfold create_vpc_try.
  destruct (create_vpc_network E name cidr rid w) as [[vpc|e] w1] eqn:Hnet.
  - intros [= Hres <-].
    unfold create_vpc_network in Hnet.
    inv_bind Hnet as u0 w0 H0. apply lift_inv in H0 as [_ ->].
    inv_bind Hnet as t1 w0' H0'.
    apply _get_tags_inv in H0' as (_ & Ht0 & _).
    apply (ec2_request_inv E (CreateVpc cidr t1)) in Hnet as (Ht1 & _).
    destruct (all_runs_create_vpc_resources (fun _ => true) self_region
                name cidr rid vpc (fun _ _ => eq_refl) _ _ _ Hres)
      as (new & Hnew & _).
    rewrite (new_events_app w w_f (Ec2 (CreateVpc cidr t1) (Ok vpc) :: new)).
    + reflexivity.
    + rewrite Hnew, Ht1, Ht0, <- app_assoc. reflexivity.
  - intros [= <- <- <-].
    unfold create_vpc_network in Hnet.
    apply bind_inv in Hnet as [(e0 & H0 & _)|(u0 & w0 & H0 & Hnet)].
    + apply lift_inv in H0 as [_ ->].
      unfold new_events. rewrite drop_all. reflexivity.
    + apply lift_inv in H0 as [_ ->].
      apply bind_inv in Hnet as [(e1 & H1 & _)|(t1 & w0' & H1 & Hnet)].
      * apply _get_tags_inv in H1 as ((tags & Habs) & _). discriminate.
      * apply _get_tags_inv in H1 as (_ & Ht0 & _).
        apply (ec2_request_inv E (CreateVpc cidr t1)) in Hnet as (Ht1 & _).
        rewrite (new_events_app w w1 [Ec2 (CreateVpc cidr t1) (Raise e)]).
        -- reflexivity.
        -- rewrite Ht1, Ht0. reflexivity.
Qed.

(** C1, as the code has it.  When the [try] block of [create_vpc] fails,
    the error that reaches the caller is the error of the creation step,
    whatever the rollback did.  When that error is a provider error
    ([ClientError]) and the network had been created, [delete_vpc] is run
    on the network before the error is raised again: the world the
    caller sees is the one [delete_vpc] left, and its requests start
    with the enumeration of the network's subnets.  For an error of
    another class, or when no network was created, nothing more is done. *)
Theorem create_vpc_rollback (self_region name cidr : string)
    (rid : option string) (w w_f : world) (e : exn)
    (local : option string) :
  create_vpc_try E self_region name cidr rid w = ((Raise e, w_f), local) ->
  local = head (created_networks (new_events w w_f))
  /\ fst (create_vpc E self_region name cidr rid w) = Raise e
  /\ (forall vpc,
        is_ClientError e = true -> local = Some vpc ->
        snd (create_vpc E self_region name cidr rid w)
        = snd (delete_vpc E vpc w_f)
        /\ exists outcome rest,
             trace (snd (create_vpc E self_region name cidr rid w))
             = trace w_f ++ Ec2 (DescribeSubnets vpc) outcome :: rest)
  /\ (is_ClientError e = false \/ local = None ->
      snd (create_vpc E self_region name cidr rid w) = w_f).
Proof.
  intros Htry. split; [eapply create_vpc_try_local, Htry|].
  unfold create_vpc. rewrite Htry. unfold create_vpc_except.
  destruct e as [code msg| | | ];
    try (split; [reflexivity|]; split;
         [intros vpc Hce; discriminate | intros _; reflexivity]).
  destruct local as [vpc|].
  - unfold bind. rewrite _cleanup_failed_vpc_run. simpl.
    split; [reflexivity|]. split.
    + intros vpc' _ [= <-].
      split; [reflexivity|]. apply delete_vpc_first_request.
    + intros [Habs|Habs]; discriminate.
  - simpl. split; [reflexivity|]. split.
    + intros vpc _ Habs. discriminate.
    + intros _. reflexivity.
Qed.

End Rollback.

Lemma create_vpc_rollback_witness :
  fst (create_vpc Scenario.route_table_fails "us-east-2" "demo" "10.0.0.0/16"
         None Scenario.w_empty)
  = Raise (ClientError "RouteTableLimitExceeded" "limit reached")
  /\ exists w_f outcome rest,
       trace (snd (create_vpc Scenario.route_table_fails "us-east-2" "demo"
                     "10.0.0.0/16" None Scenario.w_empty))
       = trace w_f ++ Ec2 (DescribeSubnets "vpc-0a1b2c3d") outcome :: rest.
Proof.
  edestruct (create_vpc_rollback Scenario.route_table_fails "us-east-2"
               "demo" "10.0.0.0/16" None Scenario.w_empty)
    as (_ & He & Hr & _); [vm_compute; reflexivity|].
  split; [exact He|].
  destruct (Hr "vpc-0a1b2c3d" eq_refl eq_refl) as (_ & outcome & rest & Ht).
  eexists _, outcome, rest. exact Ht.
Defined.

(** C1 as stated fails: a creation step may fail with an exception that is
    not a provider error after the network was created (here the client
    library refuses the subnet request), and then no deletion is requested
    at all. *)
Lemma create_vpc_no_rollback_counterexample :
  fst (Scenario.create_demo Scenario.no_zone)
  = Raise (OtherException "ParamValidationError"
             "Invalid type for parameter AvailabilityZone")
  /\ created_networks (trace (snd (Scenario.create_demo Scenario.no_zone)))
     = ["vpc-0a1b2c3d"]
  /\ existsb is_delete_event
       (trace (snd (Scenario.create_demo Scenario.no_zone))) = false.
Proof. vm_compute. repeat split; reflexivity. Qed.

(** ** The zone of the subnets *)

Lemma reported_zones_app l1 l2 :
  reported_zones (l1 ++ l2) = reported_zones l1 ++ reported_zones l2.
Proof. apply flat_map_app. Qed.

Lemma subnet_requests_app l1 l2 :
  subnet_requests (l1 ++ l2) = subnet_requests l1 ++ subnet_requests l2.
Proof. apply flat_map_app. Qed.

Lemma reported_zones_cons ev l :
  reported_zones (ev :: l) = reported_zones [ev] ++ reported_zones l.
Proof. apply (reported_zones_app [ev] l). Qed.

Lemma subnet_requests_cons ev l :
  subnet_requests (ev :: l) = subnet_requests [ev] ++ subnet_requests l.
Proof. apply (subnet_requests_app [ev] l). Qed.

Lemma zone_events_observed az l :
  forallb (zone_event az) l = true ->
  reported_zones l = [] /\ Forall (fun rq => rq.2 = az) (subnet_requests l).
Proof.
  induction l as [|ev l IH]; intros H; [split; constructor|].
  simpl in H. apply andb_true_iff in H as [Hev Hl].
  destruct (IH Hl) as [IH1 IH2].
  rewrite reported_zones_cons, subnet_requests_cons, IH1.
  destruct ev as [c r|c f]; [|split; [reflexivity|exact IH2]].
  destruct c; simpl in Hev; try discriminate;
    try (split; [reflexivity|exact IH2]).
  split; [reflexivity|].
  constructor; [|exact IH2].
  apply bool_decide_eq_true in Hev. exact Hev.
Qed.

Lemma delete_event_zone_event az ev :
  is_delete_event ev = true -> zone_event az ev = true.
Proof.
  destruct ev as [c r|c f]; [|discriminate].
  destruct c; simpl; intros H; try discriminate; reflexivity.
Qed.

(** The shape of a run that got past zone discovery: the answer [zs] is
    followed by the request for a subnet of range [c1] in the first zone
    of [zs], and no later subnet request names another zone. *)
Lemma zone_run_observed pre f zs vpc c1 tags o rest zones :
  reported_zones pre = [] -> subnet_requests pre = [] ->
  forallb (zone_event (head (map ZoneName zs))) rest = true ->
  reported_zones
    (pre ++ Ec2 (DescribeAvailabilityZones f) (Ok zs)
         :: Ec2 (CreateSubnet vpc c1 (head (map ZoneName zs)) tags) o :: rest)
  = [zones] ->
  zs = zones /\
  exists more,
    subnet_requests
      (pre ++ Ec2 (DescribeAvailabilityZones f) (Ok zs)
           :: Ec2 (CreateSubnet vpc c1 (head (map ZoneName zs)) tags) o :: rest)
    = (c1, head (map ZoneName zones)) :: more
    /\ Forall (fun rq => rq.2 = head (map ZoneName zones)) more.
Proof.
  intros Hp1 Hp2 Hrest.
  destruct (zone_events_observed _ _ Hrest) as [Hr1 Hr2].
  rewrite reported_zones_app, subnet_requests_app, Hp1, Hp2.
  rewrite (reported_zones_cons _ (_ :: rest)), (reported_zones_cons _ rest).
  rewrite (subnet_requests_cons _ (_ :: rest)), (subnet_requests_cons _ rest).
  rewrite Hr1. simpl. intros [= ->].
  split; [reflexivity|]. eexists. split; [reflexivity|exact Hr2].
Qed.

(** What [_validate_cidr] has checked when it returns. *)
Lemma _validate_cidr_Ok_inv cidr u :
  _validate_cidr cidr = Ok u ->
  exists ip prefix n,
    PyStr.split "/" cidr = [ip; prefix]
    /\ length (PyStr.split "." ip) = 4%nat
    /\ PyStr.int prefix = Ok n /\ 16 <= n <= 28.
Proof.
  unfold _validate_cidr.
  destruct (negb (PyStr.contains "/" cidr)); [discriminate|].
  destruct (PyStr.split "/" cidr) as [|ip [|prefix [|? ?]]]; try discriminate.
  destruct (negb (Nat.eqb (length (PyStr.split "." ip)) 4)) eqn:Hlen;
    [discriminate|].
  apply negb_false_iff, Nat.eqb_eq in Hlen.
  destruct (PyStr.int prefix) as [n|e] eqn:Hint.
  - destruct ((n <? 16) || (n >? 28)) eqn:Hrange; [discriminate|].
    intros _. exists ip, prefix, n. repeat split; try assumption.
    + apply orb_false_iff in Hrange as [H _]. lia.
    + apply orb_false_iff in Hrange as [_ H]. lia.
  - destruct e; discriminate.
Qed.

(** A validated range has four address parts, so the derivation of a
    subnet range from it cannot fail. *)
Lemma validated_range_derives cidr u index :
  _validate_cidr cidr = Ok u ->
  exists c, _calculate_subnet_cidr cidr index = Ok c.
Proof.
  intros H. apply _validate_cidr_Ok_inv in H as (ip & p & n & Hs & Hl & _).
  unfold _calculate_subnet_cidr. rewrite Hs. simpl.
  destruct (decide (2 < length (PyStr.split "." ip))%nat) as [|Hn]; [eauto|].
  lia.
Qed.

Section ZoneChoice.

Context (E : environment).

(** The two ways [create_vpc_network] can go: the validation fails and
    nothing happens, or the request for the network is sent. *)
Lemma create_vpc_network_inv name cidr rid w r w' :
  create_vpc_network E name cidr rid w = (r, w') ->
  (exists e, _validate_cidr cidr = Raise e /\ r = Raise e /\ w' = w) \/
  (_validate_cidr cidr = Ok tt /\
   exists tags,
     trace w' = trace w ++ [Ec2 (CreateVpc cidr tags) r]
     /\ table w' = table w).
Proof.
  unfold create_vpc_network. intros H.
  apply bind_inv in H as [(e & H0 & ->)|(u & w0 & H0 & H)];
    apply lift_inv in H0 as [Hv ->].
  - left. exists e. auto.
  - right. destruct u. split; [auto|].
    apply bind_inv in H as [(e1 & H1 & _)|(tags & w1 & H1 & H)].
    + apply _get_tags_inv in H1 as ((? & Habs) & _). discriminate.
    + apply _get_tags_inv in H1 as (_ & Ht0 & Hb0 & _).
      apply (ec2_request_inv E (CreateVpc cidr tags)) in H as (Ht1 & Hb1 & _).
      exists tags. rewrite Ht1, Ht0. split; [reflexivity|congruence].
Qed.

(** Whatever happens in [_create_subnet], the subnet request is sent,
    and what follows is at most the attribute change. *)
Lemma _create_subnet_any vpc cidr az name ty rid w r w' :
  _create_subnet E vpc cidr az name ty rid w = (r, w') ->
  exists tags outcome rest,
    trace w' = trace w ++ Ec2 (CreateSubnet vpc cidr az tags) outcome :: rest
    /\ forallb (zone_event az) rest = true.
Proof.
  unfold _create_subnet. intros H.
  apply bind_inv in H as [(e1 & H1 & _)|(tags & w1 & H1 & H)].
  { apply _get_tags_inv in H1 as ((? & Habs) & _). discriminate. }
  apply _get_tags_inv in H1 as (_ & Ht0 & _).
  apply bind_inv in H as [(e2 & H2 & _)|(sid & w2 & H2 & H)];
    apply (ec2_request_inv E (CreateSubnet vpc cidr az tags)) in H2
      as (Ht2 & _).
  { eexists tags, _, []. rewrite Ht2, Ht0. auto. }
  assert (Hrest : extends_by (zone_event az) w2 w').
  { revert H. generalize w2 r w'.
    match goal with
    | |- forall w r w', ?m w = (r, w') -> _ =>
        change (all_runs (zone_event az) m)
    end.
    apply all_runs_bind; [|intros ?; apply all_runs_ret].
    destruct (String.eqb ty "public"); [|apply all_runs_ret].
    exact (all_runs_ec2_request E _ (ModifySubnetAttribute sid true)
             (fun _ => eq_refl)). }
  destruct Hrest as (rest & Hr & Hz & _).
  eexists tags, _, rest. rewrite Hr, Ht2, Ht0, <- app_assoc. auto.
Qed.

End ZoneChoice.

Section ZoneChoiceRuns.

Context (E : environment).

(** Any run of the creation steps that follow the network: either zone
    discovery did not answer, or its answer [zs] is followed at once by
    the request for the public subnet in the first zone of [zs] (no
    zone if [zs] is empty), and no later subnet request names another
    zone. *)
Lemma create_vpc_resources_any self_region name cidr rid vpc w r w' c1 :
  create_vpc_resources E self_region name cidr rid vpc w = (r, w') ->
  _calculate_subnet_cidr cidr 1 = Ok c1 ->
  exists new,
    trace w' = trace w ++ new /\
    (reported_zones new = [] \/
     exists pre f zs tags outcome rest,
       new = pre ++ Ec2 (DescribeAvailabilityZones f) (Ok zs)
                 :: Ec2 (CreateSubnet vpc c1 (head (map ZoneName zs)) tags)
                        outcome
                 :: rest
       /\ reported_zones pre = [] /\ subnet_requests pre = []
       /\ forallb (zone_event (head (map ZoneName zs))) rest = true).
Proof.
  unfold create_vpc_resources. intros H Hc1.
  apply bind_inv in H as [(e & H1 & _)|(u1 & w1 & H1 & H)];
    apply (ec2_request_inv E
             (ModifyVpcAttribute vpc (EnableDnsHostnames true))) in H1
      as (Ht1 & _).
  { eexists [_]. split; [exact Ht1|]. left. reflexivity. }
  apply bind_inv in H as [(e & H2 & _)|(u2 & w2 & H2 & H)];
    apply (ec2_request_inv E
             (ModifyVpcAttribute vpc (EnableDnsSupport true))) in H2
      as (Ht2 & _).
  { eexists [_; _]. split.
    - rewrite Ht2, Ht1, <- app_assoc. reflexivity.
    - left. reflexivity. }
  apply bind_inv in H as [(e & H3 & _)|(azs & w3 & H3 & H)];
    unfold _get_availability_zones in H3;
    (apply bind_inv in H3 as [(e3 & H3' & He3)|(zs & w3' & H3' & H3)];
     apply (ec2_request_inv E (DescribeAvailabilityZones ["available"]))
       in H3' as (Ht3 & _)).
  { eexists [_; _; _]. split.
    - rewrite Ht3, Ht2, Ht1, <- !app_assoc. reflexivity.
    - left. reflexivity. }
  { apply ret_inv in H3 as [Habs _]. discriminate. }
  { discriminate. }
  apply ret_inv in H3 as [[= ->] ->].
  apply bind_inv in H as [(e & H4 & _)|(c & w4 & H4 & H)];
    apply lift_inv in H4 as [Hc ->]; [congruence|].
  assert (c = c1) as -> by congruence.
  set (az := head (map ZoneName zs)) in *.
  pose (pre :=
          [ Ec2 (ModifyVpcAttribute vpc (EnableDnsHostnames true)) (Ok u1);
            Ec2 (ModifyVpcAttribute vpc (EnableDnsSupport true)) (Ok u2) ]).
  assert (Hpre : trace w3' = trace w ++ pre
            ++ [Ec2 (DescribeAvailabilityZones ["available"]) (Ok zs)]).
  { rewrite Ht3, Ht2, Ht1, <- !app_assoc. reflexivity. }
  apply bind_inv in H as [(e & H5 & _)|(pub & w5 & H5 & H)];
    apply _create_subnet_any in H5 as (tags & outcome & rest & Ht5 & Hz5).
  { eexists. split.
    - rewrite Ht5, Hpre, <- !app_assoc. reflexivity.
    - right. exists pre, ["available"], zs, tags, outcome, rest.
      split; [reflexivity|]. split; [reflexivity|].
      split; [reflexivity|exact Hz5]. }
  assert (Htail : extends_by (zone_event az) w5 w').
  { revert H. generalize w5 r w'.
    match goal with
    | |- forall w r w', ?m w = (r, w') -> _ =>
        change (all_runs (zone_event az) m)
    end.
    unfold _create_subnet, _create_internet_gateway,
      _configure_public_routing.
    repeat first
      [ apply all_runs_bind; [|intros ?]
      | match goal with
        | |- all_runs ?P (ec2_request _ ?c) =>
            refine (all_runs_ec2_request E P c _); intros ?; simpl;
            first [reflexivity | apply bool_decide_eq_true_2; reflexivity]
        | |- all_runs _ (if ?b then _ else _) => destruct b
        end
      | apply all_runs__get_tags
      | apply all_runs_utcnow
      | apply all_runs_lift
      | apply all_runs_ret ]. }
  destruct Htail as (tail & Htl & Hztl & _).
  eexists. split.
  - rewrite Htl, Ht5, Hpre, <- !app_assoc. reflexivity.
  - right. exists pre, ["available"], zs, tags, outcome, (rest ++ tail).
    split; [reflexivity|]. split; [reflexivity|]. split; [reflexivity|].
    fold az. rewrite forallb_app, Hz5, Hztl. reflexivity.
Qed.

End ZoneChoiceRuns.

Section ZoneChoiceTheorem.

Context (E : environment).

(** The [except] clauses of [create_vpc] raise the error they were
    given; what they add to the trace are the requests of the rollback. *)
Lemma create_vpc_except_run {A} local e w (r : result A) w' :
  create_vpc_except E local e w = (r, w') ->
  r = Raise e /\ extends_by is_delete_event w w'.
Proof.
  unfold create_vpc_except.
  destruct e as [code msg| | | ];
    try (intros [= <- <-]; split; [reflexivity|apply extends_by_refl]).
  destruct local as [vpc|].
  - unfold bind. rewrite _cleanup_failed_vpc_run. intros [= <- <-].
    split; [reflexivity|].
    destruct (delete_vpc E vpc w) as [rd wd] eqn:Hd.
    eapply all_runs_delete_vpc, Hd.
  - intros [= <- <-]. split; [reflexivity|apply extends_by_refl].
Qed.

Lemma delete_events_observed del :
  forallb is_delete_event del = true ->
  reported_zones del = [] /\ subnet_requests del = []
  /\ forallb (zone_event None) del = true.
Proof.
  induction del as [|ev del IH]; [auto|]. intros H. simpl in H.
  apply andb_true_iff in H as [Hev Hdel].
  destruct (IH Hdel) as (IH1 & IH2 & IH3).
  rewrite reported_zones_cons, subnet_requests_cons, IH1, IH2.
  cbn [forallb]. rewrite IH3.
  destruct ev as [c r|c f]; [|discriminate].
  destruct c; try discriminate; repeat split; reflexivity.
Qed.

End ZoneChoiceTheorem.

(** C4, as the code has it.  Zone discovery happens after the network was
    created.  When it answers with the zone list [zones], [create_vpc]
    does not stop: the next request is the public subnet, in the first
    zone of the list or in no zone ([None]) when the list is empty; every
    further subnet request names that same zone, and on success both
    subnets of the record carry it. *)
Theorem create_vpc_zone_choice (E : environment)
    (self_region name cidr : string) (rid : option string) (w w' : world)
    (r : result NetworkRecord) (zones : list availability_zone_info) :
  create_vpc E self_region name cidr rid w = (r, w') ->
  reported_zones (new_events w w') = [zones] ->
  exists public_cidr more,
    _calculate_subnet_cidr cidr 1 = Ok public_cidr /\
    subnet_requests (new_events w w')
    = (public_cidr, head (map ZoneName zones)) :: more /\
    Forall (fun rq => rq.2 = head (map ZoneName zones)) more /\
    (forall details, r = Ok details ->
       map availability_zone (subnets details)
       = [head (map ZoneName zones); head (map ZoneName zones)]).
Proof.
  unfold create_vpc, create_vpc_try. intros H Hz.
  destruct (create_vpc_network E name cidr rid w) as [r0 w1] eqn:Hnet.
  apply create_vpc_network_inv in Hnet
    as [(e & Hv & -> & ->)|(Hv & t1 & Ht1 & _)].
  { apply create_vpc_except_run in H as (_ & del & Hdel & Hd & _).
    rewrite (new_events_app _ _ _ Hdel) in Hz.
    apply delete_events_observed in Hd as (Hd & _). congruence. }
  destruct r0 as [vpc|e].
  2:{ apply create_vpc_except_run in H as (_ & del & Hdel & Hd & _).
      rewrite (new_events_app w w' (Ec2 (CreateVpc cidr t1) (Raise e) :: del))
        in Hz by (rewrite Hdel, Ht1, <- app_assoc; reflexivity).
      apply delete_events_observed in Hd as (Hd & _).
      rewrite reported_zones_cons, Hd in Hz. discriminate. }
  destruct (validated_range_derives cidr tt 1 Hv) as [c1 Hc1].
  destruct (create_vpc_resources E self_region name cidr rid vpc w1)
    as [rr w2] eqn:Hres.
  destruct (create_vpc_resources_any E _ _ _ _ _ _ _ _ _ Hres Hc1)
    as (new & Hnew & Hshape).
  assert (Hfin : r = rr /\ extends_by is_delete_event w2 w').
  { destruct rr as [d|e].
    - injection H as <- <-. split; [reflexivity|apply extends_by_refl].
    - apply create_vpc_except_run in H as [-> Hx]. auto. }
  destruct Hfin as (-> & del & Hdel & Hd & _).
  destruct (delete_events_observed del Hd) as (Hd1 & Hd2 & _).
  assert (Hev : new_events w w'
                = (Ec2 (CreateVpc cidr t1) (Ok vpc) :: new) ++ del).
  { apply new_events_app. rewrite Hdel, Hnew, Ht1, <- !app_assoc.
    reflexivity. }
  rewrite Hev in Hz |- *.
  destruct Hshape
    as [Hnone|(pre & f & zs & tags & outcome & rest & -> & Hp1 & Hp2 & Hr)].
  { rewrite reported_zones_app, reported_zones_cons, Hnone, Hd1 in Hz.
    discriminate. }
  assert (Hlist :
    (Ec2 (CreateVpc cidr t1) (Ok vpc)
       :: pre ++ Ec2 (DescribeAvailabilityZones f) (Ok zs)
              :: Ec2 (CreateSubnet vpc c1 (head (map ZoneName zs)) tags)
                     outcome :: rest) ++ del
    = (Ec2 (CreateVpc cidr t1) (Ok vpc) :: pre)
        ++ Ec2 (DescribeAvailabilityZones f) (Ok zs)
        :: Ec2 (CreateSubnet vpc c1 (head (map ZoneName zs)) tags) outcome
        :: (rest ++ del)).
  { simpl. rewrite <- app_assoc. reflexivity. }
  rewrite Hlist in Hz |- *.
  assert (Hrest : forallb (zone_event (head (map ZoneName zs))) (rest ++ del)
                  = true).
  { rewrite forallb_app, Hr. simpl.
    apply forallb_forall. intros ev Hin.
    apply delete_event_zone_event.
    rewrite forallb_forall in Hd. apply Hd, Hin. }
  assert (Hq1 : reported_zones (Ec2 (CreateVpc cidr t1) (Ok vpc) :: pre) = [])
    by (rewrite reported_zones_cons, Hp1; reflexivity).
  assert (Hq2 : subnet_requests (Ec2 (CreateVpc cidr t1) (Ok vpc) :: pre) = [])
    by (rewrite subnet_requests_cons, Hp2; reflexivity).
  destruct (zone_run_observed (Ec2 (CreateVpc cidr t1) (Ok vpc) :: pre)
              f zs vpc c1 tags outcome (rest ++ del) zones Hq1 Hq2 Hrest Hz)
    as (-> & more & Hreq & Hmore).
  exists c1, more. split; [exact Hc1|]. split; [exact Hreq|].
  split; [exact Hmore|].
  intros details ->.
  apply create_vpc_resources_Ok_inv in Hres
    as (public & private & igw & rt & zones0 & pc & prc & t2 & t3 & t4 & t5
        & _ & _ & Htr & ->).
  rewrite Hnew in Htr. apply app_inv_head in Htr.
  apply (f_equal reported_zones) in Htr.
  destruct (zone_events_observed _ _ Hr) as [Hr0 _].
  rewrite reported_zones_app, Hp1, (reported_zones_cons _ (_ :: rest)),
    (reported_zones_cons _ rest), Hr0 in Htr.
  simpl in Htr. injection Htr as ->.
  reflexivity.
Qed.

Lemma create_vpc_zone_choice_witness :
  (exists public_cidr more,
     _calculate_subnet_cidr "10.0.0.0/16" 1 = Ok public_cidr /\
     subnet_requests
       (new_events Scenario.w_empty
          (snd (Scenario.create_demo Scenario.no_zone_lenient)))
     = (public_cidr, None) :: more /\
     Forall (fun rq => rq.2 = None) more /\
     (forall details,
        fst (Scenario.create_demo Scenario.no_zone_lenient) = Ok details ->
        map availability_zone (subnets details) = [None; None]))
  /\
  (exists public_cidr more,
     _calculate_subnet_cidr "10.0.0.0/16" 1 = Ok public_cidr /\
     subnet_requests
       (new_events Scenario.w_empty (snd (Scenario.create_demo Scenario.happy)))
     = (public_cidr, Some "us-east-2a") :: more /\
     Forall (fun rq => rq.2 = Some "us-east-2a") more /\
     (forall details,
        fst (Scenario.create_demo Scenario.happy) = Ok details ->
        map availability_zone (subnets details)
        = [Some "us-east-2a"; Some "us-east-2a"])).
Proof.
  split.
  - apply (create_vpc_zone_choice Scenario.no_zone_lenient "us-east-2" "demo"
             "10.0.0.0/16" None Scenario.w_empty _ _ []);
      vm_compute; reflexivity.
  - apply (create_vpc_zone_choice Scenario.happy "us-east-2" "demo"
             "10.0.0.0/16" None Scenario.w_empty _ _ Scenario.two_zones);
      vm_compute; reflexivity.
Defined.

(** C4 as stated fails: when zone discovery reports no zone, the code
    raises nothing of its own.  If the service takes a subnet without a
    zone, creation succeeds; if the client library refuses the request,
    that refusal is the error, raised after the network was created. *)
Lemma create_vpc_no_zone_counterexample :
  reported_zones (trace (snd (Scenario.create_demo Scenario.no_zone_lenient)))
  = [[]]
  /\ is_Ok (fst (Scenario.create_demo Scenario.no_zone_lenient)) = true
  /\ reported_zones (trace (snd (Scenario.create_demo Scenario.no_zone)))
     = [[]]
  /\ fst (Scenario.create_demo Scenario.no_zone)
     = Raise (OtherException "ParamValidationError"
                "Invalid type for parameter AvailabilityZone")
  /\ subnet_requests (trace (snd (Scenario.create_demo Scenario.no_zone)))
     = [("10.0.1.0/24", None)]
  /\ created_networks (trace (snd (Scenario.create_demo Scenario.no_zone)))
     = ["vpc-0a1b2c3d"].
Proof. vm_compute. repeat split; reflexivity. Qed.

(** ** Validation of the top-level range *)

(** A range that [_validate_cidr] rejects stops [create_vpc] before
    anything happens: no request is sent and the clock is not read. *)
Lemma create_vpc_invalid_range (E : environment)
    (self_region name cidr : string) (rid : option string) (w : world)
    (e : exn) :
  _validate_cidr cidr = Raise e ->
  create_vpc E self_region name cidr rid w = (Raise e, w).
Proof.
  intros Hv.
  unfold create_vpc, create_vpc_try, create_vpc_network, bind, lift.
  rewrite Hv. unfold create_vpc_except.
  destruct e; reflexivity.
Qed.

(** [_validate_cidr] raises [ValueError] and nothing else. *)
Lemma _validate_cidr_raises cidr e :
  _validate_cidr cidr = Raise e -> exists msg, e = ValueError msg.
Proof.
  unfold _validate_cidr.
  destruct (negb (PyStr.contains "/" cidr)); [intros [= <-]; eauto|].
  destruct (PyStr.split "/" cidr) as [|ip [|prefix [|? ?]]];
    try (intros [= <-]; eauto).
  destruct (negb (Nat.eqb (length (PyStr.split "." ip)) 4));
    [intros [= <-]; eauto|].
  unfold PyStr.int.
  destruct (match PyStr.strip prefix with
            | String "-" r => Z.opp <$> PyStr.digits r 0 false
            | String "+" r => PyStr.digits r 0 false
            | _ => PyStr.digits (PyStr.strip prefix) 0 false
            end) as [n|].
  - destruct ((n <? 16) || (n >? 28)); [intros [= <-]; eauto|discriminate].
  - intros [= <-]; eauto.
Qed.

(** A prefix below 16 or above 28 is rejected. *)
Lemma _validate_cidr_prefix_range cidr ip prefix n :
  PyStr.split "/" cidr = [ip; prefix] -> PyStr.int prefix = Ok n ->
  n < 16 \/ 28 < n ->
  exists msg, _validate_cidr cidr = Raise (ValueError msg).
Proof.
  intros Hs Hn Hr.
  destruct (_validate_cidr cidr) as [u|e] eqn:Hv.
  - apply _validate_cidr_Ok_inv in Hv as (ip' & p' & n' & Hs' & _ & Hn' & Hr').
    rewrite Hs in Hs'. injection Hs' as <- <-.
    rewrite Hn in Hn'. injection Hn' as <-. lia.
  - destruct (_validate_cidr_raises _ _ Hv) as [msg ->]. eauto.
Qed.

Lemma _validate_cidr_boundaries :
  _validate_cidr "10.0.0.0/15" = Raise (ValueError "Invalid CIDR prefix: 15")
  /\ _validate_cidr "10.0.0.0/16" = Ok tt
  /\ _validate_cidr "10.0.0.0/28" = Ok tt
  /\ _validate_cidr "10.0.0.0/29" = Raise (ValueError "Invalid CIDR prefix: 29").
Proof. repeat split; reflexivity. Qed.

(** C6, a defect of the code.  [_validate_cidr] counts the
    address parts and never looks at them: an octet above 255 and an octet
    that is no number are both accepted, although such a range does not
    read as four integers in [0,255]. *)
Theorem _validate_cidr_accepts_bad_octets :
  _validate_cidr "256.0.0.0/16" = Ok tt
  /\ _validate_cidr "10.x.0.0/16" = Ok tt
  /\ parse_range "256.0.0.0/16" = None
  /\ parse_range "10.x.0.0/16" = None.
Proof. repeat split; reflexivity. Qed.

(** C5, a defect of the code.  A range with a malformed address
    passes the validation inside [create_vpc], so the request for the
    network is sent to the provider (and here creation goes through). *)
Theorem create_vpc_bad_octets_reaches_provider :
  parse_range "10.0.0.256/16" = None
  /\ is_Ok (fst (create_vpc Scenario.happy "us-east-2" "demo" "10.0.0.256/16"
                   None Scenario.w_empty)) = true
  /\ created_networks
       (trace (snd (create_vpc Scenario.happy "us-east-2" "demo"
                      "10.0.0.256/16" None Scenario.w_empty)))
     = ["vpc-0a1b2c3d"]
  /\ length (ec2_calls
       (trace (snd (create_vpc Scenario.happy "us-east-2" "demo"
                      "10.0.0.256/16" None Scenario.w_empty)))) = 12%nat.
Proof. vm_compute. repeat split; reflexivity. Qed.

(** ** Teardown *)

Lemma flat_map_map_nil {A B C} (f : B -> list C) (g : A -> B) l :
  (forall x, f (g x) = []) -> flat_map f (map g l) = [].
Proof.
  intros H. induction l as [|x l IH]; simpl; [reflexivity|].
  rewrite H, IH. reflexivity.
Qed.

Lemma flat_map_map_single {A B C} (f : B -> list C) (g : A -> B)
    (h : A -> C) l :
  (forall x, f (g x) = [h x]) -> flat_map f (map g l) = map h l.
Proof.
  intros H. induction l as [|x l IH]; simpl; [reflexivity|].
  rewrite H, IH. reflexivity.
Qed.

Lemma flat_map_flat_map_nil {A B C} (f : B -> list C) (g : A -> list B) l :
  (forall x, flat_map f (g x) = []) -> flat_map f (flat_map g l) = [].
Proof.
  intros H. induction l as [|x l IH]; simpl; [reflexivity|].
  rewrite flat_map_app, H, IH. reflexivity.
Qed.

Section Teardown.

Context (E : environment).

Lemma delete_subnets_Ok_inv l w u w' :
  for_each l (fun subnet => ec2_request E (DeleteSubnet subnet)) w
  = (Ok u, w') ->
  trace w' = trace w ++ map (fun s => Ec2 (DeleteSubnet s) (Ok tt)) l
  /\ clock_reads w' = clock_reads w.
Proof.
  revert w. induction l as [|s l IH]; simpl; intros w H.
  - apply ret_inv in H as [_ ->]. rewrite app_nil_r. auto.
  - inv_bind H as u1 w1 H1.
    apply (ec2_request_inv E (DeleteSubnet s)) in H1 as (Ht & _ & Hc).
    destruct u1. apply IH in H as [Ht' Hc'].
    rewrite Ht', Ht, <- app_assoc. split; [reflexivity|congruence].
Qed.

Lemma delete_route_tables_Ok_inv l w u w' :
  for_each l (fun rt =>
    if negb (_is_main_route_table rt)
    then ec2_request E (DeleteRouteTable (rt_id rt))
    else ret tt) w = (Ok u, w') ->
  trace w' = trace w
    ++ map (fun rt => Ec2 (DeleteRouteTable (rt_id rt)) (Ok tt))
         (List.filter (fun rt => negb (_is_main_route_table rt)) l)
  /\ clock_reads w' = clock_reads w.
Proof.
  revert w. induction l as [|rt l IH]; simpl; intros w H.
  - apply ret_inv in H as [_ ->]. rewrite app_nil_r. auto.
  - inv_bind H as u1 w1 H1.
    destruct (negb (_is_main_route_table rt)).
    + apply (ec2_request_inv E (DeleteRouteTable (rt_id rt))) in H1
        as (Ht & _ & Hc).
      destruct u1. apply IH in H as [Ht' Hc']. simpl.
      rewrite Ht', Ht, <- app_assoc. split; [reflexivity|congruence].
    + apply ret_inv in H1 as [_ ->]. apply IH, H.
Qed.

Lemma delete_gateways_Ok_inv vpc l w u w' :
  for_each l (fun igw =>
    ec2_request E (DetachInternetGateway vpc igw) >>
    ec2_request E (DeleteInternetGateway igw)) w = (Ok u, w') ->
  trace w' = trace w
    ++ flat_map (fun igw =>
         [ Ec2 (DetachInternetGateway vpc igw) (Ok tt);
           Ec2 (DeleteInternetGateway igw) (Ok tt) ]) l
  /\ clock_reads w' = clock_reads w.
Proof.
  revert w. induction l as [|g l IH]; simpl; intros w H.
  - apply ret_inv in H as [_ ->]. rewrite app_nil_r. auto.
  - inv_bind H as u1 w1 H1. inv_bind H1 as u2 w2 H2.
    apply (ec2_request_inv E (DetachInternetGateway vpc g)) in H2
      as (Ht2 & _ & Hc2).
    apply (ec2_request_inv E (DeleteInternetGateway g)) in H1
      as (Ht1 & _ & Hc1).
    destruct u1, u2. apply IH in H as [Ht' Hc'].
    rewrite Ht', Ht1, Ht2, <- !app_assoc. split; [reflexivity|congruence].
Qed.

(** The requests of a teardown that went through, in order. *)
Lemma delete_vpc_Ok_inv vpc w d w' :
  delete_vpc E vpc w = (Ok d, w') ->
  exists vpc_subnets vpc_route_tables igws,
    new_events w w' =
      Ec2 (DescribeSubnets vpc) (Ok vpc_subnets)
      :: map (fun s => Ec2 (DeleteSubnet s) (Ok tt)) vpc_subnets
      ++ Ec2 (DescribeRouteTables vpc) (Ok vpc_route_tables)
      :: map (fun rt => Ec2 (DeleteRouteTable (rt_id rt)) (Ok tt))
           (List.filter (fun rt => negb (_is_main_route_table rt))
              vpc_route_tables)
      ++ Ec2 (DescribeInternetGateways vpc) (Ok igws)
      :: flat_map (fun igw =>
           [ Ec2 (DetachInternetGateway vpc igw) (Ok tt);
             Ec2 (DeleteInternetGateway igw) (Ok tt) ]) igws
      ++ [Ec2 (DeleteVpc vpc) (Ok tt)]
    /\ d = {| del_vpc_id := vpc;
              del_status := "deleted";
              deleted_at :=
                Some (PyDatetime.isoformat (clock E (clock_reads w)) +:+ "Z");
              note := None |}.
Proof.
  unfold delete_vpc, try_except. intros H.
  match type of H with
  | context [bind ?m ?k w] => destruct (bind m k w) as [r0 w0] eqn:Hb
  end.
  destruct r0 as [d0|e0]; [|discriminate].
  injection H as -> ->.
  inv_bind Hb as subs w1 H1.
  apply (ec2_request_inv E (DescribeSubnets vpc)) in H1 as (Ht1 & _ & Hc1).
  inv_bind Hb as u2 w2 H2. apply delete_subnets_Ok_inv in H2 as (Ht2 & Hc2).
  inv_bind Hb as rts w3 H3.
  apply (ec2_request_inv E (DescribeRouteTables vpc)) in H3
    as (Ht3 & _ & Hc3).
  inv_bind Hb as u4 w4 H4.
  apply delete_route_tables_Ok_inv in H4 as (Ht4 & Hc4).
  inv_bind Hb as igws w5 H5.
  apply (ec2_request_inv E (DescribeInternetGateways vpc)) in H5
    as (Ht5 & _ & Hc5).
  inv_bind Hb as u6 w6 H6. apply delete_gateways_Ok_inv in H6 as (Ht6 & Hc6).
  inv_bind Hb as u7 w7 H7.
  apply (ec2_request_inv E (DeleteVpc vpc)) in H7 as (Ht7 & _ & Hc7).
  inv_bind Hb as now w8 H8.
  apply utcnow_inv in H8 as ([= ->] & Ht8 & _ & Hc8).
  apply ret_inv in Hb as [[= ->] ->]. destruct u7.
  exists subs, rts, igws. split.
  - apply new_events_app.
    rewrite Ht8, Ht7, Ht6, Ht5, Ht4, Ht3, Ht2, Ht1.
    rewrite <- !app_assoc. reflexivity.
  - replace (clock_reads w7) with (clock_reads w) by congruence.
    reflexivity.
Qed.

End Teardown.

(** C8. In a teardown that goes through, the route tables deleted are the
    enumerated ones that are not main, in order; no deletion is requested
    for a main table.  A table counts as main exactly when one of its
    association records carries the main flag, so a table without
    association records counts as not main. *)
Theorem delete_vpc_route_tables (E : environment) (vpc : string)
    (w w' : world) (d : DeletionRecord) :
  delete_vpc E vpc w = (Ok d, w') ->
  deleted_route_tables (new_events w w')
  = map rt_id
      (List.filter (fun rt => negb (_is_main_route_table rt))
         (enumerated_route_tables (new_events w w')))
  /\ delete_route_table_requests (new_events w w')
     = deleted_route_tables (new_events w w')
  /\ (forall rt,
        _is_main_route_table rt = true <->
        exists a, In a (associations rt) /\ main a = true)
  /\ (forall rt, associations rt = [] -> _is_main_route_table rt = false).
Proof.
  intros H.
  apply delete_vpc_Ok_inv in H as (subs & rts & igws & -> & _).
  assert (Hdel : forall P : route_table -> bool,
    deleted_route_tables
      (Ec2 (DescribeSubnets vpc) (Ok subs)
       :: map (fun s => Ec2 (DeleteSubnet s) (Ok tt)) subs
       ++ Ec2 (DescribeRouteTables vpc) (Ok rts)
       :: map (fun rt => Ec2 (DeleteRouteTable (rt_id rt)) (Ok tt))
            (List.filter P rts)
       ++ Ec2 (DescribeInternetGateways vpc) (Ok igws)
       :: flat_map (fun igw =>
            [ Ec2 (DetachInternetGateway vpc igw) (Ok tt);
              Ec2 (DeleteInternetGateway igw) (Ok tt) ]) igws
       ++ [Ec2 (DeleteVpc vpc) (Ok tt)])
    = map rt_id (List.filter P rts)).
  { intros P. unfold deleted_route_tables. simpl.
    rewrite flat_map_app. simpl. rewrite flat_map_app. simpl.
    rewrite flat_map_app. simpl.
    rewrite flat_map_map_nil by reflexivity.
    rewrite (flat_map_map_single _ _ rt_id) by reflexivity.
    rewrite flat_map_flat_map_nil by reflexivity.
    rewrite app_nil_r. reflexivity. }
  split; [|split; [|split]].
  - rewrite Hdel. f_equal. f_equal.
    unfold enumerated_route_tables. simpl.
    rewrite flat_map_app. simpl. rewrite flat_map_app. simpl.
    rewrite flat_map_app. simpl.
    rewrite !flat_map_map_nil by reflexivity.
    rewrite flat_map_flat_map_nil by reflexivity.
    rewrite app_nil_r. reflexivity.
  - rewrite Hdel.
    unfold delete_route_table_requests. simpl.
    rewrite flat_map_app. simpl. rewrite flat_map_app. simpl.
    rewrite flat_map_app. simpl.
    rewrite flat_map_map_nil by reflexivity.
    rewrite (flat_map_map_single _ _ rt_id) by reflexivity.
    rewrite flat_map_flat_map_nil by reflexivity.
    rewrite app_nil_r. reflexivity.
  - intros rt. unfold _is_main_route_table. rewrite existsb_exists.
    reflexivity.
  - intros rt Hnil. unfold _is_main_route_table. rewrite Hnil. reflexivity.
Qed.

Lemma delete_vpc_route_tables_witness :
  deleted_route_tables
    (new_events Scenario.w_empty
       (snd (delete_vpc Scenario.happy "vpc-0a1b2c3d" Scenario.w_empty)))
  = ["rtb-public"; "rtb-bare"]
  /\ map rt_id
       (enumerated_route_tables
          (new_events Scenario.w_empty
             (snd (delete_vpc Scenario.happy "vpc-0a1b2c3d" Scenario.w_empty))))
     = ["rtb-main"; "rtb-public"; "rtb-bare"].
Proof.
  edestruct (delete_vpc_route_tables Scenario.happy "vpc-0a1b2c3d"
               Scenario.w_empty) as (H1 & _); [vm_compute; reflexivity|].
  split; [|vm_compute; reflexivity].
  etransitivity; [|vm_compute; reflexivity].
  etransitivity; [|exact H1]. vm_compute. reflexivity.
Defined.

(** ** The metadata store *)

Section StoreRuns.

Context (E : environment).

Lemma get_vpc_run vpc_id w :
  ddb_fault E (trace w) (GetItem vpc_id) = None ->
  get_vpc E vpc_id w
  = (Ok (table w !! vpc_id),
     World (trace w ++ [Ddb (GetItem vpc_id) None]) (table w)
       (clock_reads w)).
Proof.
  intros Hf. unfold get_vpc, try_except, table_get_item, ddb_request.
  rewrite Hf. reflexivity.
Qed.

(** With no fault from the service, [update_vpc_status] returns [True]
    whether or not an item is stored under the key. *)
Lemma update_vpc_status_run vpc_id st w :
  ddb_fault E (trace w) (UpdateItem vpc_id "status" (AttrS st)) = None ->
  update_vpc_status E vpc_id st w
  = (Ok true,
     World (trace w ++ [Ddb (UpdateItem vpc_id "status" (AttrS st)) None])
       (<[ vpc_id := <[ "status" := AttrS st ]>
                       (default {[ "vpc_id" := AttrS vpc_id ]}
                          (table w !! vpc_id)) ]> (table w))
       (clock_reads w)).
Proof.
  intros Hf.
  unfold update_vpc_status, try_except, bind, table_update_item, ddb_request.
  rewrite Hf. reflexivity.
Qed.

(** [update_vpc_status] returns [False] only when the service raises
    [ConditionalCheckFailedException]. *)
Lemma update_vpc_status_false vpc_id st w w' :
  update_vpc_status E vpc_id st w = (Ok false, w') ->
  exists msg,
    ddb_fault E (trace w) (UpdateItem vpc_id "status" (AttrS st))
    = Some (ClientError "ConditionalCheckFailedException" msg).
Proof.
  unfold update_vpc_status, try_except, bind, table_update_item, ddb_request.
  destruct (ddb_fault E (trace w) (UpdateItem vpc_id "status" (AttrS st)))
    as [e|]; [|discriminate].
  destruct e as [code msg| | | ]; try discriminate.
  destruct (String.eqb code "ConditionalCheckFailedException") eqn:Hc;
    [|discriminate].
  apply String.eqb_eq in Hc as ->. eauto.
Qed.

Lemma store_delete_vpc_run vpc_id it w :
  (forall h c, ddb_fault E h c = None) ->
  table w !! vpc_id = Some it -> it <> ∅ ->
  store_delete_vpc E vpc_id w
  = (Ok true,
     World (trace w ++ [Ddb (GetItem vpc_id) None; Ddb (DeleteItem vpc_id) None])
       (delete vpc_id (table w)) (clock_reads w)).
Proof.
  intros Hf Hl Hne.
  unfold store_delete_vpc, try_except, bind.
  rewrite get_vpc_run by apply Hf. rewrite Hl. simpl.
  rewrite bool_decide_eq_false_2 by exact Hne. simpl.
  unfold table_delete_item, ddb_request. simpl. rewrite Hf. simpl.
  rewrite <- app_assoc. reflexivity.
Qed.

End StoreRuns.

(** C9, a defect of the code.  [update_item] is called without
    a condition, so for an id that is not in the table the service creates
    an item holding the key and the status, nothing is raised, and
    [update_vpc_status] returns [True]. *)
Theorem update_vpc_status_absent_id :
  table Scenario.w_empty !! "vpc-0a1b2c3d" = None
  /\ fst (update_vpc_status Scenario.happy "vpc-0a1b2c3d" "deleting"
            Scenario.w_empty) = Ok true
  /\ table (snd (update_vpc_status Scenario.happy "vpc-0a1b2c3d" "deleting"
                   Scenario.w_empty)) !! "vpc-0a1b2c3d"
     = Some {[ "vpc_id" := AttrS "vpc-0a1b2c3d";
               "status" := AttrS "deleting" ]}.
Proof. vm_compute. repeat split; reflexivity. Qed.

(** The other half of C9 holds: for a stored item only the status
    attribute changes. *)
Lemma update_vpc_status_stored (E : environment) (vpc_id st : string)
    (it : item) (w : world) :
  ddb_fault E (trace w) (UpdateItem vpc_id "status" (AttrS st)) = None ->
  table w !! vpc_id = Some it ->
  fst (update_vpc_status E vpc_id st w) = Ok true
  /\ table (snd (update_vpc_status E vpc_id st w)) !! vpc_id
     = Some (<[ "status" := AttrS st ]> it)
  /\ (forall k, k <> vpc_id ->
        table (snd (update_vpc_status E vpc_id st w)) !! k = table w !! k)
  /\ (forall a, a <> "status" ->
        <[ "status" := AttrS st ]> it !! a = it !! a).
Proof.
  intros Hf Hl. rewrite update_vpc_status_run by exact Hf. simpl.
  rewrite Hl. simpl. split; [reflexivity|]. split; [apply lookup_insert_eq|].
  split.
  - intros k Hk. apply lookup_insert_ne. congruence.
  - intros a Ha. apply lookup_insert_ne. congruence.
Qed.

(** ** The delete handler *)

Section HandlerRuns.

Context (E : environment).

Lemma validate_vpc_id_nonempty vpc_id :
  fst (validate_vpc_id vpc_id) = true -> truthy (Some vpc_id) = true.
Proof. destruct vpc_id; [discriminate|reflexivity]. Qed.

(** A request for a stored network with a valid id gets as far as the
    cloud deletion, in the world [after_marking]. *)
Lemma handler_body_reaches_deletion event vpc_id it w :
  default ∅ (pathParameters event) !! "vpc_id" = Some vpc_id ->
  fst (validate_vpc_id vpc_id) = true ->
  table w !! vpc_id = Some it -> it <> ∅ ->
  (forall h c, ddb_fault E h c = None) ->
  handler_body E event w
  = (let* deletion_result := delete_from_aws E vpc_id in
     store_delete_vpc E vpc_id >>
     ret (success_response deletion_result 200
            (Some ("VPC '" +:+ vpc_id
                   +:+ "' and all associated resources deleted successfully"))))
      (after_marking vpc_id it w).
Proof.
  intros Hp Hv Hl Hne Hf. unfold handler_body.
  rewrite Hp, (validate_vpc_id_nonempty _ Hv). simpl.
  destruct (validate_vpc_id vpc_id) as [valid msg]. simpl in Hv. subst valid.
  simpl. unfold bind at 1.
  rewrite get_vpc_run by apply Hf. rewrite Hl. simpl.
  rewrite bool_decide_eq_false_2 by exact Hne. simpl.
  unfold bind at 1.
  rewrite update_vpc_status_run by apply Hf. simpl. rewrite Hl. simpl.
  unfold after_marking. rewrite <- app_assoc. reflexivity.
Qed.

(** The cloud deletion leaves the metadata table alone. *)
Lemma delete_vpc_table vpc_id w :
  extends_by is_delete_event w (snd (delete_vpc E vpc_id w)).
Proof.
  destruct (delete_vpc E vpc_id w) as [r w'] eqn:H.
  eapply all_runs_delete_vpc, H.
Qed.

End HandlerRuns.

(** C7. When the network has a metadata record, the metadata store works
    and the provider answers the deletion with [InvalidVpcID.NotFound],
    the handler answers 200 with a deletion record of status ["deleted"]
    that carries the explanatory note, and the metadata record is
    removed: the provider's error does not reach the caller. *)
Theorem handler_network_not_found (E : environment) (event : lambda_event)
    (w : world) (vpc_id msg : string) (it : item) :
  default ∅ (pathParameters event) !! "vpc_id" = Some vpc_id ->
  fst (validate_vpc_id vpc_id) = true ->
  table w !! vpc_id = Some it -> it <> ∅ ->
  (forall h c, ddb_fault E h c = None) ->
  fst (delete_vpc E vpc_id (after_marking vpc_id it w))
  = Raise (ClientError "InvalidVpcID.NotFound" msg) ->
  fst (handler E event w)
  = Ok (success_response
          {| del_vpc_id := vpc_id;
             del_status := "deleted";
             deleted_at := None;
             note := Some not_found_note |}
          200
          (Some ("VPC '" +:+ vpc_id
                 +:+ "' and all associated resources deleted successfully")))
  /\ table (snd (handler E event w)) !! vpc_id = None.
Proof.
  intros Hp Hv Hl Hne Hf Hdel.
  destruct (handler E event w) as [resp w'] eqn:Hrun.
  unfold handler, try_except in Hrun.
  rewrite (handler_body_reaches_deletion E event vpc_id it w Hp Hv Hl Hne Hf)
    in Hrun.
  unfold bind at 1 in Hrun. unfold delete_from_aws, try_except in Hrun.
  pose proof (delete_vpc_table E vpc_id (after_marking vpc_id it w))
    as (new & _ & _ & Htab).
  destruct (delete_vpc E vpc_id (after_marking vpc_id it w)) as [r w3].
  simpl in Hdel, Htab. subst r. simpl in Hrun.
  unfold ret at 1 in Hrun. unfold bind at 1 in Hrun.
  rewrite (store_delete_vpc_run E vpc_id
             (<[ "status" := AttrS "deleting" ]> it) w3 Hf) in Hrun.
  - simpl in Hrun. injection Hrun as <- <-. simpl.
    split; [reflexivity|]. apply lookup_delete_eq.
  - rewrite Htab. unfold after_marking. simpl. apply lookup_insert_eq.
  - apply insert_non_empty.
Qed.

Lemma handler_network_not_found_witness :
  fst (handler Scenario.vpc_gone Scenario.delete_event Scenario.w_stored)
  = Ok (success_response
          {| del_vpc_id := "vpc-0a1b2c3d";
             del_status := "deleted";
             deleted_at := None;
             note := Some not_found_note |}
          200
          (Some ("VPC '" +:+ "vpc-0a1b2c3d"
                 +:+ "' and all associated resources deleted successfully")))
  /\ table (snd (handler Scenario.vpc_gone Scenario.delete_event
                   Scenario.w_stored)) !! "vpc-0a1b2c3d" = None.
Proof.
  apply (handler_network_not_found Scenario.vpc_gone Scenario.delete_event
           Scenario.w_stored "vpc-0a1b2c3d" "The vpc ID does not exist"
           Scenario.stored_item).
  - reflexivity.
  - reflexivity.
  - reflexivity.
  - apply insert_non_empty.
  - intros h c. reflexivity.
  - vm_compute. reflexivity.
Defined.

(** C10. When the network has a metadata record and the metadata store
    works, the record's status is set to ["deleting"] before the first
    deletion request goes to the provider.  If the deletion then fails
    with a provider error other than [InvalidVpcID.NotFound], the error
    leaves the deletion step and the handler answers with an error
    response (400 for [DependencyViolation], 500 otherwise); the metadata
    record stays in the table, with the status ["deleting"] and its other
    attributes as they were. *)
Theorem handler_deletion_fails (E : environment) (event : lambda_event)
    (w : world) (vpc_id code msg : string) (it : item) :
  default ∅ (pathParameters event) !! "vpc_id" = Some vpc_id ->
  fst (validate_vpc_id vpc_id) = true ->
  table w !! vpc_id = Some it -> it <> ∅ ->
  (forall h c, ddb_fault E h c = None) ->
  fst (delete_vpc E vpc_id (after_marking vpc_id it w))
  = Raise (ClientError code msg) ->
  code <> "InvalidVpcID.NotFound" ->
  fst (handler E event w)
  = Ok (if String.eqb code "DependencyViolation"
        then validation_error_response dependency_message
               (Some [("aws_error", code)])
        else internal_error_response (ClientError code msg))
  /\ table (snd (handler E event w))
     = <[ vpc_id := <[ "status" := AttrS "deleting" ]> it ]> (table w)
  /\ exists aws,
       new_events w (snd (handler E event w))
       = Ddb (GetItem vpc_id) None
         :: Ddb (UpdateItem vpc_id "status" (AttrS "deleting")) None
         :: aws
       /\ forallb is_delete_event aws = true.
Proof.
  intros Hp Hv Hl Hne Hf Hdel Hcode.
  destruct (handler E event w) as [resp w'] eqn:Hrun.
  unfold handler, try_except in Hrun.
  rewrite (handler_body_reaches_deletion E event vpc_id it w Hp Hv Hl Hne Hf)
    in Hrun.
  unfold bind at 1 in Hrun. unfold delete_from_aws, try_except in Hrun.
  pose proof (delete_vpc_table E vpc_id (after_marking vpc_id it w))
    as (aws & Htr & Haws & Htab).
  destruct (delete_vpc E vpc_id (after_marking vpc_id it w)) as [r w3].
  simpl in Hdel, Htab, Htr. subst r.
  apply String.eqb_neq in Hcode. rewrite Hcode in Hrun.
  unfold raise at 1 in Hrun.
  assert (Hev : new_events w w3
                = Ddb (GetItem vpc_id) None
                  :: Ddb (UpdateItem vpc_id "status" (AttrS "deleting")) None
                  :: aws).
  { apply new_events_app. rewrite Htr. rewrite <- app_assoc. reflexivity. }
  destruct (String.eqb code "DependencyViolation");
    unfold ret in Hrun; injection Hrun as <- <-; simpl;
    (split; [reflexivity|]; split; [exact Htab|]; exists aws; auto).
Qed.

Lemma handler_deletion_fails_witness :
  fst (handler Scenario.dependency Scenario.delete_event Scenario.w_stored)
  = Ok (validation_error_response dependency_message
          (Some [("aws_error", "DependencyViolation")]))
  /\ table (snd (handler Scenario.dependency Scenario.delete_event
                   Scenario.w_stored)) !! "vpc-0a1b2c3d"
     = Some (<[ "status" := AttrS "deleting" ]> Scenario.stored_item).
Proof.
  destruct (handler_deletion_fails Scenario.dependency Scenario.delete_event
              Scenario.w_stored "vpc-0a1b2c3d" "DependencyViolation"
              "network has dependencies" Scenario.stored_item)
    as (Hr & Ht & _).
  - reflexivity.
  - reflexivity.
  - reflexivity.
  - apply insert_non_empty.
  - intros h c. reflexivity.
  - vm_compute. reflexivity.
  - discriminate.
  - split; [exact Hr|]. rewrite Ht. apply lookup_insert_eq.
Defined.

(** * Further properties *)

(** ** [_validate_cidr] and [create_vpc] *)

Lemma split_two_contains sep s a b :
  PyStr.split sep s = [a; b] -> PyStr.contains sep s = true.
Proof.
  intros H. destruct (PyStr.contains sep s) eqn:Hc; [reflexivity|].
  rewrite (split_no_sep sep s Hc) in H. discriminate.
Qed.


(** X2. A range that [_validate_cidr] rejects makes [create_vpc] raise a
    [ValueError], and nothing else happens: no request is sent, the clock
    is not read and the table is as before. *)
Theorem create_vpc_rejected_range_untouched (E : environment)
    (self_region name cidr : string) (rid : option string) (w : world)
    (e : exn) :
  _validate_cidr cidr = Raise e ->
  create_vpc E self_region name cidr rid w = (Raise e, w)
  /\ exists msg, e = ValueError msg.
Proof.
  intros H. split.
  - apply create_vpc_invalid_range, H.
  - eapply _validate_cidr_raises, H.
Qed.

Lemma create_vpc_rejected_range_untouched_witness :
  create_vpc Scenario.happy "us-east-2" "demo" "10.0.0.0/29" None
    Scenario.w_stored
  = (Raise (ValueError "Invalid CIDR prefix: 29"), Scenario.w_stored)
  /\ exists msg, ValueError "Invalid CIDR prefix: 29" = ValueError msg.
Proof.
  apply (create_vpc_rejected_range_untouched Scenario.happy "us-east-2" "demo"
           "10.0.0.0/29" None Scenario.w_stored).
  reflexivity.
Defined.

Lemma is_delete_event_ec2 ev :
  is_delete_event ev = true -> is_ec2_event ev = true.
Proof. destruct ev; [reflexivity|discriminate]. Qed.

(** X3. Whatever its outcome, [create_vpc] only adds requests to EC2 to
    the trace: it sends nothing to DynamoDB and leaves the metadata table
    as it found it. *)
Theorem create_vpc_leaves_metadata (E : environment)
    (self_region name cidr : string) (rid : option string) (w : world) :
  exists new,
    trace (snd (create_vpc E self_region name cidr rid w)) = trace w ++ new
    /\ forallb is_ec2_event new = true
    /\ ddb_requests new = []
    /\ table (snd (create_vpc E self_region name cidr rid w)) = table w.
Proof.
  assert (Hext : extends_by is_ec2_event w
                   (snd (create_vpc E self_region name cidr rid w))).
  { destruct (create_vpc E self_region name cidr rid w) as [r w'] eqn:H.
    simpl. unfold create_vpc, create_vpc_try in H.
    destruct (create_vpc_network E name cidr rid w) as [r0 w1] eqn:Hnet.
    assert (H1 : extends_by is_ec2_event w w1).
    { apply create_vpc_network_inv in Hnet
        as [(e & _ & _ & ->)|(_ & t1 & Ht1 & Hb1)].
      - apply extends_by_refl.
      - exists [Ec2 (CreateVpc cidr t1) r0]. auto. }
    assert (Hx : forall (local : option string) e wa (rb : result NetworkRecord)
                   wb,
               create_vpc_except E local e wa = (rb, wb) ->
               extends_by is_ec2_event wa wb).
    { intros local e wa rb wb Hx.
      apply create_vpc_except_run in Hx as [_ Hx].
      eapply extends_by_impl; [apply is_delete_event_ec2|exact Hx]. }
    destruct r0 as [vpc|e].
    - destruct (create_vpc_resources E self_region name cidr rid vpc w1)
        as [rr w2] eqn:Hres.
      pose proof (all_runs_create_vpc_resources E is_ec2_event self_region
                    name cidr rid vpc (fun _ _ => eq_refl) _ _ _ Hres) as H2.
      destruct rr as [d|e].
      + injection H as <- <-. eapply extends_by_trans; eassumption.
      + eapply extends_by_trans; [exact H1|].
        eapply extends_by_trans; [exact H2|]. eapply Hx, H.
    - eapply extends_by_trans; [exact H1|]. eapply Hx, H. }
  destruct Hext as (new & Ht & Hp & Hb).
  exists new. repeat split; try assumption.
  clear Ht. induction new as [|ev new IH]; [reflexivity|].
  simpl in Hp. apply andb_true_iff in Hp as [Hev Hp].
  destruct ev; [|discriminate]. apply IH, Hp.
Qed.

(** ** Teardown stops at the first failure *)

Lemma fail_stop_ret {A} P (a : A) : fail_stop P (ret a).
Proof.
  intros w r w' [= <- <-]. exists []. rewrite app_nil_r. auto.
Qed.

Lemma fail_stop_bind {A B} P (m : M A) (k : A -> M B) :
  fail_stop P m -> (forall a, fail_stop P (k a)) -> fail_stop P (bind m k).
Proof.
  intros Hm Hk w r w' H.
  apply bind_inv in H as [(e & H1 & ->)|(a & w1 & H1 & H2)].
  - apply Hm in H1. exact H1.
  - apply Hm in H1 as (n1 & Ht1 & Hb1 & Hp1 & Ho1).
    apply Hk in H2 as (n2 & Ht2 & Hb2 & Hp2 & Ho2).
    exists (n1 ++ n2). rewrite Ht2, Ht1, <- app_assoc, forallb_app, Hp1, Hp2.
    split; [reflexivity|]. split; [congruence|]. split; [reflexivity|].
    destruct r as [b|e].
    + rewrite forallb_app, Ho1, Ho2. reflexivity.
    + destruct Ho2 as (pre & c & -> & Hpre).
      exists (n1 ++ pre), c. rewrite <- app_assoc, forallb_app, Ho1, Hpre. auto.
Qed.

Lemma fail_stop_for_each {A} P (l : list A) (body : A -> M unit) :
  (forall x, fail_stop P (body x)) -> fail_stop P (for_each l body).
Proof.
  intros Hb. induction l as [|x l IH]; simpl.
  - apply fail_stop_ret.
  - apply fail_stop_bind; [apply Hb | intros _; exact IH].
Qed.

Lemma fail_stop_reraise {A} P (m : M A) :
  fail_stop P m -> fail_stop P (try_except m (fun e => raise e)).
Proof.
  intros Hm w r w' H. apply (Hm w r w').
  unfold try_except, raise in H.
  destruct (m w) as [[a|e] w1]; exact H.
Qed.

Section FailStop.

Context (E : environment).

Lemma fail_stop_ec2_request (P : event -> bool) c :
  (forall r, P (Ec2 c r) = true) -> fail_stop P (ec2_request E c).
Proof.
  intros HP w r w' [= <- <-].
  exists [Ec2 c (ec2 E (trace w) c)]. simpl. rewrite HP.
  split; [reflexivity|]. split; [reflexivity|]. split; [reflexivity|].
  destruct (ec2 E (trace w) c) as [a|e] eqn:Hr.
  - reflexivity.
  - exists [], c. auto.
Qed.

Lemma fail_stop_utcnow P : fail_stop P (utcnow E).
Proof.
  intros w r w' [= <- <-]. exists []. simpl. rewrite app_nil_r. auto.
Qed.

(** Straight-line code, loops and branches over requests. *)
Ltac solve_fail_stop :=
  repeat first
    [ apply fail_stop_bind; [|intros ?]
    | apply fail_stop_for_each; intros ?
    | match goal with
      | |- fail_stop ?P (ec2_request _ ?c) =>
          exact (fail_stop_ec2_request P c (fun _ => eq_refl))
      | |- fail_stop _ (if ?b then _ else _) => destruct b
      end
    | apply fail_stop_utcnow
    | apply fail_stop_ret ].

Lemma fail_stop_delete_vpc vpc : fail_stop is_delete_event (delete_vpc E vpc).
Proof. unfold delete_vpc. apply fail_stop_reraise. solve_fail_stop. Qed.

Lemma fail_stop_delete_subnets l :
  fail_stop not_delete_vpc
    (for_each l (fun subnet => ec2_request E (DeleteSubnet subnet))).
Proof. solve_fail_stop. Qed.

Lemma fail_stop_delete_route_tables l :
  fail_stop not_delete_vpc
    (for_each l (fun rt =>
       if negb (_is_main_route_table rt)
       then ec2_request E (DeleteRouteTable (rt_id rt))
       else ret tt)).
Proof. solve_fail_stop. Qed.

Lemma fail_stop_delete_gateways vpc l :
  fail_stop not_delete_vpc
    (for_each l (fun igw =>
       ec2_request E (DetachInternetGateway vpc igw) >>
       ec2_request E (DeleteInternetGateway igw))).
Proof. solve_fail_stop. Qed.

End FailStop.

(** X4. [delete_vpc] stops at the first request that fails.  When it
    raises [e], the last request it sent is the one the provider answered
    with [e], and every request before it succeeded; when it returns,
    every request succeeded.  It sends enumeration and deletion requests
    only and does not touch the metadata table. *)
Theorem delete_vpc_stops_at_first_failure (E : environment) (vpc : string)
    (w : world) :
  exists new,
    trace (snd (delete_vpc E vpc w)) = trace w ++ new
    /\ table (snd (delete_vpc E vpc w)) = table w
    /\ forallb is_delete_event new = true
    /\ match fst (delete_vpc E vpc w) with
       | Ok _ => forallb event_ok new = true
       | Raise e =>
           exists pre c,
             new = pre ++ [Ec2 c (Raise e)] /\ forallb event_ok pre = true
       end.
Proof.
  destruct (delete_vpc E vpc w) as [r w'] eqn:H. simpl.
  exact (fail_stop_delete_vpc E vpc w r w' H).
Qed.

(** X5. In every run of [delete_vpc] the network itself is requested for
    deletion at most once, as the last request, and only after every
    enumeration and every deletion of a subnet, route table or gateway
    before it succeeded. *)
Theorem delete_vpc_network_last (E : environment) (vpc : string) (w : world) :
  exists pre tail,
    new_events w (snd (delete_vpc E vpc w)) = pre ++ tail
    /\ forallb not_delete_vpc pre = true
    /\ (tail = [] \/
        exists outcome,
          tail = [Ec2 (DeleteVpc vpc) outcome]
          /\ forallb event_ok pre = true).
Proof.
  destruct (delete_vpc E vpc w) as [r w'] eqn:H. simpl.
  unfold delete_vpc, try_except in H.
  match type of H with
  | context [bind ?m ?k w] => destruct (bind m k w) as [r0 w0] eqn:Hb
  end.
  assert (w0 = w') as ->.
  { destruct r0; [congruence|]. unfold raise in H. congruence. }
  clear H.
  (* enumeration of the subnets *)
  apply bind_inv in Hb as [(e & H1 & _)|(subs & w1 & H1 & Hb)];
    apply (ec2_request_inv E (DescribeSubnets vpc)) in H1 as (Ht1 & _).
  { eexists [_], []. split; [apply new_events_app; exact Ht1|].
    split; [reflexivity|left; reflexivity]. }
  (* deletion of the subnets *)
  apply bind_inv in Hb as [(e & H2 & _)|(u2 & w2 & H2 & Hb)];
    apply fail_stop_delete_subnets in H2 as (n2 & Ht2 & _ & Hp2 & Ho2).
  { exists (Ec2 (DescribeSubnets vpc) (Ok subs) :: n2), []. split.
    - apply new_events_app. rewrite Ht2, Ht1, <- app_assoc, app_nil_r.
      reflexivity.
    - split; [exact Hp2|left; reflexivity]. }
  (* enumeration of the route tables *)
  apply bind_inv in Hb as [(e & H3 & _)|(rts & w3 & H3 & Hb)];
    apply (ec2_request_inv E (DescribeRouteTables vpc)) in H3 as (Ht3 & _).
  { eexists (Ec2 (DescribeSubnets vpc) (Ok subs) :: n2 ++ [_]), []. split.
    - apply new_events_app. rewrite Ht3, Ht2, Ht1, <- !app_assoc, app_nil_r.
      reflexivity.
    - split; [|left; reflexivity].
      simpl. rewrite forallb_app, Hp2. reflexivity. }
  (* deletion of the route tables *)
  apply bind_inv in Hb as [(e & H4 & _)|(u4 & w4 & H4 & Hb)];
    apply fail_stop_delete_route_tables in H4 as (n4 & Ht4 & _ & Hp4 & Ho4).
  { exists (Ec2 (DescribeSubnets vpc) (Ok subs) :: n2
            ++ Ec2 (DescribeRouteTables vpc) (Ok rts) :: n4), []. split.
    - apply new_events_app.
      rewrite Ht4, Ht3, Ht2, Ht1, <- !app_assoc, app_nil_r. reflexivity.
    - split; [|left; reflexivity].
      simpl. rewrite forallb_app, Hp2. simpl. exact Hp4. }
  (* enumeration of the gateways *)
  apply bind_inv in Hb as [(e & H5 & _)|(igws & w5 & H5 & Hb)];
    apply (ec2_request_inv E (DescribeInternetGateways vpc)) in H5
      as (Ht5 & _).
  { eexists (Ec2 (DescribeSubnets vpc) (Ok subs) :: n2
             ++ Ec2 (DescribeRouteTables vpc) (Ok rts) :: n4 ++ [_]), [].
    split.
    - apply new_events_app.
      rewrite Ht5, Ht4, Ht3, Ht2, Ht1, <- !app_assoc, app_nil_r. reflexivity.
    - split; [|left; reflexivity].
      simpl. rewrite forallb_app, Hp2. simpl. rewrite forallb_app, Hp4.
      reflexivity. }
  (* deletion of the gateways *)
  apply bind_inv in Hb as [(e & H6 & _)|(u6 & w6 & H6 & Hb)];
    apply fail_stop_delete_gateways in H6 as (n6 & Ht6 & _ & Hp6 & Ho6).
  { exists (Ec2 (DescribeSubnets vpc) (Ok subs) :: n2
            ++ Ec2 (DescribeRouteTables vpc) (Ok rts) :: n4
            ++ Ec2 (DescribeInternetGateways vpc) (Ok igws) :: n6), [].
    split.
    - apply new_events_app.
      rewrite Ht6, Ht5, Ht4, Ht3, Ht2, Ht1, <- !app_assoc, app_nil_r.
      reflexivity.
    - split; [|left; reflexivity].
      simpl. rewrite forallb_app, Hp2. simpl. rewrite forallb_app, Hp4.
      simpl. exact Hp6. }
  (* deletion of the network: everything before it succeeded *)
  assert (Hlast : exists outcome,
            trace w' = trace w6 ++ [Ec2 (DeleteVpc vpc) outcome]).
  { apply bind_inv in Hb as [(e & H7 & _)|(u7 & w7 & H7 & Hb)];
      apply (ec2_request_inv E (DeleteVpc vpc)) in H7 as (Ht7 & _).
    - eexists. exact Ht7.
    - apply bind_inv in Hb as [(e8 & H8 & _)|(now & w8 & H8 & Hb)];
        apply utcnow_inv in H8 as (Hr8 & Ht8 & _); [discriminate|].
      apply ret_inv in Hb as [_ ->]. eexists. rewrite Ht8. exact Ht7. }
  destruct Hlast as [outcome Ht7].
  exists (Ec2 (DescribeSubnets vpc) (Ok subs) :: n2
          ++ Ec2 (DescribeRouteTables vpc) (Ok rts) :: n4
          ++ Ec2 (DescribeInternetGateways vpc) (Ok igws) :: n6),
    [Ec2 (DeleteVpc vpc) outcome].
  split.
  - apply new_events_app.
    rewrite Ht7, Ht6, Ht5, Ht4, Ht3, Ht2, Ht1.
    repeat (progress (simpl; rewrite <- ?app_assoc)). reflexivity.
  - split.
    + simpl. rewrite forallb_app, Hp2. simpl. rewrite forallb_app, Hp4.
      simpl. exact Hp6.
    + right. exists outcome. split; [reflexivity|].
      simpl. rewrite forallb_app, Ho2. simpl. rewrite forallb_app, Ho4.
      simpl. exact Ho6.
Qed.

Lemma flat_map_flat_map {A B C} (f : B -> list C) (g : A -> list B) l :
  flat_map f (flat_map g l) = flat_map (fun x => flat_map f (g x)) l.
Proof.
  induction l as [|x l IH]; simpl; [reflexivity|].
  rewrite flat_map_app, IH. reflexivity.
Qed.

(** X6. A teardown that returns has sent, in this order: the enumeration
    of the subnets and the deletion of each; the enumeration of the route
    tables and the deletion of each one that is not main; the enumeration
    of the gateways and, for each, its detachment followed by its
    deletion; the deletion of the network.  The record it returns has
    status ["deleted"] and the clock reading taken after the last request,
    in ISO format followed by ["Z"]. *)
Theorem delete_vpc_success (E : environment) (vpc : string) (w w' : world)
    (d : DeletionRecord) :
  delete_vpc E vpc w = (Ok d, w') ->
  exists vpc_subnets vpc_route_tables igws,
    In (Ec2 (DescribeSubnets vpc) (Ok vpc_subnets)) (new_events w w')
    /\ In (Ec2 (DescribeRouteTables vpc) (Ok vpc_route_tables))
         (new_events w w')
    /\ In (Ec2 (DescribeInternetGateways vpc) (Ok igws)) (new_events w w')
    /\ ec2_calls (new_events w w')
       = DescribeSubnets vpc
         :: map DeleteSubnet vpc_subnets
         ++ DescribeRouteTables vpc
         :: map (fun rt => DeleteRouteTable (rt_id rt))
              (List.filter (fun rt => negb (_is_main_route_table rt))
                 vpc_route_tables)
         ++ DescribeInternetGateways vpc
         :: flat_map (fun igw =>
              [DetachInternetGateway vpc igw; DeleteInternetGateway igw]) igws
         ++ [DeleteVpc vpc]
    /\ d = {| del_vpc_id := vpc;
              del_status := "deleted";
              deleted_at :=
                Some (PyDatetime.isoformat (clock E (clock_reads w)) +:+ "Z");
              note := None |}.
Proof.
  intros H.
  apply delete_vpc_Ok_inv in H as (subs & rts & igws & -> & ->).
  exists subs, rts, igws.
  split; [left; reflexivity|].
  split; [right; apply in_or_app; right; left; reflexivity|].
  split.
  { right. apply in_or_app. right. right. apply in_or_app. right.
    left. reflexivity. }
  split; [|reflexivity].
  unfold ec2_calls. simpl.
  rewrite flat_map_app. simpl. rewrite flat_map_app. simpl.
  rewrite flat_map_app. simpl.
  rewrite (flat_map_map_single _ _ DeleteSubnet) by reflexivity.
  rewrite (flat_map_map_single _ _ (fun rt => DeleteRouteTable (rt_id rt)))
    by reflexivity.
  rewrite flat_map_flat_map. reflexivity.
Qed.

Lemma delete_vpc_success_witness :
  ec2_calls
    (new_events Scenario.w_empty
       (snd (delete_vpc Scenario.happy "vpc-0a1b2c3d" Scenario.w_empty)))
  = [ DescribeSubnets "vpc-0a1b2c3d";
      DeleteSubnet "subnet-10.0.1.0/24"; DeleteSubnet "subnet-10.0.2.0/24";
      DescribeRouteTables "vpc-0a1b2c3d";
      DeleteRouteTable "rtb-public"; DeleteRouteTable "rtb-bare";
      DescribeInternetGateways "vpc-0a1b2c3d";
      DetachInternetGateway "vpc-0a1b2c3d" "igw-01";
      DeleteInternetGateway "igw-01";
      DeleteVpc "vpc-0a1b2c3d" ]
  /\ fst (delete_vpc Scenario.happy "vpc-0a1b2c3d" Scenario.w_empty)
     = Ok {| del_vpc_id := "vpc-0a1b2c3d";
             del_status := "deleted";
             deleted_at := Some "2024-01-15T10:30:00Z";
             note := None |}.
Proof.
  edestruct (delete_vpc_success Scenario.happy "vpc-0a1b2c3d" Scenario.w_empty)
    as (subs & rts & igws & _ & _ & _ & Hc & Hd); [vm_compute; reflexivity|].
  split; vm_compute; reflexivity.
Defined.

(** ** Where the derived subnet ranges lie *)

(** [str(i)] of an octet reads back as [i] and holds no separator. *)
Lemma of_int_octet i :
  0 <= i <= 255 ->
  parse_octet (PyStr.of_int i) = Some i
  /\ PyStr.contains "." (PyStr.of_int i) = false
  /\ PyStr.contains "/" (PyStr.of_int i) = false.
Proof.
  intros Hi.
  assert (Hall : forallb (fun n =>
            let s := PyStr.of_int (Z.of_nat n) in
            match parse_octet s with
            | Some m => Z.eqb m (Z.of_nat n)
            | None => false
            end && negb (PyStr.contains "." s) && negb (PyStr.contains "/" s))
            (seq 0 256) = true) by (vm_compute; reflexivity).
  rewrite forallb_forall in Hall.
  specialize (Hall (Z.to_nat i)).
  rewrite Z2Nat.id in Hall by lia.
  assert (Hin : In (Z.to_nat i) (seq 0 256)) by (apply in_seq; lia).
  apply Hall in Hin.
  apply andb_true_iff in Hin as [Hin H3].
  apply andb_true_iff in Hin as [H1 H2].
  destruct (parse_octet (PyStr.of_int i)) as [m|]; [|discriminate].
  apply Z.eqb_eq in H1 as ->.
  apply negb_true_iff in H2, H3. auto.
Qed.

(** The subnet range derived from a range that reads as [p], at an index
    that is an octet. *)
Lemma derived_range parent p i :
  parse_range parent = Some p -> 0 <= i <= 255 ->
  exists s,
    _calculate_subnet_cidr parent i = Ok s
    /\ parse_range s
       = Some {| octet1 := octet1 p; octet2 := octet2 p; octet3 := i;
                 octet4 := octet4 p; prefix_length := 24 |}.
Proof.
  intros Hp Hi.
  destruct (parse_range_inv _ _ Hp)
    as (ip & pfx & a & b & c & d & Hs & Hd & Ha & Hb & Hc & Hdd & _).
  destruct (of_int_octet i Hi) as (Hi1 & Hi2 & Hi3).
  assert (Hip : PyStr.contains "/" ip = false).
  { apply (split_pieces_no_sep "/" parent). rewrite Hs. left. reflexivity. }
  eexists. split.
  - unfold _calculate_subnet_cidr. rewrite Hs. simpl. rewrite Hd. reflexivity.
  - apply (parse_derived ip a b c d (PyStr.of_int i)); assumption.
Qed.

(** X7. For a top-level range with prefix 16 the subnet derived at any
    index from 0 to 255 is a /24 range that lies inside the top-level
    range: every address of the subnet is an address of the network. *)
Theorem subnet_inside_slash16 (parent : string) (p : ipv4_range) (i : Z) :
  parse_range parent = Some p -> prefix_length p = 16 -> 0 <= i <= 255 ->
  exists s r,
    _calculate_subnet_cidr parent i = Ok s
    /\ parse_range s = Some r
    /\ prefix_length r = 24 /\ octet3 r = i
    /\ forall addr, in_range addr r -> in_range addr p.
Proof.
  intros Hp H16 Hi.
  destruct (derived_range parent p i Hp Hi) as (s & Hs & Hr).
  eexists s, _. split; [exact Hs|]. split; [exact Hr|].
  split; [reflexivity|]. split; [reflexivity|].
  destruct (parse_range_inv _ _ Hp)
    as (_ & _ & _ & _ & c & d & _ & _ & _ & _ & Hc & Hd & _).
  apply parse_octet_bounds in Hc, Hd.
  intros addr [Hb Ha]. split; [exact Hb|].
  unfold base_address in *. simpl in Ha. rewrite H16.
  rewrite !Z.shiftr_div_pow2 in * by lia.
  change (2 ^ (32 - 24)) with 256 in Ha.
  change (2 ^ (32 - 16)) with (256 * 256).
  rewrite <- !Z.div_div by lia.
  rewrite Ha.
  rewrite <- (Z.div_unique
                (((octet1 p * 256 + octet2 p) * 256 + i) * 256 + octet4 p) 256
                ((octet1 p * 256 + octet2 p) * 256 + i) (octet4 p)) by lia.
  rewrite <- (Z.div_unique
                (((octet1 p * 256 + octet2 p) * 256 + octet3 p) * 256
                 + octet4 p) 256
                ((octet1 p * 256 + octet2 p) * 256 + octet3 p) (octet4 p))
    by lia.
  rewrite <- (Z.div_unique ((octet1 p * 256 + octet2 p) * 256 + i) 256
                (octet1 p * 256 + octet2 p) i) by lia.
  rewrite <- (Z.div_unique ((octet1 p * 256 + octet2 p) * 256 + octet3 p) 256
                (octet1 p * 256 + octet2 p) (octet3 p)) by lia.
  reflexivity.
Qed.

Lemma subnet_inside_slash16_witness :
  exists s r,
    _calculate_subnet_cidr "172.16.9.9/16" 200 = Ok s
    /\ parse_range s = Some r
    /\ prefix_length r = 24 /\ octet3 r = 200
    /\ forall addr,
         in_range addr r ->
         in_range addr {| octet1 := 172; octet2 := 16; octet3 := 9;
                          octet4 := 9; prefix_length := 16 |}.
Proof.
  apply (subnet_inside_slash16 "172.16.9.9/16"
           {| octet1 := 172; octet2 := 16; octet3 := 9; octet4 := 9;
              prefix_length := 16 |} 200).
  - reflexivity.
  - reflexivity.
  - lia.
Defined.

(** X8. Two different indices from 0 to 255 always give two subnet
    ranges without a common address, for every top-level range that reads
    as four octets and a prefix. *)
Theorem subnets_disjoint (parent : string) (p : ipv4_range) (i j : Z) :
  parse_range parent = Some p -> 0 <= i <= 255 -> 0 <= j <= 255 -> i <> j ->
  exists si sj ri rj,
    _calculate_subnet_cidr parent i = Ok si
    /\ _calculate_subnet_cidr parent j = Ok sj
    /\ parse_range si = Some ri /\ parse_range sj = Some rj
    /\ si <> sj /\ ~ ranges_overlap ri rj.
Proof.
  intros Hp Hi Hj Hij.
  destruct (derived_range parent p i Hp Hi) as (si & Hsi & Hri).
  destruct (derived_range parent p j Hp Hj) as (sj & Hsj & Hrj).
  destruct (parse_range_inv _ _ Hp)
    as (_ & _ & _ & _ & _ & d & _ & _ & _ & _ & _ & Hd & _).
  apply parse_octet_bounds in Hd.
  eexists si, sj, _, _.
  split; [exact Hsi|]. split; [exact Hsj|].
  split; [exact Hri|]. split; [exact Hrj|]. split.
  - intros ->. rewrite Hri in Hrj. injection Hrj as Heq. contradiction.
  - apply slash24_disjoint; assumption.
Qed.

Lemma subnets_disjoint_witness :
  exists si sj ri rj,
    _calculate_subnet_cidr "10.0.0.0/16" 0 = Ok si
    /\ _calculate_subnet_cidr "10.0.0.0/16" 255 = Ok sj
    /\ parse_range si = Some ri /\ parse_range sj = Some rj
    /\ si <> sj /\ ~ ranges_overlap ri rj.
Proof.
  apply (subnets_disjoint "10.0.0.0/16"
           {| octet1 := 10; octet2 := 0; octet3 := 0; octet4 := 0;
              prefix_length := 16 |} 0 255).
  - reflexivity.
  - lia.
  - lia.
  - discriminate.
Defined.

(** X9. For a top-level range with a prefix from 25 to 28, which
    [_validate_cidr] accepts, the /24 subnet derived at any index is not
    inside the top-level range: it has an address that the network does
    not have. *)
Theorem subnet_outside_small_network (parent : string) (p : ipv4_range)
    (i : Z) :
  parse_range parent = Some p -> 25 <= prefix_length p <= 28 ->
  0 <= i <= 255 ->
  exists s r addr,
    _calculate_subnet_cidr parent i = Ok s
    /\ parse_range s = Some r
    /\ in_range addr r /\ ~ in_range addr p.
Proof.
  intros Hp Hpl Hi.
  destruct (derived_range parent p i Hp Hi) as (s & Hs & Hr).
  destruct (parse_range_inv _ _ Hp)
    as (_ & _ & a & b & c & d & _ & _ & Ha & Hb & Hc & Hd & _).
  apply parse_octet_bounds in Ha, Hb, Hc, Hd.
  set (X := (octet1 p * 256 + octet2 p) * 256 + i).
  set (r := {| octet1 := octet1 p; octet2 := octet2 p; octet3 := i;
               octet4 := octet4 p; prefix_length := 24 |}) in *.
  assert (Hin : forall k, 0 <= k <= 255 -> in_range (X * 256 + k) r).
  { intros k Hk. split; [unfold X; lia|].
    unfold base_address. simpl.
    rewrite !Z.shiftr_div_pow2 by lia.
    change (2 ^ (32 - 24)) with 256. fold X.
    rewrite <- (Z.div_unique (X * 256 + k) 256 X k) by lia.
    rewrite <- (Z.div_unique (X * 256 + octet4 p) 256 X (octet4 p)) by lia.
    reflexivity. }
  assert (Hout : ~ (in_range (X * 256) p /\ in_range (X * 256 + 255) p)).
  { intros [[_ H0] [_ H255]]. rewrite <- H0 in H255. clear H0.
    rewrite !Z.shiftr_div_pow2 in H255 by lia.
    assert (Hcases : prefix_length p = 25 \/ prefix_length p = 26
                     \/ prefix_length p = 27 \/ prefix_length p = 28) by lia.
    destruct Hcases as [Hc1|[Hc1|[Hc1|Hc1]]]; rewrite Hc1 in H255;
      simpl in H255; Z.div_mod_to_equations; lia. }
  destruct (Z.eq_dec (Z.shiftr (X * 256) (32 - prefix_length p))
              (Z.shiftr (base_address p) (32 - prefix_length p))) as [He|Hne].
  - exists s, r, (X * 256 + 255).
    split; [exact Hs|]. split; [exact Hr|].
    split; [apply Hin; lia|].
    intros H255. apply Hout. split; [|exact H255].
    split; [unfold X; lia|exact He].
  - exists s, r, (X * 256).
    split; [exact Hs|]. split; [exact Hr|].
    split; [replace (X * 256) with (X * 256 + 0) by lia; apply Hin; lia|].
    intros [_ H0]. contradiction.
Qed.

Lemma subnet_outside_small_network_witness :
  _validate_cidr "10.0.0.0/28" = Ok tt
  /\ exists s r addr,
       _calculate_subnet_cidr "10.0.0.0/28" 1 = Ok s
       /\ parse_range s = Some r
       /\ in_range addr r
       /\ ~ in_range addr {| octet1 := 10; octet2 := 0; octet3 := 0;
                             octet4 := 0; prefix_length := 28 |}.
Proof.
  split; [reflexivity|].
  apply (subnet_outside_small_network "10.0.0.0/28"
           {| octet1 := 10; octet2 := 0; octet3 := 0; octet4 := 0;
              prefix_length := 28 |} 1).
  - reflexivity.
  - simpl. lia.
  - lia.
Defined.

(** X10. A range that passed [_validate_cidr] always has a derived subnet
    range: [_calculate_subnet_cidr] cannot raise [IndexError] on it, and
    returns the four address parts with the third one replaced by the
    index, followed by [/24], whatever the parts and the index are. *)
Theorem validated_range_subnet (cidr : string) (index : Z) :
  _validate_cidr cidr = Ok tt ->
  exists ip prefix a b c d,
    PyStr.split "/" cidr = [ip; prefix]
    /\ PyStr.split "." ip = [a; b; c; d]
    /\ _calculate_subnet_cidr cidr index
       = Ok (PyStr.join "." [a; b; PyStr.of_int index; d] +:+ "/24").
Proof.
  intros H.
  apply _validate_cidr_Ok_inv in H as (ip & prefix & n & Hs & Hl & _).
  destruct (PyStr.split "." ip) as [|a [|b [|c [|d [|? ?]]]]] eqn:Hd;
    try discriminate.
  exists ip, prefix, a, b, c, d.
  split; [exact Hs|]. split; [exact Hd|].
  unfold _calculate_subnet_cidr. rewrite Hs. simpl. rewrite Hd. reflexivity.
Qed.

Lemma validated_range_subnet_witness :
  exists ip prefix a b c d,
    PyStr.split "/" "172.16.x.9/20" = [ip; prefix]
    /\ PyStr.split "." ip = [a; b; c; d]
    /\ _calculate_subnet_cidr "172.16.x.9/20" (-3)
       = Ok (PyStr.join "." [a; b; PyStr.of_int (-3); d] +:+ "/24").
Proof.
  apply (validated_range_subnet "172.16.x.9/20" (-3)). reflexivity.
Defined.

(** ** The metadata store: lookups, deletions and status updates *)

(** X11. With DynamoDB answering, [VPCMetadataStore.delete_vpc] on a
    stored id looks the item up, deletes it and returns [True]; only that
    key leaves the table, and a lookup afterwards finds nothing. *)
Theorem store_delete_vpc_removes (E : environment) (vpc_id : string)
    (it : item) (w : world) :
  (forall h c, ddb_fault E h c = None) ->
  table w !! vpc_id = Some it -> it <> ∅ ->
  fst (store_delete_vpc E vpc_id w) = Ok true
  /\ table (snd (store_delete_vpc E vpc_id w)) = delete vpc_id (table w)
  /\ (forall k, k <> vpc_id ->
        table (snd (store_delete_vpc E vpc_id w)) !! k = table w !! k)
  /\ ddb_requests (new_events w (snd (store_delete_vpc E vpc_id w)))
     = [GetItem vpc_id; DeleteItem vpc_id]
  /\ fst (get_vpc E vpc_id (snd (store_delete_vpc E vpc_id w))) = Ok None.
Proof.
  intros Hf Hl Hne.
  rewrite (store_delete_vpc_run E vpc_id it w Hf Hl Hne). simpl.
  split; [reflexivity|]. split; [reflexivity|]. split.
  { intros k Hk. apply lookup_delete_ne. congruence. }
  split.
  { unfold new_events. simpl. rewrite drop_app_length. reflexivity. }
  rewrite get_vpc_run by apply Hf. simpl.
  rewrite lookup_delete_eq. reflexivity.
Qed.

Lemma store_delete_vpc_removes_witness :
  fst (store_delete_vpc Scenario.happy "vpc-0a1b2c3d" Scenario.w_stored)
  = Ok true
  /\ table (snd (store_delete_vpc Scenario.happy "vpc-0a1b2c3d"
                   Scenario.w_stored)) !! "vpc-0a1b2c3d" = None.
Proof.
  destruct (store_delete_vpc_removes Scenario.happy "vpc-0a1b2c3d"
              Scenario.stored_item Scenario.w_stored)
    as (Hr & Ht & _).
  - intros h c. reflexivity.
  - reflexivity.
  - apply insert_non_empty.
  - split; [exact Hr|]. rewrite Ht. apply lookup_delete_eq.
Defined.

(** X12. On an id that is not stored, [VPCMetadataStore.delete_vpc]
    returns [False] after the lookup: no deletion is requested and the
    table is unchanged.  Deleting the same id twice therefore returns
    [True], then [False]. *)
Theorem store_delete_vpc_absent (E : environment) (vpc_id : string)
    (w : world) :
  ddb_fault E (trace w) (GetItem vpc_id) = None ->
  table w !! vpc_id = None ->
  fst (store_delete_vpc E vpc_id w) = Ok false
  /\ table (snd (store_delete_vpc E vpc_id w)) = table w
  /\ ddb_requests (new_events w (snd (store_delete_vpc E vpc_id w)))
     = [GetItem vpc_id].
Proof.
  intros Hf Hl.
  unfold store_delete_vpc, try_except, bind.
  rewrite get_vpc_run by exact Hf. rewrite Hl. simpl.
  split; [reflexivity|]. split; [reflexivity|].
  unfold new_events. simpl. rewrite drop_app_length. reflexivity.
Qed.

Lemma store_delete_vpc_absent_witness :
  fst (store_delete_vpc Scenario.happy "vpc-0a1b2c3d"
         (snd (store_delete_vpc Scenario.happy "vpc-0a1b2c3d"
                 Scenario.w_stored))) = Ok false
  /\ fst (store_delete_vpc Scenario.happy "vpc-0a1b2c3d" Scenario.w_stored)
     = Ok true.
Proof.
  split; [|vm_compute; reflexivity].
  apply (store_delete_vpc_absent Scenario.happy "vpc-0a1b2c3d"
           (snd (store_delete_vpc Scenario.happy "vpc-0a1b2c3d"
                   Scenario.w_stored))).
  - reflexivity.
  - vm_compute. reflexivity.
Defined.

(** X13. With DynamoDB answering, a lookup after [update_vpc_status]
    finds an item whose status is the one just written, and of two
    updates in a row the second one decides: the table is the one a
    single update with the second status gives. *)
Theorem update_vpc_status_then_get (E : environment) (vpc_id s1 s2 : string)
    (w : world) :
  (forall h c, ddb_fault E h c = None) ->
  (exists it,
     fst (get_vpc E vpc_id (snd (update_vpc_status E vpc_id s1 w)))
     = Ok (Some it)
     /\ it !! "status" = Some (AttrS s1))
  /\ table (snd (update_vpc_status E vpc_id s2
                   (snd (update_vpc_status E vpc_id s1 w))))
     = table (snd (update_vpc_status E vpc_id s2 w)).
Proof.
  intros Hf. split.
  - rewrite update_vpc_status_run by apply Hf. simpl.
    rewrite get_vpc_run by apply Hf. simpl.
    rewrite lookup_insert_eq. eexists. split; [reflexivity|].
    apply lookup_insert_eq.
  - rewrite (update_vpc_status_run E vpc_id s1 w) by apply Hf. simpl.
    rewrite !update_vpc_status_run by apply Hf. simpl.
    rewrite lookup_insert_eq. simpl.
    rewrite insert_insert_eq. f_equal.
    destruct (table w !! vpc_id) as [it|]; simpl;
      apply insert_insert_eq.
Qed.

Lemma update_vpc_status_then_get_witness :
  (exists it,
     fst (get_vpc Scenario.happy "vpc-0a1b2c3d"
            (snd (update_vpc_status Scenario.happy "vpc-0a1b2c3d" "deleting"
                    Scenario.w_stored)))
     = Ok (Some it)
     /\ it !! "status" = Some (AttrS "deleting"))
  /\ table (snd (update_vpc_status Scenario.happy "vpc-0a1b2c3d" "available"
                   (snd (update_vpc_status Scenario.happy "vpc-0a1b2c3d"
                           "deleting" Scenario.w_stored))))
     = table (snd (update_vpc_status Scenario.happy "vpc-0a1b2c3d"
                     "available" Scenario.w_stored)).
Proof.
  apply (update_vpc_status_then_get Scenario.happy "vpc-0a1b2c3d" "deleting"
           "available" Scenario.w_stored).
  intros h c. reflexivity.
Defined.

(** X14. The store changes the table only when it reports success: a
    lookup never changes it, and a deletion or a status update that does
    not return [True] (it raised, or returned [False]) leaves it as it
    was.  An exception raised by a deletion is an error of the service. *)
Theorem store_failure_leaves_table (E : environment) (vpc_id st : string)
    (w : world) :
  table (snd (get_vpc E vpc_id w)) = table w
  /\ (fst (store_delete_vpc E vpc_id w) <> Ok true ->
      table (snd (store_delete_vpc E vpc_id w)) = table w)
  /\ (fst (update_vpc_status E vpc_id st w) <> Ok true ->
      table (snd (update_vpc_status E vpc_id st w)) = table w)
  /\ (forall e,
        fst (store_delete_vpc E vpc_id w) = Raise e ->
        exists h c, ddb_fault E h c = Some e).
Proof.
  split; [|split; [|split]].
  - unfold get_vpc, try_except, table_get_item, ddb_request.
    destruct (ddb_fault E (trace w) (GetItem vpc_id)); reflexivity.
  - unfold store_delete_vpc, try_except, bind, get_vpc, try_except,
      table_get_item, table_delete_item, ddb_request.
    destruct (ddb_fault E (trace w) (GetItem vpc_id)) as [e|]; simpl;
      [reflexivity|].
    destruct (item_truthy (table w !! vpc_id)); simpl; [|reflexivity].
    destruct (ddb_fault E (trace w ++ [Ddb (GetItem vpc_id) None])
                (DeleteItem vpc_id)) as [e|]; simpl; [reflexivity|].
    intros H. contradiction H. reflexivity.
  - unfold update_vpc_status, try_except, bind, table_update_item,
      ddb_request.
    destruct (ddb_fault E (trace w) (UpdateItem vpc_id "status" (AttrS st)))
      as [e|]; simpl.
    + destruct e as [code msg| | | ]; try reflexivity.
      destruct (String.eqb code "ConditionalCheckFailedException");
        reflexivity.
    + intros H. contradiction H. reflexivity.
  - intros e.
    unfold store_delete_vpc, try_except, bind, get_vpc, try_except,
      table_get_item, table_delete_item, ddb_request.
    destruct (ddb_fault E (trace w) (GetItem vpc_id)) as [e0|] eqn:H0; simpl.
    { intros [= <-]. eauto. }
    destruct (item_truthy (table w !! vpc_id)); simpl; [|discriminate].
    destruct (ddb_fault E (trace w ++ [Ddb (GetItem vpc_id) None])
                (DeleteItem vpc_id)) as [e1|] eqn:H1; simpl.
    { intros [= <-]. eauto. }
    discriminate.
Qed.

Lemma store_failure_leaves_table_witness :
  fst (store_delete_vpc Faults.ddb_down "vpc-0a1b2c3d" Scenario.w_stored)
  = Raise Faults.throttled
  /\ table (snd (store_delete_vpc Faults.ddb_down "vpc-0a1b2c3d"
                   Scenario.w_stored)) = table Scenario.w_stored
  /\ table (snd (update_vpc_status Faults.ddb_down "vpc-0a1b2c3d" "deleting"
                   Scenario.w_stored)) = table Scenario.w_stored.
Proof.
  destruct (store_failure_leaves_table Faults.ddb_down "vpc-0a1b2c3d"
              "deleting" Scenario.w_stored) as (_ & Hd & Hu & _).
  split; [reflexivity|]. split.
  - apply Hd. discriminate.
  - apply Hu. discriminate.
Defined.

(** ** The delete handler: every path *)

(** X15. The delete handler never lets an exception out: for every
    event, environment and world it returns a response, and the status
    of that response is 200, 400, 404 or 500. *)
Theorem handler_always_responds (E : environment) (event : lambda_event)
    (w : world) :
  exists resp,
    fst (handler E event w) = Ok resp
    /\ (statusCode resp = 200 \/ statusCode resp = 400
        \/ statusCode resp = 404 \/ statusCode resp = 500).
Proof.
  unfold handler, try_except.
  destruct (handler_body E event w) as [[resp|e] w1] eqn:Hb.
  - exists resp. split; [reflexivity|].
    unfold handler_body in Hb.
    destruct (negb (truthy (default ∅ (pathParameters event) !! "vpc_id"))).
    { apply ret_inv in Hb as [[= ->] _]. auto. }
    destruct (validate_vpc_id
                (default EmptyString
                   (default ∅ (pathParameters event) !! "vpc_id")))
      as [valid msg].
    destruct (negb valid).
    { apply ret_inv in Hb as [[= ->] _]. auto. }
    inv_bind Hb as vpc_data w2 H2.
    destruct (negb (item_truthy vpc_data)).
    { apply ret_inv in Hb as [[= ->] _]. auto. }
    inv_bind Hb as updated w3 H3.
    inv_bind Hb as deletion_result w4 H4.
    inv_bind Hb as removed w5 H5.
    apply ret_inv in Hb as [[= ->] _]. auto.
  - destruct e as [code msg| | | ];
      try (eexists; split; [reflexivity|]; simpl; auto).
    destruct (String.eqb code "DependencyViolation");
      eexists; (split; [reflexivity|]); simpl; auto.
Qed.

(** X16. A request whose id is missing, empty or not of the form the
    validator accepts is answered 400 with the validator's message, and
    nothing else happens: no request to DynamoDB or EC2, the world is as
    before. *)
Theorem handler_rejects_bad_id (E : environment) (event : lambda_event)
    (w : world) (vpc_id : string) :
  default EmptyString (default ∅ (pathParameters event) !! "vpc_id") = vpc_id ->
  fst (validate_vpc_id vpc_id) = false ->
  handler E event w
  = (Ok (validation_error_response
           (default EmptyString (snd (validate_vpc_id vpc_id))) None), w).
Proof.
  intros Hid Hv. unfold handler, try_except, handler_body. rewrite Hid.
  destruct (default ∅ (pathParameters event) !! "vpc_id") as [[|c s]|];
    simpl in Hid; subst vpc_id; try reflexivity.
  simpl truthy. simpl negb.
  destruct (validate_vpc_id (String c s)) as [valid msg].
  simpl in Hv. subst valid. reflexivity.
Qed.

Lemma handler_rejects_bad_id_witness :
  handler Scenario.happy
    {| pathParameters := Some {[ "vpc_id" := "vpc-ABCDEF12" ]} |}
    Scenario.w_stored
  = (Ok (validation_error_response
           "Invalid VPC ID format (expected: vpc-xxxxxxxx)" None),
     Scenario.w_stored)
  /\ handler Scenario.happy {| pathParameters := None |} Scenario.w_stored
     = (Ok (validation_error_response "VPC ID is required" None),
        Scenario.w_stored).
Proof.
  split.
  - apply (handler_rejects_bad_id Scenario.happy
             {| pathParameters := Some {[ "vpc_id" := "vpc-ABCDEF12" ]} |}
             Scenario.w_stored "vpc-ABCDEF12"); reflexivity.
  - apply (handler_rejects_bad_id Scenario.happy {| pathParameters := None |}
             Scenario.w_stored EmptyString); reflexivity.
Defined.

(** X17. For a valid id without a metadata record the handler answers
    404 after one lookup: nothing is sent to EC2, the status is not
    touched and the table is unchanged, whether or not the network exists
    at the provider. *)
Theorem handler_unknown_network (E : environment) (event : lambda_event)
    (w : world) (vpc_id : string) :
  default ∅ (pathParameters event) !! "vpc_id" = Some vpc_id ->
  fst (validate_vpc_id vpc_id) = true ->
  ddb_fault E (trace w) (GetItem vpc_id) = None ->
  table w !! vpc_id = None ->
  handler E event w
  = (Ok (not_found_response "VPC" vpc_id),
     World (trace w ++ [Ddb (GetItem vpc_id) None]) (table w) (clock_reads w)).
Proof.
  intros Hp Hv Hf Hl. unfold handler, try_except, handler_body.
  rewrite Hp, (validate_vpc_id_nonempty _ Hv). simpl.
  destruct (validate_vpc_id vpc_id) as [valid msg]. simpl in Hv. subst valid.
  simpl. unfold bind at 1.
  rewrite get_vpc_run by exact Hf. rewrite Hl. reflexivity.
Qed.

Lemma handler_unknown_network_witness :
  handler Scenario.happy Scenario.delete_event Faults.w_other
  = (Ok (not_found_response "VPC" "vpc-0a1b2c3d"),
     World [Ddb (GetItem "vpc-0a1b2c3d") None] (table Faults.w_other) 0).
Proof.
  apply (handler_unknown_network Scenario.happy Scenario.delete_event
           Faults.w_other "vpc-0a1b2c3d"); reflexivity.
Defined.

(** The handler gets as far as the cloud deletion when the lookup and the
    status update go through. *)
Lemma handler_body_marks event E vpc_id it w :
  default ∅ (pathParameters event) !! "vpc_id" = Some vpc_id ->
  fst (validate_vpc_id vpc_id) = true ->
  table w !! vpc_id = Some it -> it <> ∅ ->
  ddb_fault E (trace w) (GetItem vpc_id) = None ->
  ddb_fault E (trace w ++ [Ddb (GetItem vpc_id) None])
    (UpdateItem vpc_id "status" (AttrS "deleting")) = None ->
  handler_body E event w
  = (let* deletion_result := delete_from_aws E vpc_id in
     store_delete_vpc E vpc_id >>
     ret (success_response deletion_result 200
            (Some ("VPC '" +:+ vpc_id
                   +:+ "' and all associated resources deleted successfully"))))
      (after_marking vpc_id it w).
Proof.
  intros Hp Hv Hl Hne Hf1 Hf2. unfold handler_body.
  rewrite Hp, (validate_vpc_id_nonempty _ Hv). simpl.
  destruct (validate_vpc_id vpc_id) as [valid msg]. simpl in Hv. subst valid.
  simpl. unfold bind at 1.
  rewrite get_vpc_run by exact Hf1. rewrite Hl. simpl.
  rewrite bool_decide_eq_false_2 by exact Hne. simpl.
  unfold bind at 1.
  rewrite update_vpc_status_run by exact Hf2. simpl. rewrite Hl. simpl.
  unfold after_marking. rewrite <- app_assoc. reflexivity.
Qed.

(** X18. When the record is stored, DynamoDB answers and the teardown
    goes through, the handler answers 200 with the deletion record of the
    teardown and the record is gone from the table.  The requests are, in
    order: the lookup, the status update, the teardown's requests (all
    answered), the second lookup and the deletion of the record. *)
Theorem handler_success (E : environment) (event : lambda_event) (w : world)
    (vpc_id : string) (it : item) (d : DeletionRecord) :
  default ∅ (pathParameters event) !! "vpc_id" = Some vpc_id ->
  fst (validate_vpc_id vpc_id) = true ->
  table w !! vpc_id = Some it -> it <> ∅ ->
  (forall h c, ddb_fault E h c = None) ->
  fst (delete_vpc E vpc_id (after_marking vpc_id it w)) = Ok d ->
  fst (handler E event w)
  = Ok (success_response d 200
          (Some ("VPC '" +:+ vpc_id
                 +:+ "' and all associated resources deleted successfully")))
  /\ table (snd (handler E event w)) = delete vpc_id (table w)
  /\ exists aws,
       new_events w (snd (handler E event w))
       = Ddb (GetItem vpc_id) None
         :: Ddb (UpdateItem vpc_id "status" (AttrS "deleting")) None
         :: aws ++ [Ddb (GetItem vpc_id) None; Ddb (DeleteItem vpc_id) None]
       /\ forallb is_delete_event aws = true
       /\ forallb event_ok aws = true.
Proof.
  intros Hp Hv Hl Hne Hf Hdel.
  destruct (handler E event w) as [resp w'] eqn:Hrun.
  unfold handler, try_except in Hrun.
  rewrite (handler_body_marks event E vpc_id it w Hp Hv Hl Hne
             (Hf _ _) (Hf _ _)) in Hrun.
  unfold bind at 1 in Hrun. unfold delete_from_aws, try_except in Hrun.
  destruct (delete_vpc E vpc_id (after_marking vpc_id it w)) as [r w3] eqn:Hd.
  simpl in Hdel. subst r.
  apply fail_stop_delete_vpc in Hd as (aws & Htr & Htab & Haws & Hok).
  unfold bind at 1 in Hrun.
  rewrite (store_delete_vpc_run E vpc_id
             (<[ "status" := AttrS "deleting" ]> it) w3 Hf) in Hrun.
  - simpl in Hrun. injection Hrun as <- <-. simpl.
    split; [reflexivity|]. split.
    + rewrite Htab. unfold after_marking. simpl. apply delete_insert_eq.
    + exists aws. split; [|auto].
      unfold new_events. simpl. rewrite Htr. unfold after_marking. simpl.
      rewrite <- !app_assoc. rewrite drop_app_length. reflexivity.
  - rewrite Htab. unfold after_marking. simpl. apply lookup_insert_eq.
  - apply insert_non_empty.
Qed.

Lemma handler_success_witness :
  fst (handler Scenario.happy Scenario.delete_event Scenario.w_stored)
  = Ok (success_response
          {| del_vpc_id := "vpc-0a1b2c3d";
             del_status := "deleted";
             deleted_at := Some "2024-01-15T10:30:00Z";
             note := None |}
          200
          (Some ("VPC '" +:+ "vpc-0a1b2c3d"
                 +:+ "' and all associated resources deleted successfully")))
  /\ table (snd (handler Scenario.happy Scenario.delete_event
                   Scenario.w_stored))
     = delete "vpc-0a1b2c3d" (table Scenario.w_stored).
Proof.
  destruct (handler_success Scenario.happy Scenario.delete_event
              Scenario.w_stored "vpc-0a1b2c3d" Scenario.stored_item
              {| del_vpc_id := "vpc-0a1b2c3d";
                 del_status := "deleted";
                 deleted_at := Some "2024-01-15T10:30:00Z";
                 note := None |}) as (Hr & Ht & _).
  - reflexivity.
  - reflexivity.
  - reflexivity.
  - apply insert_non_empty.
  - intros h c. reflexivity.
  - vm_compute. reflexivity.
  - split; [exact Hr|exact Ht].
Defined.

(** X19. When the lookup fails with a service error, the handler answers
    with the error response of its [except] clauses (500, or 400 for the
    code [DependencyViolation]) and stops there: nothing is sent to EC2,
    no status is written and the table is unchanged. *)
Theorem handler_lookup_fails (E : environment) (event : lambda_event)
    (w : world) (vpc_id : string) (e : exn) :
  default ∅ (pathParameters event) !! "vpc_id" = Some vpc_id ->
  fst (validate_vpc_id vpc_id) = true ->
  ddb_fault E (trace w) (GetItem vpc_id) = Some e ->
  handler E event w
  = (Ok match e with
        | ClientError code _ =>
            if String.eqb code "DependencyViolation"
            then validation_error_response dependency_message
                   (Some [("aws_error", code)])
            else internal_error_response e
        | _ => internal_error_response e
        end,
     World (trace w ++ [Ddb (GetItem vpc_id) (Some e)]) (table w)
       (clock_reads w)).
Proof.
  intros Hp Hv Hf. unfold handler, try_except, handler_body.
  rewrite Hp, (validate_vpc_id_nonempty _ Hv). simpl.
  destruct (validate_vpc_id vpc_id) as [valid msg]. simpl in Hv. subst valid.
  simpl. unfold bind at 1.
  unfold get_vpc, try_except, table_get_item, ddb_request.
  rewrite Hf. unfold raise.
  destruct e as [code m| | | ]; try reflexivity.
  destruct (String.eqb code "DependencyViolation"); reflexivity.
Qed.

Lemma handler_lookup_fails_witness :
  handler Faults.ddb_down Scenario.delete_event Scenario.w_stored
  = (Ok (internal_error_response Faults.throttled),
     World [Ddb (GetItem "vpc-0a1b2c3d") (Some Faults.throttled)]
       (table Scenario.w_stored) 0).
Proof.
  apply (handler_lookup_fails Faults.ddb_down Scenario.delete_event
           Scenario.w_stored "vpc-0a1b2c3d" Faults.throttled); reflexivity.
Defined.

(** X20. When the teardown goes through and DynamoDB then refuses to
    delete the record, the handler answers 500 although the network is
    deleted at the provider, and the record stays in the table with the
    status ["deleting"]. *)
Theorem handler_record_left_behind (E : environment) (event : lambda_event)
    (w w3 : world) (vpc_id code msg : string) (it : item)
    (d : DeletionRecord) :
  default ∅ (pathParameters event) !! "vpc_id" = Some vpc_id ->
  fst (validate_vpc_id vpc_id) = true ->
  table w !! vpc_id = Some it -> it <> ∅ ->
  ddb_fault E (trace w) (GetItem vpc_id) = None ->
  ddb_fault E (trace w ++ [Ddb (GetItem vpc_id) None])
    (UpdateItem vpc_id "status" (AttrS "deleting")) = None ->
  delete_vpc E vpc_id (after_marking vpc_id it w) = (Ok d, w3) ->
  ddb_fault E (trace w3) (GetItem vpc_id) = None ->
  ddb_fault E (trace w3 ++ [Ddb (GetItem vpc_id) None]) (DeleteItem vpc_id)
  = Some (ClientError code msg) ->
  code <> "DependencyViolation" ->
  fst (handler E event w) = Ok (internal_error_response (ClientError code msg))
  /\ table (snd (handler E event w)) !! vpc_id
     = Some (<[ "status" := AttrS "deleting" ]> it)
  /\ In (Ec2 (DeleteVpc vpc_id) (Ok tt)) (new_events w (snd (handler E event w))).
Proof.
  intros Hp Hv Hl Hne Hf1 Hf2 Hd Hf3 Hf4 Hcode.
  destruct (handler E event w) as [resp w'] eqn:Hrun.
  unfold handler, try_except in Hrun.
  rewrite (handler_body_marks event E vpc_id it w Hp Hv Hl Hne Hf1 Hf2)
    in Hrun.
  unfold bind at 1 in Hrun. unfold delete_from_aws, try_except in Hrun.
  rewrite Hd in Hrun.
  pose proof (delete_vpc_Ok_inv E _ _ _ _ Hd) as (subs & rts & igws & Hev & _).
  apply fail_stop_delete_vpc in Hd as (aws & Htr & Htab & _).
  assert (Hl3 : table w3 !! vpc_id
                = Some (<[ "status" := AttrS "deleting" ]> it)).
  { rewrite Htab. unfold after_marking. simpl. apply lookup_insert_eq. }
  unfold bind at 1 in Hrun.
  unfold store_delete_vpc, try_except, bind in Hrun.
  rewrite get_vpc_run in Hrun by exact Hf3. rewrite Hl3 in Hrun.
  simpl in Hrun.
  rewrite bool_decide_eq_false_2 in Hrun by apply insert_non_empty.
  simpl in Hrun.
  unfold table_delete_item, ddb_request in Hrun. simpl in Hrun.
  rewrite Hf4 in Hrun. unfold raise in Hrun.
  apply String.eqb_neq in Hcode. rewrite Hcode in Hrun.
  unfold ret in Hrun. injection Hrun as <- <-. simpl.
  split; [reflexivity|]. split; [exact Hl3|].
  unfold new_events. simpl.
  unfold new_events in Hev. rewrite Htr in Hev |- *.
  unfold after_marking in Hev |- *. simpl in Hev |- *.
  rewrite <- !app_assoc. rewrite drop_app_length.
  rewrite drop_app_length in Hev.
  apply in_or_app. right. apply in_or_app. left. rewrite Hev.
  right. apply in_or_app. right. right. apply in_or_app. right.
  right. apply in_or_app. right. left. reflexivity.
Qed.

Lemma handler_record_left_behind_witness :
  fst (handler Faults.ddb_delete_refused Scenario.delete_event
         Scenario.w_stored)
  = Ok (internal_error_response Faults.throttled)
  /\ table (snd (handler Faults.ddb_delete_refused Scenario.delete_event
                   Scenario.w_stored)) !! "vpc-0a1b2c3d"
     = Some (<[ "status" := AttrS "deleting" ]> Scenario.stored_item).
Proof.
  edestruct (handler_record_left_behind Faults.ddb_delete_refused
               Scenario.delete_event Scenario.w_stored)
    as (Hr & Ht & _).
  - reflexivity.
  - reflexivity.
  - reflexivity.
  - apply insert_non_empty.
  - reflexivity.
  - reflexivity.
  - vm_compute. reflexivity.
  - reflexivity.
  - reflexivity.
  - discriminate.
  - split; [exact Hr|exact Ht].
Defined.

(** ** Request validation: identifiers and names *)

Lemma span_spec p s h t :
  span p s = (h, t) ->
  s = h +:+ t /\ string_forall p h = true
  /\ (t = EmptyString \/ exists c t', t = String c t' /\ p c = false).
Proof.
  revert h t. induction s as [|a s IH]; simpl; intros h t H.
  - injection H as <- <-. auto.
  - destruct (p a) eqn:Hp.
    + destruct (span p s) as [h' t'] eqn:Hs. injection H as <- <-.
      destruct (IH _ _ eq_refl) as (Hst & Hh & Ht).
      split; [rewrite Hst; reflexivity|].
      split; [simpl; rewrite Hp; exact Hh|exact Ht].
    + injection H as <- <-. repeat split. right. eauto.
Qed.

Lemma span_app p h t :
  string_forall p h = true ->
  (t = EmptyString \/ exists c t', t = String c t' /\ p c = false) ->
  span p (h +:+ t) = (h, t).
Proof.
  intros Hh Ht. induction h as [|a h IH]; simpl in *.
  - destruct Ht as [->|(c & t' & -> & Hc)]; simpl; [reflexivity|].
    rewrite Hc. reflexivity.
  - apply andb_true_iff in Hh as [Ha Hh]. rewrite Ha, (IH Hh). reflexivity.
Qed.

Lemma string_eqb_tail t :
  String.eqb t EmptyString || String.eqb t (String "010" EmptyString) = true
  <-> t = EmptyString \/ t = String "010" EmptyString.
Proof.
  rewrite orb_true_iff, !String.eqb_eq. reflexivity.
Qed.

Ltac ascii_cases c H :=
  destruct c as [[] [] [] [] [] [] [] []];
  try (exfalso; clear - H; cbn in H; discriminate H).

Lemma vpc_id_matches_prefix s :
  vpc_id_matches s = true -> exists rest, s = "vpc-" +:+ rest.
Proof.
  intros H.
  destruct s as [|c1 s]; [discriminate|]. ascii_cases c1 H.
  destruct s as [|c2 s]; [discriminate|]. ascii_cases c2 H.
  destruct s as [|c3 s]; [discriminate|]. ascii_cases c3 H.
  destruct s as [|c4 s]; [discriminate|]. ascii_cases c4 H.
  exists s. reflexivity.
Qed.

(** X21. [validate_vpc_id] accepts exactly the strings made of [vpc-],
    then 8 to 17 characters among [0-9] and [a-f], then nothing or one
    line feed: the [$] of the pattern lets a final line feed through. *)
Theorem validate_vpc_id_accepts_iff (vpc_id : string) :
  fst (validate_vpc_id vpc_id) = true <->
  exists hex tail,
    vpc_id = "vpc-" +:+ hex +:+ tail
    /\ string_forall is_lower_hex hex = true
    /\ (8 <= String.length hex <= 17)%nat
    /\ (tail = EmptyString \/ tail = String "010" EmptyString).
Proof.
  unfold validate_vpc_id. split.
  - destruct (String.eqb vpc_id EmptyString); [discriminate|].
    destruct (vpc_id_matches vpc_id) eqn:Hm; [intros _|discriminate].
    destruct (vpc_id_matches_prefix _ Hm) as [rest ->].
    change (vpc_id_matches ("vpc-" +:+ rest))
      with (let '(hex, tail) := span is_lower_hex rest in
            (8 <=? String.length hex)%nat && (String.length hex <=? 17)%nat
            && (String.eqb tail EmptyString
                || String.eqb tail (String "010" EmptyString))) in Hm.
    destruct (span is_lower_hex rest) as [hex tail] eqn:Hs.
    apply span_spec in Hs as (-> & Hh & _).
    apply andb_true_iff in Hm as [Hm Ht].
    apply andb_true_iff in Hm as [H8 H17].
    apply Nat.leb_le in H8, H17. apply string_eqb_tail in Ht.
    exists hex, tail. auto.
  - intros (hex & tail & -> & Hh & [H8 H17] & Ht).
    change (String.eqb ("vpc-" +:+ hex +:+ tail) EmptyString) with false.
    cbv iota.
    change (vpc_id_matches ("vpc-" +:+ hex +:+ tail))
      with (let '(hex, tail) := span is_lower_hex (hex +:+ tail) in
            (8 <=? String.length hex)%nat && (String.length hex <=? 17)%nat
            && (String.eqb tail EmptyString
                || String.eqb tail (String "010" EmptyString))).
    rewrite (span_app is_lower_hex hex tail Hh).
    + apply Nat.leb_le in H8, H17. rewrite H8, H17.
      apply string_eqb_tail in Ht. rewrite Ht. reflexivity.
    + destruct Ht as [->| ->]; [left; reflexivity|].
      right. eexists _, _. split; reflexivity.
Qed.

Lemma is_ascii_alnum_isalnum c :
  PyChar.is_ascii_alnum c = true -> PyChar.isalnum c = true.
Proof.
  unfold PyChar.isalnum. intros ->. reflexivity.
Qed.

Lemma name_char_not_space c :
  PyChar.name_char c = true -> PyStr.is_space c = false.
Proof.
  destruct c as [[] [] [] [] [] [] [] []]; vm_compute; congruence.
Qed.

Lemma is_ascii_alnum_name_char c :
  PyChar.is_ascii_alnum c = true -> PyChar.name_char c = true.
Proof.
  unfold PyChar.name_char. intros ->. reflexivity.
Qed.

Lemma validate_vpc_name_accepted name :
  fst (validate_vpc_name name) = true ->
  exists c body tail,
    name = Some (String c (body +:+ tail))
    /\ PyChar.is_ascii_alnum c = true
    /\ string_forall PyChar.name_char body = true
    /\ (tail = EmptyString \/ tail = String "010" EmptyString)
    /\ (String.length (String c (body +:+ tail)) <= 255)%nat.
Proof.
  destruct name as [[|c rest]|]; try discriminate.
  unfold validate_vpc_name.
  destruct (255 <? String.length (String c rest))%nat eqn:Hlen;
    [discriminate|].
  destruct (String.length (String c rest) <? 1)%nat; [discriminate|].
  destruct (negb (PyChar.isalnum c)); [discriminate|].
  destruct (vpc_name_matches (String c rest)) eqn:Hm; [intros _|discriminate].
  simpl in Hm. apply andb_true_iff in Hm as [Hc Hm].
  destruct (span PyChar.name_char rest) as [body tail] eqn:Hs.
  apply span_spec in Hs as (-> & Hb & _).
  apply string_eqb_tail in Hm. apply Nat.ltb_ge in Hlen.
  exists c, body, tail. auto.
Qed.

(** X22. [validate_vpc_name] accepts exactly the names of at most 255
    characters that start with an ASCII letter or digit and go on with
    ASCII letters, digits, hyphens and underscores, then nothing or one
    line feed.  A missing name is rejected. *)
Theorem validate_vpc_name_accepts_iff (name : option string) :
  fst (validate_vpc_name name) = true <->
  exists c body tail,
    name = Some (String c (body +:+ tail))
    /\ PyChar.is_ascii_alnum c = true
    /\ string_forall PyChar.name_char body = true
    /\ (tail = EmptyString \/ tail = String "010" EmptyString)
    /\ (String.length (String c (body +:+ tail)) <= 255)%nat.
Proof.
  split; [apply validate_vpc_name_accepted|].
  intros (c & body & tail & -> & Hc & Hb & Ht & Hlen).
  unfold validate_vpc_name.
  apply Nat.ltb_ge in Hlen. rewrite Hlen.
  change (String.length (String c (body +:+ tail)) <? 1)%nat with false.
  rewrite (is_ascii_alnum_isalnum _ Hc).
  cbn [negb vpc_name_matches]. rewrite Hc.
  rewrite (span_app PyChar.name_char body tail Hb).
  - apply string_eqb_tail in Ht. rewrite Ht. reflexivity.
  - destruct Ht as [->| ->]; [left; reflexivity|].
    right. eexists _, _. split; reflexivity.
Qed.

(** ** Request validation: the address range *)

Lemma int_checked_Ok x z : PyStr.int x = Ok z -> int_checked x = Ok z.
Proof. unfold int_checked. intros ->. reflexivity. Qed.

Lemma int_checked_Raise x e :
  PyStr.int x = Raise e -> exists msg, int_checked x = Raise (ValueError msg).
Proof. unfold int_checked. intros ->. eauto. Qed.

Lemma parse_octet_int x z :
  PyStr.int x = Ok z ->
  parse_octet x = if (z <? 0) || (z >? 255) then None else Some z.
Proof.
  unfold parse_octet. intros ->.
  destruct (z <? 0) eqn:H0; destruct (z >? 255) eqn:H255; simpl.
  - replace (0 <=? z) with false by lia. reflexivity.
  - replace (0 <=? z) with false by lia. reflexivity.
  - replace (z <=? 255) with false by lia. rewrite andb_false_r. reflexivity.
  - replace (0 <=? z) with true by lia.
    replace (z <=? 255) with true by lia. reflexivity.
Qed.

Lemma parse_octet_Raise x e : PyStr.int x = Raise e -> parse_octet x = None.
Proof. unfold parse_octet. intros ->. reflexivity. Qed.

(** What the loop over the octets yields, against [parse_octet]. *)
Lemma check_octets_spec l :
  match check_octets l with
  | Ok None => Forall (fun x => is_Some (parse_octet x)) l
  | Ok (Some _) => Exists (fun x => parse_octet x = None) l
  | Raise e =>
      (exists msg, e = ValueError msg)
      /\ Exists (fun x => parse_octet x = None) l
  end.
Proof.
  induction l as [|x l IH]; simpl; [constructor|].
  unfold int_checked.
  destruct (PyStr.int x) as [z|e] eqn:Hx.
  - pose proof (parse_octet_int _ _ Hx) as Hp.
    destruct ((z <? 0) || (z >? 255)).
    { apply Exists_cons_hd. exact Hp. }
    destruct (check_octets l) as [[msg|]|e].
    + apply Exists_cons_tl, IH.
    + constructor; [rewrite Hp; eauto|exact IH].
    + destruct IH as [He Hl]. split; [exact He|]. apply Exists_cons_tl, Hl.
  - split; [eauto|]. apply Exists_cons_hd. exact (parse_octet_Raise _ _ Hx).
Qed.

Lemma parse_prefix_spec p :
  match PyStr.int p with
  | Ok n =>
      (parse_prefix p = Some n /\ 0 <= n <= 32)
      \/ (parse_prefix p = None /\ (n < 0 \/ 32 < n))
  | Raise _ => parse_prefix p = None
  end.
Proof.
  unfold parse_prefix. destruct (PyStr.int p) as [n|e]; [|reflexivity].
  destruct (0 <=? n) eqn:H0; destruct (n <=? 32) eqn:H32; simpl;
    [left|right|right|right]; split; try reflexivity; lia.
Qed.

(** [validate_cidr_block] never raises, and it accepts exactly the
    well-formed top-level ranges. *)
Lemma validate_cidr_block_spec cidr :
  exists error,
    validate_cidr_block cidr = Ok (well_formed_top_level cidr, error)
    /\ (error = None <-> well_formed_top_level cidr = true).
Proof.
  unfold validate_cidr_block, well_formed_top_level, parse_range.
  destruct (String.eqb cidr EmptyString) eqn:He.
  { apply String.eqb_eq in He as ->. eexists. split; [reflexivity|].
    split; discriminate. }
  destruct (PyStr.contains "/" cidr) eqn:Hc; simpl.
  2:{ rewrite (split_no_sep _ _ Hc). eexists. split; [reflexivity|].
      split; discriminate. }
  destruct (PyStr.split "/" cidr) as [|ip [|p [|? ?]]] eqn:Hs;
    try (eexists; split; [reflexivity|]; split; discriminate).
  pose proof (check_octets_spec (PyStr.split "." ip)) as Ho.
  destruct (PyStr.split "." ip) as [|a [|b [|c [|d [|? ?]]]]] eqn:Hip;
    try (eexists; split; [reflexivity|]; split; discriminate).
  cbn [length Nat.eqb negb].
  destruct (check_octets [a; b; c; d]) as [[msg|]|e].
  - assert (Hnone : match parse_octet a, parse_octet b, parse_octet c,
                          parse_octet d, parse_prefix p with
                    | Some a', Some b', Some c', Some d', Some n =>
                        Some {| octet1 := a'; octet2 := b'; octet3 := c';
                                octet4 := d'; prefix_length := n |}
                    | _, _, _, _, _ => None
                    end = None).
    { rewrite !Exists_cons in Ho.
      destruct Ho as [->|[->|[->|[->|Ho]]]];
        [| | | |inversion Ho]; repeat case_match; congruence. }
    rewrite Hnone. eexists. split; [reflexivity|]. split; discriminate.
  - rewrite !Forall_cons in Ho.
    destruct Ho as ([a' ->] & [b' ->] & [c' ->] & [d' ->] & _).
    pose proof (parse_prefix_spec p) as Hp. unfold int_checked.
    destruct (PyStr.int p) as [n|e].
    + destruct Hp as [[-> Hn]|[-> Hn]]; simpl.
      * destruct (n <? 16) eqn:H16; simpl.
        { replace (16 <=? n) with false by lia.
          eexists. split; [reflexivity|]. split; discriminate. }
        destruct (n >? 28) eqn:H28.
        { replace (n <=? 28) with false by lia. rewrite andb_false_r.
          eexists. split; [reflexivity|]. split; discriminate. }
        replace (16 <=? n) with true by lia.
        replace (n <=? 28) with true by lia.
        eexists. split; [reflexivity|]. split; reflexivity.
      * replace ((n <? 16) || (n >? 28)) with true by lia.
        eexists. split; [reflexivity|]. split; discriminate.
    + rewrite Hp. eexists. split; [reflexivity|]. split; discriminate.
  - destruct Ho as [[msg ->] Ho].
    assert (Hnone : match parse_octet a, parse_octet b, parse_octet c,
                          parse_octet d, parse_prefix p with
                    | Some a', Some b', Some c', Some d', Some n =>
                        Some {| octet1 := a'; octet2 := b'; octet3 := c';
                                octet4 := d'; prefix_length := n |}
                    | _, _, _, _, _ => None
                    end = None).
    { rewrite !Exists_cons in Ho.
      destruct Ho as [->|[->|[->|[->|Ho]]]];
        [| | | |inversion Ho]; repeat case_match; congruence. }
    rewrite Hnone. eexists. split; [reflexivity|]. split; discriminate.
Qed.

(** ** Stripping white space *)


Lemma str_app_cons a (x y : string) : String a x +:+ y = String a (x +:+ y).
Proof. reflexivity. Qed.

Lemma str_app_nil (y : string) : EmptyString +:+ y = y.
Proof. reflexivity. Qed.



Lemma rstrip_cons a s :
  PyStr.rstrip (String a s)
  = match PyStr.rstrip s with
    | EmptyString =>
        if PyStr.is_space a then EmptyString else String a EmptyString
    | r => String a r
    end.
Proof. reflexivity. Qed.


















(** A well-formed top-level range passes [_validate_cidr]. *)
Lemma well_formed_validate_cidr s :
  well_formed_top_level s = true -> _validate_cidr s = Ok tt.
Proof.
  unfold well_formed_top_level.
  destruct (parse_range s) as [r|] eqn:Hr; [|discriminate]. intros Hn.
  destruct (parse_range_inv _ _ Hr)
    as (ip & p & a & b & c & d & Hs & Hip & _ & _ & _ & _ & Hp).
  unfold parse_prefix in Hp.
  destruct (PyStr.int p) as [n|] eqn:Hi; [|discriminate].
  destruct ((0 <=? n) && (n <=? 32)); [|discriminate].
  injection Hp as Hp. rewrite <- Hp in Hn.
  unfold _validate_cidr.
  rewrite (split_two_contains _ _ _ _ Hs), Hs, Hip, Hi. simpl.
  replace (n <? 16) with false by lia.
  replace (n >? 28) with false by lia. reflexivity.
Qed.

Lemma rstrip_name_chars x :
  string_forall PyChar.name_char x = true -> PyStr.rstrip x = x.
Proof.
  induction x as [|a x IH]; [reflexivity|]. simpl string_forall.
  intros H. apply andb_true_iff in H as [Ha Hx].
  rewrite rstrip_cons, (IH Hx).
  destruct x; [|reflexivity].
  rewrite (name_char_not_space _ Ha). reflexivity.
Qed.

Lemma rstrip_line_feed x :
  PyStr.rstrip (x +:+ String "010" EmptyString) = PyStr.rstrip x.
Proof.
  induction x as [|a x IH]; [reflexivity|].
  rewrite str_app_cons, !rstrip_cons, IH. reflexivity.
Qed.

Lemma str_length_app (x y : string) :
  String.length (x +:+ y) = (String.length x + String.length y)%nat.
Proof.
  induction x as [|a x IH]; [reflexivity|].
  rewrite str_app_cons. simpl. rewrite IH. reflexivity.
Qed.

(** The name an accepted request carries, after [strip]. *)
Lemma strip_accepted_name c body tail :
  PyChar.is_ascii_alnum c = true ->
  string_forall PyChar.name_char body = true ->
  tail = EmptyString \/ tail = String "010" EmptyString ->
  PyStr.strip (String c (body +:+ tail)) = String c body.
Proof.
  intros Hc Hb Ht.
  pose proof (name_char_not_space _ (is_ascii_alnum_name_char _ Hc)) as Hs.
  unfold PyStr.strip. cbn [PyStr.lstrip]. rewrite Hs.
  assert (Hall : string_forall PyChar.name_char (String c body) = true).
  { simpl. rewrite (is_ascii_alnum_name_char _ Hc), Hb. reflexivity. }
  destruct Ht as [->| ->].
  - replace (body +:+ EmptyString) with body.
    + apply rstrip_name_chars, Hall.
    + clear. induction body as [|a b IH]; [reflexivity|].
      rewrite str_app_cons, <- IH. reflexivity.
  - rewrite <- str_app_cons, rstrip_line_feed. apply rstrip_name_chars, Hall.
Qed.

Lemma validate_vpc_name_shape name :
  fst (validate_vpc_name name) = true <-> snd (validate_vpc_name name) = None.
Proof.
  unfold validate_vpc_name.
  destruct name as [[|c rest]|]; try (split; discriminate).
  repeat match goal with
         | |- context [if ?b then _ else _] => destruct b
         end; simpl; split; (discriminate || reflexivity).
Qed.

Lemma validate_create_vpc_request_inv body error v :
  validate_create_vpc_request body = Ok (true, error, Some v) ->
  exists b,
    body = Some b
    /\ fst (validate_vpc_name (b !! "name")) = true
    /\ well_formed_top_level (default "10.0.0.0/16" (b !! "cidr_block")) = true
    /\ validated_name v = PyStr.strip (default EmptyString (b !! "name"))
    /\ validated_cidr_block v
       = PyStr.strip (default "10.0.0.0/16" (b !! "cidr_block")).
Proof.
  unfold validate_create_vpc_request.
  destruct body as [b|]; [|discriminate].
  destruct (validate_vpc_name (b !! "name")) as [ok1 e1] eqn:Hn.
  destruct ok1; [|discriminate]. cbn [negb].
  destruct (validate_cidr_block_spec (default "10.0.0.0/16" (b !! "cidr_block")))
    as (e2 & -> & _).
  destruct (well_formed_top_level (default "10.0.0.0/16" (b !! "cidr_block")))
    eqn:Hwf; [|discriminate].
  cbn [negb]. intros [= <- <-]. exists b. rewrite Hn, Hwf. simpl. auto.
Qed.


(** X24. The request validator is at least as strict as the manager's:
    a range that [validate_cidr_block] accepts passes
    [VPCManager._validate_cidr]. *)
Theorem validate_cidr_block_stricter (cidr : string) (error : option string) :
  validate_cidr_block cidr = Ok (true, error) -> _validate_cidr cidr = Ok tt.
Proof.
  intros H. destruct (validate_cidr_block_spec cidr) as (e & He & _).
  rewrite He in H. injection H as H _.
  apply well_formed_validate_cidr, H.
Qed.

Lemma validate_cidr_block_stricter_witness :
  _validate_cidr "172.16.0.0/20" = Ok tt.
Proof.
  apply (validate_cidr_block_stricter "172.16.0.0/20" None).
  vm_compute. reflexivity.
Defined.

(** X25. The name in the validated data of an accepted request is not
    empty, has at most 255 characters, starts with an ASCII letter or
    digit and holds only ASCII letters, digits, hyphens and underscores;
    it is the name of the request, without its final line feed if it had
    one. *)
Theorem validated_name_clean (body : option (gmap string string))
    (error : option string) (v : validated_request) :
  validate_create_vpc_request body = Ok (true, error, Some v) ->
  exists c rest b,
    validated_name v = String c rest
    /\ PyChar.is_ascii_alnum c = true
    /\ string_forall PyChar.name_char rest = true
    /\ (String.length (validated_name v) <= 255)%nat
    /\ body = Some b
    /\ (b !! "name" = Some (validated_name v)
        \/ b !! "name"
           = Some (validated_name v +:+ String "010" EmptyString)).
Proof.
  intros H.
  apply validate_create_vpc_request_inv in H as (b & -> & Hn & _ & Hv & _).
  apply validate_vpc_name_accepted in Hn
    as (c & rest & tail & Hname & Hc & Hr & Ht & Hlen).
  rewrite Hname in Hv. simpl in Hv.
  rewrite (strip_accepted_name c rest tail Hc Hr Ht) in Hv.
  exists c, rest, b. rewrite Hv.
  split; [reflexivity|]. split; [exact Hc|]. split; [exact Hr|].
  split.
  { simpl in Hlen |- *. rewrite str_length_app in Hlen. lia. }
  split; [reflexivity|]. rewrite Hname.
  destruct Ht as [->| ->]; [left|right; reflexivity].
  f_equal. f_equal. clear. induction rest as [|a r IH]; [reflexivity|].
  rewrite str_app_cons, IH. reflexivity.
Qed.

Lemma validated_name_clean_witness :
  exists c rest b,
    validated_name {| validated_name := "test-vpc";
                      validated_cidr_block := "10.0.0.0/16" |}
    = String c rest
    /\ PyChar.is_ascii_alnum c = true
    /\ string_forall PyChar.name_char rest = true
    /\ (String.length
          (validated_name {| validated_name := "test-vpc";
                             validated_cidr_block := "10.0.0.0/16" |})
        <= 255)%nat
    /\ Some (<["name" := String "t" (String "e" (String "s" (String "t"
               (String "-" (String "v" (String "p" (String "c"
               (String "010" EmptyString))))))))]> (∅ : gmap string string))
       = Some b
    /\ (b !! "name"
        = Some (validated_name {| validated_name := "test-vpc";
                                  validated_cidr_block := "10.0.0.0/16" |})
        \/ b !! "name"
           = Some (validated_name {| validated_name := "test-vpc";
                                     validated_cidr_block := "10.0.0.0/16" |}
                   +:+ String "010" EmptyString)).
Proof.
  apply (validated_name_clean _ None). vm_compute. reflexivity.
Defined.



(** X27. [validate_create_vpc_request] never raises on a body whose
    values are strings, and its three results agree: an accepted request
    has no error message and has validated data, a rejected one has an
    error message and no data. *)
Theorem validate_create_vpc_request_outcome
    (body : option (gmap string string)) :
  exists ok error data,
    validate_create_vpc_request body = Ok (ok, error, data)
    /\ (ok = true <-> error = None)
    /\ (ok = true <-> is_Some data).
Proof.
  unfold validate_create_vpc_request.
  destruct body as [b|].
  2:{ eexists _, _, _. split; [reflexivity|].
      split; split; try discriminate. intros [? [=]]. }
  pose proof (validate_vpc_name_shape (b !! "name")) as Hn.
  destruct (validate_vpc_name (b !! "name")) as [ok1 e1]. simpl in Hn.
  destruct ok1; cbn [negb].
  2:{ eexists _, _, _. split; [reflexivity|].
      split; split; try discriminate.
      - intros ->. apply Hn. reflexivity.
      - intros [? [=]]. }
  destruct (validate_cidr_block_spec (default "10.0.0.0/16" (b !! "cidr_block")))
    as (e2 & -> & He2).
  destruct (well_formed_top_level (default "10.0.0.0/16" (b !! "cidr_block")));
    cbn [negb]; eexists _, _, _; (split; [reflexivity|]).
  - split; split; eauto.
  - split; split; try discriminate.
    + intros ->. apply He2. reflexivity.
    + intros [? [=]].
Qed.

(** ** Creation fails only when the provider does *)

Ltac fail_stop_steps E :=
  repeat first
    [ apply fail_stop_bind; [|intros ?]
    | match goal with
      | |- fail_stop ?P (ec2_request _ ?c) =>
          exact (fail_stop_ec2_request E P c (fun _ => eq_refl))
      | |- fail_stop _ (if ?b then _ else _) => destruct b
      end
    | apply fail_stop_utcnow
    | apply fail_stop_ret ].

Section CreateFailStop.

Context (E : environment).

Lemma fail_stop_get_tags P name kind rid :
  fail_stop P (_get_tags E name kind rid).
Proof. unfold _get_tags. fail_stop_steps E. Qed.

Lemma fail_stop_create_vpc_network name cidr rid :
  _validate_cidr cidr = Ok tt ->
  fail_stop is_create_event (create_vpc_network E name cidr rid).
Proof.
  intros Hv. unfold create_vpc_network. rewrite Hv.
  apply fail_stop_bind; [exact (fail_stop_ret _ tt)|intros _].
  apply fail_stop_bind; [apply fail_stop_get_tags|intros tags].
  fail_stop_steps E.
Qed.

Lemma fail_stop_create_vpc_resources region name cidr rid vid :
  _validate_cidr cidr = Ok tt ->
  fail_stop is_create_event (create_vpc_resources E region name cidr rid vid).
Proof.
  intros Hv. unfold create_vpc_resources.
  destruct (validated_range_derives cidr tt 1 Hv) as [c1 ->].
  destruct (validated_range_derives cidr tt 2 Hv) as [c2 ->].
  unfold _get_availability_zones, _create_subnet, _create_internet_gateway,
    _configure_public_routing.
  repeat first
    [ apply fail_stop_get_tags
    | exact (fail_stop_ret _ _)
    | apply fail_stop_bind; [|intros ?]
    | match goal with
      | |- fail_stop ?P (ec2_request _ ?c) =>
          exact (fail_stop_ec2_request E P c (fun _ => eq_refl))
      | |- fail_stop _ (if ?b then _ else _) => destruct b
      | |- fail_stop _ (lift (Ok ?a)) => exact (fail_stop_ret _ a)
      end
    | apply fail_stop_utcnow
    | apply fail_stop_ret ].
Qed.

End CreateFailStop.

(** X28. With a range that [_validate_cidr] accepts, [create_vpc] fails
    only when the provider does.  The metadata table is never touched.
    When [create_vpc] returns, every request it sent was a creation
    request and succeeded.  When it raises [e], some request was answered
    with [e], every request before it succeeded, no deletion was
    requested up to it, and whatever follows it are the requests of the
    rollback. *)
Theorem create_vpc_fails_only_by_provider (E : environment)
    (self_region name cidr : string) (rid : option string) (w : world) :
  _validate_cidr cidr = Ok tt ->
  table (snd (create_vpc E self_region name cidr rid w)) = table w
  /\ match fst (create_vpc E self_region name cidr rid w) with
     | Ok _ =>
         forallb event_ok
           (new_events w (snd (create_vpc E self_region name cidr rid w)))
         = true
         /\ forallb is_create_event
              (new_events w (snd (create_vpc E self_region name cidr rid w)))
            = true
     | Raise e =>
         exists pre c post,
           new_events w (snd (create_vpc E self_region name cidr rid w))
           = pre ++ Ec2 c (Raise e) :: post
           /\ forallb event_ok pre = true
           /\ forallb is_create_event (pre ++ [Ec2 c (Raise e)]) = true
           /\ forallb is_delete_event post = true
     end.
Proof.
  intros Hv.
  destruct (create_vpc E self_region name cidr rid w) as [r w'] eqn:Hrun.
  simpl. unfold create_vpc, create_vpc_try in Hrun.
  destruct (create_vpc_network E name cidr rid w) as [[vid|e] w1] eqn:Hn.
  - apply (fail_stop_create_vpc_network E name cidr rid Hv) in Hn
      as (n1 & Ht1 & Hb1 & Hp1 & Ho1).
    destruct (create_vpc_resources E self_region name cidr rid vid w1)
      as [[d|e] w2] eqn:Hr;
      apply (fail_stop_create_vpc_resources E self_region name cidr rid vid Hv)
        in Hr as (n2 & Ht2 & Hb2 & Hp2 & Ho2).
    + injection Hrun as <- <-. split; [congruence|].
      rewrite (new_events_app w w2 (n1 ++ n2))
        by (rewrite Ht2, Ht1, <- app_assoc; reflexivity).
      rewrite !forallb_app, Ho1, Ho2, Hp1, Hp2. auto.
    + destruct Ho2 as (pre & c & -> & Hpre).
      assert (Hcases :
        (r = Raise e /\ w' = w2) \/
        (r = Raise e /\ w' = snd (delete_vpc E vid w2))).
      { destruct e; simpl in Hrun; unfold raise in Hrun;
          try (left; split; congruence).
        right. unfold bind in Hrun.
        rewrite _cleanup_failed_vpc_run in Hrun. split; congruence. }
      destruct Hcases as [[-> ->]|[-> ->]].
      * split; [congruence|]. exists (n1 ++ pre), c, [].
        rewrite (new_events_app w w2 ((n1 ++ pre) ++ [Ec2 c (Raise e)]))
          by (rewrite Ht2, Ht1, <- !app_assoc; reflexivity).
        rewrite <- app_assoc, !forallb_app, Ho1, Hpre, Hp1.
        rewrite forallb_app in Hp2. auto.
      * destruct (delete_vpc E vid w2) as [rd w3] eqn:Hd. simpl.
        apply (fail_stop_delete_vpc E vid) in Hd
          as (n3 & Ht3 & Hb3 & Hp3 & _).
        split; [congruence|]. exists (n1 ++ pre), c, n3.
        rewrite (new_events_app w w3 ((n1 ++ pre) ++ Ec2 c (Raise e) :: n3))
          by (rewrite Ht3, Ht2, Ht1, <- !app_assoc; reflexivity).
        rewrite <- app_assoc, !forallb_app, Ho1, Hpre, Hp1.
        rewrite forallb_app in Hp2. auto.
  - apply (fail_stop_create_vpc_network E name cidr rid Hv) in Hn
      as (n1 & Ht1 & Hb1 & Hp1 & (pre & c & -> & Hpre)).
    assert (r = Raise e /\ w' = w1) as [-> ->].
    { destruct e; simpl in Hrun; unfold raise, bind, ret in Hrun;
        split; congruence. }
    split; [congruence|]. exists pre, c, [].
    rewrite (new_events_app w w1 (pre ++ [Ec2 c (Raise e)])) by exact Ht1.
    auto.
Qed.

Lemma create_vpc_fails_only_by_provider_witness :
  table (snd (create_vpc Scenario.route_table_fails "us-east-2" "demo"
                "10.0.0.0/16" None Scenario.w_stored))
  = table Scenario.w_stored
  /\ match fst (create_vpc Scenario.route_table_fails "us-east-2" "demo"
                  "10.0.0.0/16" None Scenario.w_stored) with
     | Ok _ =>
         forallb event_ok
           (new_events Scenario.w_stored
              (snd (create_vpc Scenario.route_table_fails "us-east-2" "demo"
                      "10.0.0.0/16" None Scenario.w_stored)))
         = true
         /\ forallb is_create_event
              (new_events Scenario.w_stored
                 (snd (create_vpc Scenario.route_table_fails "us-east-2"
                         "demo" "10.0.0.0/16" None Scenario.w_stored)))
            = true
     | Raise e =>
         exists pre c post,
           new_events Scenario.w_stored
             (snd (create_vpc Scenario.route_table_fails "us-east-2" "demo"
                     "10.0.0.0/16" None Scenario.w_stored))
           = pre ++ Ec2 c (Raise e) :: post
           /\ forallb event_ok pre = true
           /\ forallb is_create_event (pre ++ [Ec2 c (Raise e)]) = true
           /\ forallb is_delete_event post = true
     end.
Proof.
  apply (create_vpc_fails_only_by_provider Scenario.route_table_fails
           "us-east-2" "demo" "10.0.0.0/16" None Scenario.w_stored).
  vm_compute. reflexivity.
Defined.
